(** * Readiness polling and the drivers around it

  A shallow embedding of the scripts of the VPS configuration
  repository: [scripts/test_local.py] (the container and SSH readiness
  waits and the local test driver), [scripts/utilities/health_check.py],
  [scripts/validate.py] and [scripts/deployment/deploy.py].

  Conventions.
  - Time is counted in milliseconds, as [N]; a Python timeout of [t]
    seconds is [secs t].  [time.sleep n] advances the clock by exactly
    [secs n].
  - Python [str] values are Rocq strings; the string helpers below
    agree with Python on ASCII text, which is what the docker and
    systemctl status lines are.
  - The outside world (processes, HTTP servers, the file system) is an
    oracle the model is parameterised by.  Every observable action is
    appended to a trace. *)

From Stdlib Require Import String Ascii List Bool NArith ZArith Lia.
Import ListNotations.

Open Scope string_scope.

Ltac Zify.zify_post_hook ::= Z.div_mod_to_equations.

(* ================================================================== *)
(** ** Python string operations *)

Module Py.

(** [str.isspace] on one ASCII character: TAB, LF, VT, FF, CR, the four
    separators 0x1c-0x1f and the blank. *)
Definition isspace (c : ascii) : bool :=
  let n := N_of_ascii c in
  ((9 <=? n) && (n <=? 13) || (28 <=? n) && (n <=? 32))%N.

Fixpoint lstrip (s : string) : string :=
  match s with
  | EmptyString => EmptyString
  | String c r => if isspace c then lstrip r else s
  end.

Fixpoint rstrip (s : string) : string :=
  match s with
  | EmptyString => EmptyString
  | String c r =>
      match rstrip r with
      | EmptyString => if isspace c then EmptyString else String c EmptyString
      | r' => String c r'
      end
  end.

(** [s.strip()] *)
Definition strip (s : string) : string := rstrip (lstrip s).

(** [s.startswith(p)] *)
Fixpoint startswith (p s : string) : bool :=
  match p with
  | EmptyString => true
  | String a p' =>
      match s with
      | EmptyString => false
      | String b s' => Ascii.eqb a b && startswith p' s'
      end
  end.

(** [needle in s] *)
Fixpoint contains (needle s : string) : bool :=
  startswith needle s ||
  match s with
  | EmptyString => false
  | String _ r => contains needle r
  end.

Definition lower_ascii (c : ascii) : ascii :=
  let n := N_of_ascii c in
  if ((65 <=? n) && (n <=? 90))%N then ascii_of_N (n + 32) else c.

(** [s.lower()] on ASCII text: the letters [A]-[Z] are folded and every
    other character is left as it is. *)
Fixpoint lower (s : string) : string :=
  match s with
  | EmptyString => EmptyString
  | String c r => String (lower_ascii c) (lower r)
  end.

(** Truth value of a string: the empty string is false. *)
Definition truthy (s : string) : bool :=
  match s with EmptyString => false | _ => true end.

(** [sep.join(parts)] *)
Fixpoint join (sep : string) (parts : list string) : string :=
  match parts with
  | [] => EmptyString
  | [p] => p
  | p :: rest => p ++ sep ++ join sep rest
  end.

(** [s.split(sep)] for a one-character separator. *)
Fixpoint split (sep : ascii) (s : string) : list string :=
  match s with
  | EmptyString => [EmptyString]
  | String c r =>
      if Ascii.eqb c sep then EmptyString :: split sep r
      else match split sep r with
           | [] => [String c EmptyString]
           | w :: ws => String c w :: ws
           end
  end.

(** The characters a Rocq string literal cannot hold as they are. *)
Definition dq : string := String "034" EmptyString.
Definition tab : string := String "009" EmptyString.
Definition backslash : string := String "092" EmptyString.

End Py.

(* ================================================================== *)
(** ** pathlib

    A [PurePosixPath] is the list of its parts.  Joining a string splits
    it at the slashes, drops empty and [.] parts and keeps [..]; an
    absolute right operand replaces the left one. *)

Module Pathlib.

Definition path := list string.

Definition keep (part : string) : bool :=
  negb (part =? "")%string && negb (part =? ".")%string.

Definition parts (s : string) : list string :=
  filter keep (Py.split "/" s).

(** [p / s] *)
Definition joinpath (p : path) (s : string) : path :=
  if Py.startswith "/" s then "/" :: parts s else (p ++ parts s)%list.

(** [p.name]: the final part, empty for the root. *)
Definition name (p : path) : string :=
  match rev p with
  | [] => ""
  | last :: _ => if (last =? "/")%string then "" else last
  end.

(** [str(p)] *)
Definition render (p : path) : string :=
  match p with
  | [] => "."
  | "/" :: rest => "/" ++ Py.join "/" rest
  | _ => Py.join "/" p
  end.

End Pathlib.

(* ================================================================== *)
(** ** A monad for state, exceptions and bounded loops *)

Module Eff.

Inductive exn :=
| Exception (error : string)
| SystemExit (code : Z).

Inductive res (A : Type) :=
| Ok (a : A)
| Err (e : exn)
| OutOfFuel.

Arguments Ok {A} a.
Arguments Err {A} e.
Arguments OutOfFuel {A}.

Section Monad.

Context {W : Type}.

Definition M (A : Type) : Type := W -> res A * W.

Definition ret {A} (a : A) : M A := fun w => (Ok a, w).

Definition bind {A B} (m : M A) (k : A -> M B) : M B :=
  fun w =>
    match m w with
    | (Ok a, w') => k a w'
    | (Err e, w') => (Err e, w')
    | (OutOfFuel, w') => (OutOfFuel, w')
    end.

Definition raise {A} (e : exn) : M A := fun w => (Err e, w).

(** [sys.exit(code)] *)
Definition sys_exit {A} (code : Z) : M A := raise (SystemExit code).

(** [try: m  except Exception as e: h e].  [SystemExit] is not an
    [Exception] and passes through. *)
Definition try_except {A} (m : M A) (h : string -> M A) : M A :=
  fun w =>
    match m w with
    | (Err (Exception e), w') => h e w'
    | r => r
    end.

Definition act (f : W -> W) : M unit := fun w => (Ok tt, f w).

End Monad.

Arguments M W A : clear implicits.

Notation "x <- m ;; k" := (bind m (fun x => k))
  (at level 61, m at next level, right associativity).
Notation "m ;; k" := (bind m (fun _ => k))
  (at level 61, right associativity).

(** The exit status of the process whose [main] ended in [r]: 0 when
    [main] returns, the argument of [sys.exit], 1 for an uncaught
    exception. *)
Definition exit_status (r : res unit) : option Z :=
  match r with
  | Ok _ => Some 0%Z
  | Err (SystemExit code) => Some code
  | Err (Exception _) => Some 1%Z
  | OutOfFuel => None
  end.

End Eff.

(* ================================================================== *)
(** ** scripts/test_local.py *)

Module TestLocal.

Import Eff.

Definition secs (n : N) : N := (1000 * n)%N.

(** *** The outside world *)

(** What [subprocess.run(command, shell=True, capture_output=True,
    text=True)] does when it is left to run: the process exits with a
    return code and its captured output, or the call raises something
    that is neither [TimeoutExpired] nor [CalledProcessError] (an
    [OSError], a [UnicodeDecodeError] on undecodable output, ...). *)
Inductive behaviour :=
| Exits (returncode : Z) (stdout stderr : string)
| Crashes (error : string).

Record reply := { took : N; does : behaviour }.

Inductive http_reply :=
| Response (status_code : Z) (text : string)
| HttpError.

(** The host the script runs on.  [proc i c] is the reply to the [i]-th
    command the script launches when that command is [c]. *)
Record host := {
  proc : nat -> string -> reply;
  http : string -> http_reply;
  home : string;
  project_root : string;
  path_exists : string -> bool;
  read_text : string -> option string
}.

(** *** What the script can observe and what it leaves behind *)

Record CompletedProcess := {
  returncode : Z;
  stdout : string;
  stderr : string
}.

Inductive color := RED | GREEN | YELLOW | BLUE | NC.

(** One constructor per [print_status] call of the two waits, of
    [run_command] and of the endpoint loop; [Note] carries the fixed
    banners of [setup_ssh_access] and [main], without their leading
    pictograph. *)
Inductive msg :=
(* run_command *)
| Running (command : string)
| Stdout (text : string)
| Stderr (text : string)
| ExitCode (rc : Z)
| TimedOut (timeout : N) (command : string)
| CommandFailed (command : string)
| ErrorText (text : string)
(* wait_for_container_healthy *)
| WaitingFor (name : string)
| ExistsButStopped (name status : string)
| ContainerLogs
| NotFoundWaiting (name : string)
| ContainerStatus (status : string)
| HasExited (name status : string)
| SystemdReady (name : string)
| SystemdStatus (rc : option Z)
| SystemdCheck (error : string)
| IsRunning (name : string)
| CheckingContainer (error : string)
| NotReadyWithin (name : string) (timeout : N)
(* wait_for_ssh_service *)
| WaitingForSsh
| CheckingSshStatus
| SshActiveCheckingPort
| SshActiveAndListening
| SshNotListeningYet
| SshNotActiveStarting
| SshCheck (error : string)
| FinalSshDiagnostics
| CheckingSshInstallation
| CheckingSshConfig
| SshNotReadyWithin (timeout : N)
(* main, endpoint loop *)
| Responding (name : string)
| Inconclusive (name : string)
| Note (text : string).

Inductive ran :=
| Completed (p : CompletedProcess)
| Expired
| Raised (error : string).

Inductive event :=
| Ran (command : string) (r : ran)
| Slept (ms : N)
| Said (c : color) (m : msg)
| Fetched (url : string).

(** The state a run threads: the wall clock, the number of commands
    launched so far and the trace, most recent event first. *)
Record world := {
  clock : N;
  calls : nat;
  trace : list event
}.

Definition boot : world := {| clock := 0; calls := 0; trace := [] |}.

Definition log (e : event) (w : world) : world :=
  {| clock := clock w; calls := calls w; trace := e :: trace w |}.

Definition tick (ms : N) (w : world) : world :=
  {| clock := (clock w + ms)%N; calls := calls w; trace := trace w |}.

Definition count (w : world) : world :=
  {| clock := clock w; calls := S (calls w); trace := trace w |}.

(** The events of a run in the order they happened. *)
Definition history (w : world) : list event := rev (trace w).

Definition M (A : Type) : Type := Eff.M world A.

Definition now : M N := fun w => (Ok (clock w), w).

Definition say (c : color) (m : msg) : M unit := act (log (Said c m)).

(** [print_status] under [if cond:] *)
Definition say_if (cond : bool) (c : color) (m : msg) : M unit :=
  if cond then say c m else ret tt.

(** [time.sleep(n)]: the clock of the model advances by [n] seconds
    exactly, where Python promises no less than [n] seconds. *)
Definition sleep (n : N) : M unit :=
  act (fun w => log (Slept (secs n)) (tick (secs n) w)).

Inductive flow :=
| Return (b : bool)
| Continue
| Next.

Section Script.

Variable H : host.

(** *** run_command *)

(** [subprocess.run(..., timeout=timeout)] on a process that behaves as
    [r]: a process still running after [timeout] seconds is killed and
    the call ends in [TimeoutExpired]; otherwise the call lasts as long
    as the process does. *)
Definition answer (r : reply) (timeout : N) : ran :=
  if (secs timeout <? took r)%N then Expired
  else match does r with
       | Exits rc out err =>
           Completed {| returncode := rc; stdout := out; stderr := err |}
       | Crashes e => Raised e
       end.

Definition lasted (r : reply) (timeout : N) : N :=
  N.min (took r) (secs timeout).

(** The [calls]-th launch of the run. *)
Definition launch (command : string) (timeout : N) : M ran :=
  fun w =>
    let r := proc H (calls w) command in
    (Ok (answer r timeout),
     log (Ran command (answer r timeout)) (tick (lasted r timeout) (count w))).

(** [run_command(command, cwd, check, timeout, verbose)].  The result is
    [Some] of the completed process or [None]; with [check=False] no
    [CalledProcessError] is ever raised, so the handler's [return e] is
    not reached.  The working directory does not enter the model: the
    oracle already answers per launch. *)
Definition run_command (command : string) (cwd : option string)
    (check : bool) (timeout : N) (verbose : bool) : M (option CompletedProcess) :=
  say_if verbose BLUE (Running command) ;;
  r <- launch command timeout ;;
  match r with
  | Expired =>
      say RED (TimedOut timeout command) ;;
      ret None
  | Raised e => raise (Exception e)
  | Completed p =>
      if check && negb (returncode p =? 0)%Z then
        say RED (CommandFailed command) ;;
        say RED (ErrorText (stderr p)) ;;
        ret None
      else
        say_if (verbose && Py.truthy (stdout p)) GREEN (Stdout (Py.strip (stdout p))) ;;
        say_if (verbose && Py.truthy (stderr p)) YELLOW (Stderr (Py.strip (stderr p))) ;;
        say_if verbose BLUE (ExitCode (returncode p)) ;;
        ret (Some p)
  end.

(** *** wait_for_container_healthy *)

Definition ps_command (name : string) : string :=
  "docker ps --filter name=" ++ name ++ " --format '{{.Status}}'".

Definition ps_all_command (name : string) : string :=
  "docker ps -a --filter name=" ++ name ++ " --format '{{.Status}}'".

Definition logs_command (name tail : string) : string :=
  "docker logs " ++ name ++ " --tail " ++ tail.

Definition systemd_command (name : string) : string :=
  "docker exec " ++ name ++ " systemctl is-system-running --wait".

(** [result and result.stdout.strip()] as a truth value *)
Definition has_output (result : option CompletedProcess) : bool :=
  match result with
  | Some p => Py.truthy (Py.strip (stdout p))
  | None => false
  end.

(** [result and result.returncode in [0, 1]] *)
Definition systemd_ok (result : option CompletedProcess) : bool :=
  match result with
  | Some p => (returncode p =? 0)%Z || (returncode p =? 1)%Z
  | None => false
  end.

(** Lines 97-116: the container is [Up]. *)
Definition container_up (container_name : string) : M flow :=
  if (container_name =? "test-vps")%string then
    try_except
      (result <- run_command (systemd_command container_name) None false 10 false ;;
       if systemd_ok result then
         say GREEN (SystemdReady container_name) ;;
         ret (Return true)
       else
         say YELLOW (SystemdStatus (option_map returncode result)) ;;
         ret Next)
      (fun e => say YELLOW (SystemdCheck e) ;; ret Next)
  else
    say GREEN (IsRunning container_name) ;;
    ret (Return true).

(** Lines 66-119: the body of the [while] loop, one poll. *)
Definition container_poll (container_name : string) : M flow :=
  try_except
    (result <- run_command (ps_command container_name) None false 300 false ;;
     if negb (has_output result) then
       stopped_result <-
         run_command (ps_all_command container_name) None false 300 false ;;
       match stopped_result with
       | Some p =>
           if Py.truthy (Py.strip (stdout p)) then
             say RED (ExistsButStopped container_name (Py.strip (stdout p))) ;;
             say YELLOW ContainerLogs ;;
             run_command (logs_command container_name "20") None false 300 true ;;
             ret (Return false)
           else
             say YELLOW (NotFoundWaiting container_name) ;;
             sleep 3 ;;
             ret Continue
       | None =>
           say YELLOW (NotFoundWaiting container_name) ;;
           sleep 3 ;;
           ret Continue
       end
     else
       let status := Py.strip (match result with Some p => stdout p | None => "" end) in
       if negb (Py.startswith "Up" status) then
         say YELLOW (ContainerStatus status) ;;
         if Py.contains "Exited" status then
           say RED (HasExited container_name status) ;;
           say YELLOW ContainerLogs ;;
           run_command (logs_command container_name "30") None false 300 true ;;
           ret (Return false)
         else
           sleep 2 ;;
           ret Continue
       else
         container_up container_name)
    (fun e => say YELLOW (CheckingContainer e) ;; ret Next).

(** The [while time.time() - start_time < timeout] loop.  [fuel] bounds
    the number of times the condition is evaluated. *)
Fixpoint container_loop (fuel : nat) (container_name : string)
    (start_time timeout : N) : M bool :=
  match fuel with
  | O => fun w => (OutOfFuel, w)
  | S fuel' =>
      t <- now ;;
      if (t - start_time <? secs timeout)%N then
        f <- container_poll container_name ;;
        match f with
        | Return b => ret b
        | Continue => container_loop fuel' container_name start_time timeout
        | Next =>
            sleep 3 ;;
            container_loop fuel' container_name start_time timeout
        end
      else
        say RED (NotReadyWithin container_name timeout) ;;
        ret false
  end.

(** Every poll that does not return sleeps [every] seconds at least, so
    the condition is evaluated at most this many times. *)
Definition polls (every timeout : N) : nat :=
  N.to_nat (secs timeout / secs every) + 2.

Definition wait_for_container_healthy (container_name : string) (timeout : N) : M bool :=
  say YELLOW (WaitingFor container_name) ;;
  start_time <- now ;;
  container_loop (polls 2 timeout) container_name start_time timeout.

(** *** wait_for_ssh_service *)

Definition ssh_active_command (name : string) : string :=
  "docker exec " ++ name ++ " systemctl is-active ssh".

Definition port_command (name : string) : string :=
  "docker exec " ++ name ++ " netstat -tlnp | grep :22".

Definition ssh_start_command (name : string) : string :=
  "docker exec " ++ name ++ " systemctl start ssh".

Definition ssh_status_command (name : string) : string :=
  "docker exec " ++ name ++ " systemctl status ssh --no-pager".

(** [result and result.returncode == 0 and 'active' in result.stdout] *)
Definition ssh_active (result : option CompletedProcess) : bool :=
  match result with
  | Some p => (returncode p =? 0)%Z && Py.contains "active" (stdout p)
  | None => false
  end.

(** [port_check and port_check.returncode == 0] *)
Definition port_open (port_check : option CompletedProcess) : bool :=
  match port_check with
  | Some p => (returncode p =? 0)%Z
  | None => false
  end.

(** Lines 133-177: the body of the [while] loop, one poll. *)
Definition ssh_poll (container_name : string) : M flow :=
  try_except
    (say YELLOW CheckingSshStatus ;;
     result <- run_command (ssh_active_command container_name) None false 5 true ;;
     if ssh_active result then
       say YELLOW SshActiveCheckingPort ;;
       port_check <- run_command (port_command container_name) None false 5 true ;;
       if port_open port_check then
         say GREEN SshActiveAndListening ;;
         ret (Return true)
       else
         say YELLOW SshNotListeningYet ;;
         ret Next
     else
       say YELLOW SshNotActiveStarting ;;
       start_result <- run_command (ssh_start_command container_name) None false 10 true ;;
       match start_result with
       | Some _ =>
           run_command (ssh_status_command container_name) None false 5 true ;;
           ret Next
       | None => ret Next
       end)
    (fun e => say YELLOW (SshCheck e) ;; ret Next).

(** Lines 181-197: what follows the loop. *)
Definition ssh_give_up (container_name : string) (timeout : N) : M bool :=
  say YELLOW FinalSshDiagnostics ;;
  run_command ("docker exec " ++ container_name ++ " systemctl status ssh --no-pager -l")
    None false 10 true ;;
  run_command ("docker exec " ++ container_name ++ " journalctl -u ssh --no-pager -n 20")
    None false 10 true ;;
  say YELLOW CheckingSshInstallation ;;
  run_command ("docker exec " ++ container_name ++ " which sshd") None false 5 true ;;
  run_command ("docker exec " ++ container_name ++ " dpkg -l | grep openssh")
    None false 5 true ;;
  say YELLOW CheckingSshConfig ;;
  run_command ("docker exec " ++ container_name ++ " ls -la /etc/ssh/") None false 5 true ;;
  run_command ("docker exec " ++ container_name ++ " sshd -T") None false 5 true ;;
  say RED (SshNotReadyWithin timeout) ;;
  ret false.

Fixpoint ssh_loop (fuel : nat) (container_name : string)
    (start_time timeout : N) : M bool :=
  match fuel with
  | O => fun w => (OutOfFuel, w)
  | S fuel' =>
      t <- now ;;
      if (t - start_time <? secs timeout)%N then
        f <- ssh_poll container_name ;;
        match f with
        | Return b => ret b
        | Continue => ssh_loop fuel' container_name start_time timeout
        | Next =>
            sleep 3 ;;
            ssh_loop fuel' container_name start_time timeout
        end
      else
        ssh_give_up container_name timeout
  end.

Definition wait_for_ssh_service (container_name : string) (timeout : N) : M bool :=
  say YELLOW WaitingForSsh ;;
  start_time <- now ;;
  ssh_loop (polls 3 timeout) container_name start_time timeout.

(** *** setup_ssh_access, test_http_endpoint *)

(** [open(path).read()] *)
Definition read_file (path : string) : M string :=
  match read_text H path with
  | Some s => ret s
  | None => raise (Exception ("No such file or directory: " ++ path))
  end.

Definition setup_ssh_access : M bool :=
  say YELLOW (Note "Setting up SSH access...") ;;
  let ssh_key_path := home H ++ "/.ssh/id_rsa" in
  have_key <-
    (if negb (path_exists H ssh_key_path) then
       say YELLOW (Note "Generating SSH key...") ;;
       result <- run_command
         ("ssh-keygen -t rsa -b 2048 -f " ++ ssh_key_path ++ " -N " ++ Py.dq ++ Py.dq)
         None true 300 false ;;
       ret (match result with Some _ => true | None => false end)
     else ret true) ;;
  if negb have_key then ret false
  else
    try_except
      (run_command "docker exec test-vps mkdir -p /root/.ssh" None true 300 false ;;
       content <- read_file (ssh_key_path ++ ".pub") ;;
       let pub_key := Py.strip content in
       run_command
         ("docker exec test-vps bash -c 'echo " ++ Py.dq ++ pub_key ++ Py.dq
            ++ " > /root/.ssh/authorized_keys'")
         None true 300 false ;;
       run_command "docker exec test-vps chmod 600 /root/.ssh/authorized_keys"
         None true 300 false ;;
       run_command "docker exec test-vps chown root:root /root/.ssh/authorized_keys"
         None true 300 false ;;
       say GREEN (Note "SSH access configured") ;;
       ret true)
      (fun e => say RED (Note ("Failed to setup SSH: " ++ e)) ;; ret false).

(** [requests.get] raising is caught inside the function. *)
Definition test_http_endpoint (url : string) (expected_text : option string)
    (timeout : N) : M bool :=
  act (log (Fetched url)) ;;
  ret (match http H url with
       | Response status_code text =>
           if (status_code =? 200)%Z then
             match expected_text with
             | Some e =>
                 if Py.truthy e then Py.contains (Py.lower e) (Py.lower text)
                 else true
             | None => true
             end
           else false
       | HttpError => false
       end).

(** *** main *)

Definition endpoints : list (string * string * option string) :=
  [ ("https://localhost:3001", "Grafana", Some "grafana");
    ("https://localhost:9091", "Prometheus", Some "prometheus");
    ("https://localhost:3101", "Loki", None) ].

(** Lines 385-389 *)
Fixpoint endpoint_loop (l : list (string * string * option string)) : M unit :=
  match l with
  | [] => ret tt
  | (url, name, expected_text) :: rest =>
      ok <- test_http_endpoint url expected_text 15 ;;
      (if ok then say GREEN (Responding name)
       else say YELLOW (Inconclusive name)) ;;
      endpoint_loop rest
  end.

(** Lines 362-401: everything after a successful deployment. *)
Definition test_services (ansible_dir : string) : M unit :=
  say BLUE (Note "Testing deployed services...") ;;
  say YELLOW (Note "Waiting for services to start...") ;;
  sleep 30 ;;
  say YELLOW (Note "Checking Docker containers...") ;;
  run_command
    ("ansible vps -i inventories/test.yml -m shell -a " ++ Py.dq
       ++ "docker ps --format 'table {{.Names}}" ++ Py.backslash ++ "t{{.Status}}'" ++ Py.dq)
    (Some ansible_dir) true 300 false ;;
  say YELLOW (Note "Testing HTTP endpoints...") ;;
  endpoint_loop endpoints ;;
  say GREEN (Note "Local testing completed!") ;;
  say BLUE (Note "You can now access services at:") ;;
  say NC (Note "  * Grafana: https://localhost:3001 (admin/admin)") ;;
  say NC (Note "  * Prometheus: https://localhost:9091") ;;
  say NC (Note "  * Loki: https://localhost:3101") ;;
  say NC (Note "To clean up test environment:") ;;
  say NC (Note "  cd docker/test-environment && docker-compose down") ;;
  say GREEN (Note "Configuration is ready for production deployment!").

(** Lines 312-343: the diagnostics of a failed connectivity test. *)
Definition debug_connectivity : M unit :=
  say RED (Note "Connectivity test failed") ;;
  say YELLOW (Note "Debugging SSH connection...") ;;
  run_command
    "ssh -o StrictHostKeyChecking=no -o UserKnownHostsFile=/dev/null -p 2222 root@localhost 'echo SSH connection works'"
    None false 300 true ;;
  say YELLOW (Note "Checking SSH key setup...") ;;
  run_command "docker exec test-vps cat /root/.ssh/authorized_keys" None false 300 true ;;
  say YELLOW (Note "Checking SSH daemon config...") ;;
  run_command
    "docker exec test-vps grep -E '(PermitRootLogin|PubkeyAuthentication)' /etc/ssh/sshd_config"
    None false 300 true ;;
  say YELLOW (Note "Checking container status...") ;;
  run_command
    ("docker ps --filter name=test-vps --format 'table {{.Names}}" ++ Py.tab
       ++ "{{.Status}}" ++ Py.tab ++ "{{.Ports}}'")
    None false 300 true ;;
  say YELLOW (Note "Checking SSH inside container...") ;;
  run_command "docker exec test-vps netstat -tlnp | grep :22" None false 300 true ;;
  say YELLOW (Note "Checking Docker port mapping...") ;;
  run_command "docker port test-vps" None false 300 true ;;
  say YELLOW (Note "Testing direct container SSH...") ;;
  run_command
    "docker exec test-vps ssh -o StrictHostKeyChecking=no -o UserKnownHostsFile=/dev/null root@localhost 'echo Direct SSH works'"
    None false 300 true ;;
  sys_exit 1.

(** [not result or result.returncode != 0] *)
Definition unsuccessful (result : option CompletedProcess) : bool :=
  match result with
  | Some p => negb (returncode p =? 0)%Z
  | None => true
  end.

(** Lines 247-360: everything up to a successful deployment. *)
Definition deploy : M unit :=
  say BLUE (Note "Starting local testing environment...") ;;
  try_except
    (result <- run_command "docker info" None true 10 false ;;
     if negb (unsuccessful result) then say GREEN (Note "Docker CLI is working")
     else raise (Exception "Docker CLI failed"))
    (fun _ =>
       say RED (Note "Docker is not accessible. Please ensure Docker/Colima is running.") ;;
       say YELLOW (Note "Try: colima start") ;;
       sys_exit 1) ;;
  say YELLOW (Note "Building test environment...") ;;
  let compose_dir := project_root H ++ "/docker/test-environment" in
  run_command "docker-compose down --remove-orphans" (Some compose_dir) false 300 false ;;
  result <- run_command "docker-compose up -d --build" (Some compose_dir) true 300 false ;;
  match result with
  | None => say RED (Note "Failed to start test environment") ;; sys_exit 1
  | Some _ => ret tt
  end ;;
  healthy <- wait_for_container_healthy "test-vps" 180 ;;
  (if negb healthy then
     say RED (Note "Test container failed to start properly") ;;
     say YELLOW (Note "Container logs:") ;;
     run_command "docker-compose logs --tail 50" (Some compose_dir) false 300 true ;;
     say YELLOW (Note "Container status:") ;;
     run_command "docker ps -a --filter name=test-vps" None false 300 true ;;
     say YELLOW (Note "Docker events:") ;;
     run_command "docker events --since 5m --filter container=test-vps" None false 300 true ;;
     sys_exit 1
   else ret tt) ;;
  ssh_ready <- wait_for_ssh_service "test-vps" 60 ;;
  (if negb ssh_ready then
     say RED (Note "SSH service failed to start") ;; sys_exit 1
   else ret tt) ;;
  configured <- setup_ssh_access ;;
  (if negb configured then sys_exit 1 else ret tt) ;;
  say YELLOW (Note "Waiting for services to stabilize...") ;;
  sleep 5 ;;
  say BLUE (Note "Running Ansible deployment on test environment...") ;;
  let ansible_dir := project_root H ++ "/ansible" in
  say YELLOW (Note "Testing Ansible connectivity...") ;;
  result <- run_command "ansible vps -i inventories/test.yml -m ping -vvv"
              (Some ansible_dir) false 300 true ;;
  (if unsuccessful result then debug_connectivity else ret tt) ;;
  say GREEN (Note "Connectivity test passed") ;;
  say BLUE (Note "Deploying configuration...") ;;
  result <- run_command "ansible-playbook playbooks/site.yml -i inventories/test.yml -v"
              (Some ansible_dir) false 600 true ;;
  (if unsuccessful result then
     say RED (Note "Deployment failed") ;; sys_exit 1
   else ret tt) ;;
  say GREEN (Note "Deployment successful").

Definition main : M unit :=
  deploy ;;
  test_services (project_root H ++ "/ansible").

End Script.

(** *** Reading a trace

    What a poll made of the container is read off the line it printed:
    lines 73 and 89 announce a stopped or exited container, lines 106
    and 115 a ready one. *)

Definition says_exited (e : event) : bool :=
  match e with
  | Said _ (ExistsButStopped _ _) | Said _ (HasExited _ _) => true
  | _ => false
  end.

Definition says_ready (e : event) : bool :=
  match e with
  | Said _ (SystemdReady _) | Said _ (IsRunning _) => true
  | _ => false
  end.

Definition is_sleep (e : event) : bool :=
  match e with Slept _ => true | _ => false end.

Definition is_launch (e : event) : bool :=
  match e with Ran _ _ => true | _ => false end.

(** A launch of [docker logs ...], the diagnostic log fetch. *)
Definition is_log_fetch (e : event) : bool :=
  match e with
  | Ran command _ => Py.startswith "docker logs " command
  | _ => false
  end.

(** A launch that raised. *)
Definition crashed (e : event) : bool :=
  match e with Ran _ (Raised _) => true | _ => false end.

(** The events that follow the latest announcement of a stopped or
    exited container, in a trace that has the most recent event first. *)
Fixpoint since_exited (t : list event) : list event :=
  match t with
  | [] => []
  | e :: rest => if says_exited e then [] else e :: since_exited rest
  end.

(** The last line printed. *)
Fixpoint last_said (t : list event) : option msg :=
  match t with
  | [] => None
  | Said _ m :: _ => Some m
  | _ :: rest => last_said rest
  end.

(** A log fetch that raised. *)
Definition crashed_fetch (e : event) : bool := is_log_fetch e && crashed e.

(** Lines 106 and 115. *)
Definition ready_line (name : string) (m : option msg) : Prop :=
  m = Some (SystemdReady name) \/ m = Some (IsRunning name).

(** What a verbose [run_command] prints last: the exit code, or that the
    command timed out. *)
Definition fetch_line (m : option msg) : Prop :=
  match m with
  | Some (ExitCode _) | Some (TimedOut _ _) => True
  | _ => False
  end.

(** What [run_command(..., check=False)] hands back for an answer that
    does not raise. *)
Definition seen (a : ran) : option CompletedProcess :=
  match a with
  | Completed p => Some p
  | _ => None
  end.

(** Launches [i] and [i + 1] of a run on [H] answer the two probes of
    one SSH poll in the affirmative. *)
Definition active_and_listening (H : host) (name : string) (i : nat) : bool :=
  ssh_active (seen (answer (proc H i (ssh_active_command name)) 5))
  && port_open (seen (answer (proc H (S i) (port_command name)) 5)).

(** The commands of the two waits that only report on the container or
    on a service in it: they list, print logs or ask for a status. *)
Definition container_queries (name : string) : list string :=
  [ ps_command name; ps_all_command name;
    logs_command name "20"; logs_command name "30";
    systemd_command name ].

Definition ssh_queries (name : string) : list string :=
  [ ssh_active_command name; port_command name; ssh_status_command name;
    "docker exec " ++ name ++ " systemctl status ssh --no-pager -l";
    "docker exec " ++ name ++ " journalctl -u ssh --no-pager -n 20";
    "docker exec " ++ name ++ " which sshd";
    "docker exec " ++ name ++ " dpkg -l | grep openssh";
    "docker exec " ++ name ++ " ls -la /etc/ssh/";
    "docker exec " ++ name ++ " sshd -T" ].

Definition launched_from (allowed : list string) (e : event) : Prop :=
  match e with
  | Ran command _ => In command allowed
  | _ => True
  end.

(** A launch of [docker ps --filter ...], the listing that opens every
    poll of the container wait. *)
Definition is_listing (e : event) : bool :=
  match e with
  | Ran command _ => Py.startswith "docker ps --filter" command
  | _ => false
  end.

(** The queries of the container wait without the systemd probe. *)
Definition docker_queries (name : string) : list string :=
  [ ps_command name; ps_all_command name;
    logs_command name "20"; logs_command name "30" ].

Definition ssh_commands (name : string) : list string :=
  ssh_start_command name :: ssh_queries name.

(** What the endpoint loop of [main] leaves in the trace. *)
Definition endpoint_event (e : event) : Prop :=
  match e with
  | Fetched _ | Said GREEN (Responding _) | Said YELLOW (Inconclusive _) => True
  | _ => False
  end.

(** *** A logic of runs

    [steps H allowed Q m]: from any state, [m] ends as [Q] says, moves
    the clock and the launch counter forward only and launches commands
    of [allowed] only. *)
Definition steps (H : host) (allowed : list string) {A} (Q : res A -> Prop)
    (m : M A) : Prop :=
  forall w, exists r w' new,
    m w = (r, w') /\ Q r /\ trace w' = (new ++ trace w)%list
    /\ (clock w <= clock w')%N /\ (calls w <= calls w')%nat
    /\ Forall (launched_from allowed) new.

(** Ends with a value or with an [Exception]. *)
Definition plain {A} (r : res A) : Prop :=
  match r with
  | Ok _ | Err (Exception _) => True
  | _ => False
  end.

(** Ends with a value of [P] or with an [Exception]. *)
Definition returns_or_raises {A} (P : A -> Prop) (r : res A) : Prop :=
  match r with
  | Ok a => P a
  | Err (Exception _) => True
  | _ => False
  end.

Definition anyhow {A} (r : res A) : Prop := True.

(** The same host with other HTTP servers behind its ports. *)
Definition with_http (H : host) (h : string -> http_reply) : host :=
  {| proc := proc H; http := h; home := home H; project_root := project_root H;
     path_exists := path_exists H; read_text := read_text H |}.

(** *** Invariants of the container wait

    [new] holds the events of one poll, or of the loop from some poll
    on, most recent first; [d] bounds how long a launch lasts. *)

Definition poll_inv (d : N) (name : string) (f : flow) (new : list event)
    (dt : N) : Prop :=
  match f with
  | Return true =>
      existsb says_ready new = true /\ existsb says_exited new = false
      /\ ready_line name (last_said new)
  | Return false =>
      existsb says_exited new = true /\ existsb says_ready new = false
      /\ existsb is_sleep (since_exited new) = false
      /\ length (filter is_log_fetch new) = 1%nat
      /\ filter is_launch (since_exited new) = filter is_log_fetch new
      /\ fetch_line (last_said new)
  | Continue =>
      existsb says_exited new = false /\ existsb says_ready new = false
      /\ filter is_log_fetch new = []
      /\ (2000 <= dt <= 2 * d + 3000)%N
  | Next =>
      existsb says_ready new = false
      /\ (existsb says_exited new = true -> existsb crashed_fetch new = true)
      /\ (existsb says_exited new = false ->
          filter is_log_fetch new = [] /\ (dt <= 2 * d)%N)
  end.

Record loop_inv (d : N) (name : string) (start timeout : N) (b : bool)
    (new : list event) (c0 c1 : N) : Prop := {
  inv_ready : b = true -> existsb says_ready new = true;
  inv_deadline :
    existsb says_ready new = false -> existsb says_exited new = false ->
    b = false /\ last_said new = Some (NotReadyWithin name timeout)
    /\ (start + secs timeout <= c1)%N
    /\ ((c1 < start + secs timeout + 3000 + 2 * d)%N \/ c1 = c0);
  inv_exited :
    existsb says_exited new = true -> existsb crashed_fetch new = false ->
    b = false /\ existsb says_ready new = false
    /\ existsb is_sleep (since_exited new) = false
    /\ length (filter is_log_fetch new) = 1%nat
    /\ filter is_launch (since_exited new) = filter is_log_fetch new;
  inv_cases :
    (b = true /\ ready_line name (last_said new))
    \/ (b = false /\ last_said new = Some (NotReadyWithin name timeout))
    \/ (b = false /\ existsb says_exited new = true
        /\ fetch_line (last_said new))
}.

(** *** Reading the launches of a run *)

(** The longest a launch of [hist] lasted, counted up to the 300
    seconds after which [run_command] cuts a command off at the
    latest.  [hist] is in chronological order and its first launch is
    launch [i] of the run. *)
Fixpoint longest (H : host) (i : nat) (hist : list event) : N :=
  match hist with
  | [] => 0
  | Ran command _ :: rest =>
      N.max (lasted (proc H i command) 300) (longest H (S i) rest)
  | _ :: rest => longest H i rest
  end.

(** A launch of [docker exec name systemctl start ssh]. *)
Definition is_start (name : string) (e : event) : bool :=
  match e with
  | Ran command _ => (command =? "docker exec " ++ name ++ " systemctl start ssh")%string
  | _ => false
  end.

(** A launch of [docker exec name systemctl is-system-running --wait]. *)
Definition is_systemd_probe (name : string) (e : event) : bool :=
  match e with
  | Ran command _ =>
      (command =? "docker exec " ++ name ++ " systemctl is-system-running --wait")%string
  | _ => false
  end.


(** *** What the probes of the waits have to answer *)

(** Launch [i] lists the container with a status that starts with
    [Up]. *)
Definition listed_up (H : host) (name : string) (i : nat) : Prop :=
  exists p,
    answer (proc H i ("docker ps --filter name=" ++ name ++ " --format '{{.Status}}'"))
      300 = Completed p
    /\ Py.startswith "Up" (Py.strip (stdout p)) = true.

(** Launch [i] is answered by [systemctl is-system-running --wait]
    within its 10 seconds, with exit code 0 or 1. *)
Definition systemd_answers (H : host) (name : string) (i : nat) : Prop :=
  exists q,
    answer (proc H i ("docker exec " ++ name ++ " systemctl is-system-running --wait"))
      10 = Completed q
    /\ (returncode q = 0%Z \/ returncode q = 1%Z).

(** Launches [i] and [i + 1] are answered the way line 143 and line 152
    ask for: [systemctl is-active ssh] exits with code 0 and has
    "active" in its output, and the search for a listener on port 22
    exits with code 0, each within its 5 seconds. *)
Definition both_probes_succeed (H : host) (name : string) (i : nat) : Prop :=
  exists p q,
    answer (proc H i ("docker exec " ++ name ++ " systemctl is-active ssh")) 5
    = Completed p
    /\ returncode p = 0%Z
    /\ Py.contains "active" (stdout p) = true
    /\ answer (proc H (S i) ("docker exec " ++ name ++ " netstat -tlnp | grep :22")) 5
       = Completed q
    /\ returncode q = 0%Z.

(** *** What the endpoint loop prints *)

Definition verdict_line (ok : bool) (name : string) : event :=
  if ok then Said GREEN (Responding name) else Said YELLOW (Inconclusive name).

(** The command of lines 371-374, which lists the containers before
    the endpoints are probed. *)
Definition containers_command : string :=
  "ansible vps -i inventories/test.yml -m shell -a " ++ Py.dq
    ++ "docker ps --format 'table {{.Names}}" ++ Py.backslash ++ "t{{.Status}}'" ++ Py.dq.

(** The request failed, or was answered with another status than 200. *)
Definition unreachable (r : http_reply) : Prop :=
  match r with
  | Response status_code _ => status_code <> 200%Z
  | HttpError => True
  end.

(** What lines 385-389 leave in the trace, most recent first: one
    request and one line per endpoint, in the order Grafana, Prometheus,
    Loki. *)
Definition endpoint_lines (ok1 ok2 ok3 : bool) : list event :=
  [ verdict_line ok3 "Loki"; Fetched "https://localhost:3101";
    verdict_line ok2 "Prometheus"; Fetched "https://localhost:9091";
    verdict_line ok1 "Grafana"; Fetched "https://localhost:3001" ].

(** The lines of 392-401, most recent first. *)
Definition farewell : list event :=
  [ Said GREEN (Note "Configuration is ready for production deployment!");
    Said NC (Note "  cd docker/test-environment && docker-compose down");
    Said NC (Note "To clean up test environment:");
    Said NC (Note "  * Loki: https://localhost:3101");
    Said NC (Note "  * Prometheus: https://localhost:9091");
    Said NC (Note "  * Grafana: https://localhost:3001 (admin/admin)");
    Said BLUE (Note "You can now access services at:");
    Said GREEN (Note "Local testing completed!") ].

End TestLocal.

(* ================================================================== *)
(** ** scripts/utilities/health_check.py *)

Module HealthCheck.

Import Eff Pathlib.

(** What [subprocess.run(full_command, shell=True, cwd=cwd, text=True,
    check=True)] does: the shell exits with a return code, or the call
    raises something other than [CalledProcessError]. *)
Inductive outcome :=
| Exit (returncode : Z)
| Crash (error : string).

Record host := {
  project_root : path;
  path_exists : path -> bool;
  ansible : nat -> string -> option path -> outcome
}.

Record args := {
  environment : string;
  skip_endpoints : bool
}.

Inductive color := RED | GREEN | YELLOW | BLUE | NC.

Inductive msg :=
| CommandFailed (full_command : string)
| Heading (text : string)
| InventoryNotFound (inventory_file : path)
| Checking (description : string)
| MayNotBeResponding (description : string)
| RunningHealthChecks (environment : string)
| AnsibleDirNotFound (ansible_dir : path)
| RunningCheck (check_name : string)
| CheckFailedWithError (check_name error : string)
| Summary
| AllPassed
| FailedCount (n : nat)
| FailedCheck (check_name : string)
| Tip (text : string).

Inductive event :=
| Stat (p : path)
| Ran (full_command : string) (cwd : option path) (o : outcome)
| Said (c : color) (m : msg).

Record world := {
  calls : nat;
  trace : list event
}.

Definition boot : world := {| calls := 0; trace := [] |}.

Definition log (e : event) (w : world) : world :=
  {| calls := calls w; trace := e :: trace w |}.

Definition history (w : world) : list event := rev (trace w).

Definition M (A : Type) : Type := Eff.M world A.

Definition say (c : color) (m : msg) : M unit := act (log (Said c m)).

Section Script.

Variable H : host.

(** [p.exists()], for a path [os.stat] finds or reports as missing.
    What [exists] lets through (a [PermissionError] on a directory of
    the path, the [OSError] for a name too long) is not modelled: the
    host answers every path with a boolean. *)
Definition exists_ (p : path) : M bool :=
  fun w => (Ok (path_exists H p), log (Stat p) w).

Definition launch (full_command : string) (cwd : option path) : M outcome :=
  fun w =>
    let o := ansible H (calls w) full_command cwd in
    (Ok o, {| calls := S (calls w); trace := Ran full_command cwd o :: trace w |}).

Definition run_ansible_command (command : string) (inventory_file : path)
    (cwd : option path) : M bool :=
  let full_command := "ansible " ++ command ++ " -i " ++ name inventory_file in
  o <- launch full_command cwd ;;
  match o with
  | Exit rc =>
      if (rc =? 0)%Z then ret true
      else say RED (CommandFailed full_command) ;; ret false
  | Crash e => raise (Exception e)
  end.

(** The prologue every check shares: build the inventory path and test
    that it exists. *)
Definition with_inventory (heading : string) (environment : string)
    (ansible_dir : path) (k : path -> M bool) : M bool :=
  say BLUE (Heading heading) ;;
  let inventory_file := joinpath ansible_dir ("inventories/" ++ environment ++ ".yml") in
  present <- exists_ inventory_file ;;
  if negb present then
    say RED (InventoryNotFound inventory_file) ;;
    ret false
  else k inventory_file.

(** [for description, command in commands: ... success = False] *)
Fixpoint run_each (commands : list (string * string)) (inventory_file ansible_dir : path)
    (success : bool) : M bool :=
  match commands with
  | [] => ret success
  | (description, command) :: rest =>
      say YELLOW (Checking description) ;;
      ok <- run_ansible_command command inventory_file (Some ansible_dir) ;;
      run_each rest inventory_file ansible_dir (if ok then success else false)
  end.

Definition check_connectivity (environment : string) (ansible_dir : path) : M bool :=
  with_inventory "Checking server connectivity..." environment ansible_dir
    (fun inventory_file =>
       run_ansible_command "all -m ping" inventory_file (Some ansible_dir)).

Definition resource_commands : list (string * string) :=
  [ ("disk usage", "all -m shell -a " ++ Py.dq ++ "df -h | head -5" ++ Py.dq);
    ("memory usage", "all -m shell -a " ++ Py.dq ++ "free -h" ++ Py.dq);
    ("system uptime", "all -m shell -a " ++ Py.dq ++ "uptime" ++ Py.dq);
    ("load average", "all -m shell -a " ++ Py.dq ++ "cat /proc/loadavg" ++ Py.dq) ].

Definition check_system_resources (environment : string) (ansible_dir : path) : M bool :=
  with_inventory "Checking system resources..." environment ansible_dir
    (fun inventory_file => run_each resource_commands inventory_file ansible_dir true).

Definition service_commands : list (string * string) :=
  [ ("SSH service", "all -m service -a " ++ Py.dq ++ "name=ssh state=started" ++ Py.dq);
    ("Docker service", "all -m service -a " ++ Py.dq ++ "name=docker state=started" ++ Py.dq) ].

Definition check_services (environment : string) (ansible_dir : path) : M bool :=
  with_inventory "Checking critical services..." environment ansible_dir
    (fun inventory_file => run_each service_commands inventory_file ansible_dir true).

Definition container_commands : list (string * string) :=
  [ ("container status",
     "all -m shell -a " ++ Py.dq ++ "docker ps --format 'table {{.Names}}"
       ++ Py.backslash ++ "t{{.Status}}" ++ Py.backslash ++ "t{{.Ports}}'" ++ Py.dq);
    ("container health",
     "all -m shell -a " ++ Py.dq
       ++ "docker ps --filter health=healthy --format 'table {{.Names}}"
       ++ Py.backslash ++ "t{{.Status}}'" ++ Py.dq) ].

Definition check_docker_containers (environment : string) (ansible_dir : path) : M bool :=
  with_inventory "Checking Docker containers..." environment ansible_dir
    (fun inventory_file => run_each container_commands inventory_file ansible_dir true).

Definition endpoint_commands : list (string * string) :=
  [ ("Grafana (port 3000)",
     "all -m uri -a " ++ Py.dq ++ "url=http://localhost:3000/api/health timeout=10" ++ Py.dq);
    ("Prometheus (port 9090)",
     "all -m uri -a " ++ Py.dq ++ "url=http://localhost:9090/-/ready timeout=10" ++ Py.dq);
    ("Loki (port 3100)",
     "all -m uri -a " ++ Py.dq ++ "url=http://localhost:3100/ready timeout=10" ++ Py.dq) ].

(** Lines 141-148: a failed probe prints a warning and leaves [success]
    as it is. *)
Fixpoint probe_each (endpoints : list (string * string)) (inventory_file ansible_dir : path)
    (success : bool) : M bool :=
  match endpoints with
  | [] => ret success
  | (description, command) :: rest =>
      say YELLOW (Checking description) ;;
      ok <- run_ansible_command command inventory_file (Some ansible_dir) ;;
      (if negb ok then say YELLOW (MayNotBeResponding description) else ret tt) ;;
      probe_each rest inventory_file ansible_dir success
  end.

Definition check_monitoring_endpoints (environment : string) (ansible_dir : path) : M bool :=
  with_inventory "Checking monitoring endpoints..." environment ansible_dir
    (fun inventory_file => probe_each endpoint_commands inventory_file ansible_dir true).

Definition check := string -> path -> M bool.

(** Lines 183-190 *)
Fixpoint run_checks (checks : list (string * check)) (environment : string)
    (ansible_dir : path) (failed_checks : list string) : M (list string) :=
  match checks with
  | [] => ret failed_checks
  | (check_name, check_function) :: rest =>
      failed <-
        try_except
          (say BLUE (RunningCheck check_name) ;;
           ok <- check_function environment ansible_dir ;;
           ret (if ok then failed_checks else (failed_checks ++ [check_name])%list))
          (fun e =>
             say RED (CheckFailedWithError check_name e) ;;
             ret (failed_checks ++ [check_name])%list) ;;
      run_checks rest environment ansible_dir failed
  end.

Fixpoint say_each (failed_checks : list string) : M unit :=
  match failed_checks with
  | [] => ret tt
  | check :: rest => say RED (FailedCheck check) ;; say_each rest
  end.

Definition main (a : args) : M unit :=
  say BLUE (RunningHealthChecks (environment a)) ;;
  let ansible_dir := joinpath (project_root H) "ansible" in
  present <- exists_ ansible_dir ;;
  if negb present then
    say RED (AnsibleDirNotFound ansible_dir) ;;
    sys_exit 1
  else
    let checks :=
      ([ ("connectivity", check_connectivity);
         ("system resources", check_system_resources);
         ("services", check_services);
         ("docker containers", check_docker_containers) ]
       ++ (if skip_endpoints a then []
           else [("monitoring endpoints", check_monitoring_endpoints)]))%list in
    failed_checks <- run_checks checks (environment a) ansible_dir [] ;;
    say BLUE Summary ;;
    match failed_checks with
    | [] =>
        say GREEN AllPassed ;;
        sys_exit 0
    | _ =>
        say RED (FailedCount (length failed_checks)) ;;
        say_each failed_checks ;;
        say YELLOW (Tip "Tips:") ;;
        say YELLOW (Tip "Check server connectivity and SSH access") ;;
        say YELLOW (Tip "Verify services are running: systemctl status <service>") ;;
        say YELLOW (Tip "Check logs: journalctl -u <service> --tail 50") ;;
        sys_exit 1
    end.

End Script.

(** *** Reading a run of the health check *)

(** The ansible launches that probe a monitoring endpoint exit, with
    whatever return code, rather than fail to run. *)
Definition probes_exit (H : host) : Prop :=
  forall i description command inventory cwd e,
    In (description, command) endpoint_commands ->
    ansible H i ("ansible " ++ command ++ " -i " ++ inventory) cwd <> Crash e.

(** What probing the endpoints leaves in the trace: the line that names
    the endpoint, the launch, and for a probe that exits with a code
    other than 0 the "Command failed" line of [run_ansible_command] and
    the warning of line 145. *)
Definition probe_event (e : event) : Prop :=
  match e with
  | Said YELLOW (Checking _) | Ran _ _ (Exit _)
  | Said RED (CommandFailed _) | Said YELLOW (MayNotBeResponding _) => True
  | _ => False
  end.

(** The checks [main] chooses from. *)
Definition the_checks (H : host) : list (string * (string -> path -> M bool)) :=
  [ ("connectivity", check_connectivity H);
    ("system resources", check_system_resources H);
    ("services", check_services H);
    ("docker containers", check_docker_containers H);
    ("monitoring endpoints", check_monitoring_endpoints H) ].

(** [m] ends with a value or with an [Exception]: it neither exits the
    process nor runs out of fuel. *)
Definition tame {A} (m : M A) : Prop :=
  forall w, exists r w',
    m w = (r, w')
    /\ ((exists a, r = Ok a) \/ (exists e, r = Err (Exception e))).

(** No ansible launch fails to run. *)
Definition launches_exit (H : host) : Prop :=
  forall i full_command cwd e, ansible H i full_command cwd <> Crash e.

(** The command line [run_ansible_command] builds. *)
Definition full_command (command : string) (inventory_file : path) : string :=
  "ansible " ++ command ++ " -i " ++ name inventory_file.

(** What the endpoint check leaves in the trace. *)
Definition endpoint_check_event (e : event) : Prop :=
  match e with
  | Said BLUE (Heading _) | Stat _ | Said RED (InventoryNotFound _) => True
  | _ => probe_event e
  end.

(** The lines of one endpoint probe: the line that names the endpoint,
    the launch, and, for a probe that exits with a code other than 0,
    the "Command failed" line of [run_ansible_command] and the warning
    of line 145. *)
Definition probe_lines (description command : string) (inventory_file ansible_dir : path)
    (rc : Z) : list event :=
  let full := "ansible " ++ command ++ " -i " ++ name inventory_file in
  [ Said YELLOW (Checking description);
    Ran full (Some ansible_dir) (Exit rc) ]
  ++ (if (rc =? 0)%Z then []
      else [ Said RED (CommandFailed full);
             Said YELLOW (MayNotBeResponding description) ]).

End HealthCheck.

(* ================================================================== *)
(** ** scripts/validate.py *)

Module Validate.

Import Eff Pathlib.

(** What [subprocess.run(command, shell=True, cwd=cwd,
    capture_output=True, text=True, timeout=timeout)] does. *)
Inductive outcome :=
| Exit (returncode : Z)
| Expired
| Crash (error : string).

(** [yaml_loads content] tells whether [yaml.safe_load(content)] returns
    rather than raises; [read_text p] is [None] when opening or reading
    [p] raises. *)
Record host := {
  project_root : path;
  path_exists : path -> bool;
  read_text : path -> option string;
  yaml_loads : string -> bool;
  getenv : string -> option string;
  shell : nat -> string -> option path -> N -> outcome
}.

Inductive color := RED | GREEN | YELLOW | BLUE | NC.

Inductive msg :=
| Heading (text : string)
| Testing (test_name : string)
| Tick
| Cross
| CrossTimeout
| TestingTick (test_name : string)
| TestingCross (test_name : string)
| UsingTemplateInventory
| TemplateWithVariables (test_name : string)
| FileNotFound (test_name : string)
| Passed (n : nat)
| Failed (n : nat)
| ReadyForDeployment
| FixBeforeDeployment.

Inductive event :=
| Stat (p : path)
| Read (p : path)
| Ran (command : string) (cwd : option path) (timeout : N) (o : outcome)
| Said (c : color) (m : msg).

(** The fields of a [ValidationTest] object, the launch counter and the
    trace. *)
Record world := {
  tests_passed : nat;
  tests_failed : nat;
  skip_docker_pull : bool;
  calls : nat;
  trace : list event
}.

Definition log (e : event) (w : world) : world :=
  {| tests_passed := tests_passed w; tests_failed := tests_failed w;
     skip_docker_pull := skip_docker_pull w; calls := calls w;
     trace := e :: trace w |}.

(** [self.tests_passed += 1] *)
Definition pass (w : world) : world :=
  {| tests_passed := S (tests_passed w); tests_failed := tests_failed w;
     skip_docker_pull := skip_docker_pull w; calls := calls w;
     trace := trace w |}.

(** [self.tests_failed += 1] *)
Definition fail (w : world) : world :=
  {| tests_passed := tests_passed w; tests_failed := S (tests_failed w);
     skip_docker_pull := skip_docker_pull w; calls := calls w;
     trace := trace w |}.

Definition M (A : Type) : Type := Eff.M world A.

Definition say (c : color) (m : msg) : M unit := act (log (Said c m)).

Section Script.

Variable H : host.

(** [ValidationTest()] *)
Definition init : world :=
  {| tests_passed := 0; tests_failed := 0;
     skip_docker_pull :=
       (Py.lower (match getenv H "SKIP_DOCKER_PULL" with
                  | Some v => v
                  | None => ""
                  end) =? "true")%string;
     calls := 0; trace := [] |}.

(** [p.exists()], for a path [os.stat] finds or reports as missing; an
    error [exists] lets through is not modelled. *)
Definition exists_ (p : path) : M bool :=
  fun w => (Ok (path_exists H p), log (Stat p) w).

Definition launch (command : string) (cwd : option path) (timeout : N) : M outcome :=
  fun w =>
    let o := shell H (calls w) command cwd timeout in
    (Ok o,
     {| tests_passed := tests_passed w; tests_failed := tests_failed w;
        skip_docker_pull := skip_docker_pull w; calls := S (calls w);
        trace := Ran command cwd timeout o :: trace w |}).

Definition run_test (test_name command : string) (cwd : option path)
    (timeout : N) : M bool :=
  say NC (Testing test_name) ;;
  o <- launch command cwd timeout ;;
  match o with
  | Exit rc =>
      if (rc =? 0)%Z then
        say GREEN Tick ;; act pass ;; ret true
      else
        say RED Cross ;; act fail ;; ret false
  | Expired => say RED CrossTimeout ;; act fail ;; ret false
  | Crash _ => say RED Cross ;; act fail ;; ret false
  end.

Definition check_prerequisites : M unit :=
  say BLUE (Heading "Checking prerequisites...") ;;
  run_test "Ansible installation" "command -v ansible-playbook" None 30 ;;
  run_test "Docker installation (for local testing)" "command -v docker" None 30 ;;
  run_test "uv installation" "command -v uv" None 30 ;;
  run_test "Docker CLI access" "docker version --format '{{.Client.Version}}'" None 10 ;;
  ret tt.

Definition required_files : list string :=
  [ "ansible/playbooks/site.yml";
    "ansible/inventories/hosts.yml";
    "ansible/roles/caddy/tasks/main.yml";
    "ansible/roles/docker/tasks/main.yml";
    "ansible/roles/monitoring/tasks/main.yml";
    "ansible/roles/caddy/templates/Caddyfile.j2" ].

Fixpoint check_files (project_root : path) (files : list string) : M unit :=
  match files with
  | [] => ret tt
  | file_path :: rest =>
      let full_path := joinpath project_root file_path in
      let test_name := name (joinpath [] file_path) ++ " exists" in
      present <- exists_ full_path ;;
      (if present then say GREEN (TestingTick test_name) ;; act pass
       else say RED (TestingCross test_name) ;; act fail) ;;
      check_files project_root rest
  end.

Definition check_file_structure (project_root : path) : M unit :=
  say BLUE (Heading "Checking file structure...") ;;
  check_files project_root required_files.

Definition validate_ansible_syntax (project_root : path) : M unit :=
  say BLUE (Heading "Validating Ansible syntax...") ;;
  let ansible_dir := joinpath project_root "ansible" in
  let production_inventory := joinpath ansible_dir "inventories/production.yml" in
  present <- exists_ production_inventory ;;
  inventory_file <-
    (if present then ret "inventories/production.yml"
     else say YELLOW UsingTemplateInventory ;; ret "inventories/hosts.yml") ;;
  let command :=
    "ansible-playbook playbooks/site.yml --syntax-check -i " ++ inventory_file in
  run_test "Playbook syntax" command (Some ansible_dir) 30 ;;
  ret tt.

Definition test_template_rendering (project_root : path) : M unit :=
  let ansible_dir := joinpath project_root "ansible" in
  let production_inventory := joinpath ansible_dir "inventories/production.yml" in
  present <- exists_ production_inventory ;;
  if negb present then
    say BLUE (Heading "Skipping template rendering test (using template inventory)")
  else
    say BLUE (Heading "Testing template rendering...") ;;
    run_test "Caddyfile template syntax"
      "ansible-playbook playbooks/site.yml --check -i inventories/production.yml -t caddy --diff"
      (Some ansible_dir) 30 ;;
    ret tt.

Definition images : list string :=
  [ "caddy:2-alpine";
    "prom/prometheus:latest";
    "prom/node-exporter:latest";
    "grafana/grafana:latest";
    "grafana/loki:latest";
    "grafana/promtail:latest" ].

Fixpoint pull_each (l : list string) : M unit :=
  match l with
  | [] => ret tt
  | image :: rest =>
      run_test ("Docker image: " ++ image) ("docker pull " ++ image) None 30 ;;
      pull_each rest
  end.

Definition check_docker_images : M unit :=
  fun w =>
    if skip_docker_pull w then
      say BLUE (Heading "Skipping Docker image pulls (SKIP_DOCKER_PULL=true)") w
    else
      (say BLUE (Heading "Checking Docker image availability...") ;;
       say YELLOW (Heading "Tip: Set SKIP_DOCKER_PULL=true to skip image pulling") ;;
       pull_each images) w.

Definition config_files : list (string * string) :=
  [ ("prometheus.yml.j2", "Prometheus config template");
    ("loki.yml.j2", "Loki config template");
    ("promtail.yml.j2", "Promtail config template") ].

(** [with open(file_path, 'r') as f: content = f.read();
    yaml.safe_load(content)] *)
Definition load_yaml (file_path : path) : M unit :=
  act (log (Read file_path)) ;;
  match read_text H file_path with
  | None => raise (Exception "cannot read")
  | Some content =>
      if yaml_loads H content then ret tt
      else raise (Exception "YAMLError")
  end.

(** Lines 162-176: the body of the loop. *)
Definition validate_config_file (template_dir : path) (filename test_name : string) : M unit :=
  let file_path := joinpath template_dir filename in
  present <- exists_ file_path ;;
  if present then
    try_except
      (load_yaml file_path ;;
       say GREEN (TestingTick test_name) ;;
       act pass)
      (fun _ => say YELLOW (TemplateWithVariables test_name))
  else
    say RED (FileNotFound test_name) ;;
    act fail.

Fixpoint validate_each (template_dir : path) (l : list (string * string)) : M unit :=
  match l with
  | [] => ret tt
  | (filename, test_name) :: rest =>
      validate_config_file template_dir filename test_name ;;
      validate_each template_dir rest
  end.

Definition validate_config_files (project_root : path) : M unit :=
  say BLUE (Heading "Validating configuration files...") ;;
  let template_dir := joinpath project_root "ansible/roles/monitoring/templates" in
  validate_each template_dir config_files.

Definition print_summary : M bool :=
  fun w =>
    (say BLUE (Heading "Test Summary:") ;;
     say GREEN (Passed (tests_passed w)) ;;
     say RED (Failed (tests_failed w)) ;;
     if (tests_failed w =? 0)%nat then
       say GREEN ReadyForDeployment ;; ret true
     else
       say RED FixBeforeDeployment ;; ret false) w.

Definition main : M unit :=
  say BLUE (Heading "Running pre-deployment validation...") ;;
  let project_root := project_root H in
  check_prerequisites ;;
  check_file_structure project_root ;;
  validate_ansible_syntax project_root ;;
  test_template_rendering project_root ;;
  check_docker_images ;;
  validate_config_files project_root ;;
  success <- print_summary ;;
  sys_exit (if success then 0 else 1)%Z.

End Script.

(** *** Reading a run of the validation *)

(** Every command [run_test] launches exits with code 0. *)
Definition commands_succeed (H : host) : Prop :=
  forall i command cwd timeout, shell H i command cwd timeout = Exit 0.

(** The six required files and the three monitoring templates are
    there. *)
Definition files_present (H : host) : Prop :=
  (forall f, In f required_files ->
             path_exists H (joinpath (project_root H) f) = true)
  /\ (forall f t, In (f, t) config_files ->
        path_exists H
          (joinpath (joinpath (project_root H) "ansible/roles/monitoring/templates") f)
        = true).

(** [m] returns, takes nothing off [tests_failed] and leaves
    [skip_docker_pull] as it was. *)
Definition counting {A} (m : M A) : Prop :=
  forall w, exists a w',
    m w = (Ok a, w') /\ (tests_failed w <= tests_failed w')%nat
    /\ skip_docker_pull w' = skip_docker_pull w.

(** [m] returns and leaves [tests_failed] and [skip_docker_pull] as
    they were. *)
Definition harmless {A} (m : M A) : Prop :=
  forall w, exists a w',
    m w = (Ok a, w') /\ tests_failed w' = tests_failed w
    /\ skip_docker_pull w' = skip_docker_pull w.

End Validate.

(* ================================================================== *)
(** ** scripts/deployment/deploy.py *)

Module Deploy.

Import Eff Pathlib.

Record CompletedProcess := {
  returncode : Z;
  stdout : string;
  stderr : string
}.

(** [subprocess.CalledProcessError(returncode, cmd, output, stderr)];
    [stderr] is [None] when the exception is built from the first two
    arguments alone. *)
Record CalledProcessError := {
  e_returncode : Z;
  e_cmd : string;
  e_stderr : option string
}.

(** What [subprocess.run(command, shell=True, cwd=cwd,
    capture_output=True, text=True)] does before its [check] is
    applied: the shell exits and the process is handed back, or the
    call raises ([OSError] and the like).  The call has no timeout; a
    command that never ends is outside the model. *)
Inductive outcome :=
| Exit (p : CompletedProcess)
| Crash (error : string).

Record host := {
  project_root : path;
  path_exists : path -> bool;
  shell : nat -> string -> option path -> outcome
}.

(** The [choices] of the [action] argument. *)
Inductive choice := DoCheck | DoPlan | DoApply | DoCleanup.

(** What [parser.parse_args()] hands to [main]. *)
Record args := {
  environment : string;
  action : choice
}.

Definition default_args : args :=
  {| environment := "production"; action := DoCheck |}.

Inductive color := RED | GREEN | YELLOW | BLUE | NC.

(** One constructor per [print_colored] call.  [NotInstalled tool] is
    the line of [check_prerequisites], which prints
    [tool.replace('-', ' ').title()]. *)
Inductive msg :=
| CommandFailed (command : string)
| ErrorText (stderr : string)
| NotInstalled (tool : string)
| CheckingSyntax
| RunningDryRun
| Deploying
| RunningCleanup
| InventoryNotFound (inventory_file : path)
| NoCleanupPlaybook
| Starting (environment : string)
| AnsibleDirNotFound (ansible_dir : path)
| RequiresAnsibleDir
| OperationCompleted.

Inductive event :=
| Stat (p : path)
| Ran (command : string) (cwd : option path) (o : outcome)
| Said (c : color) (m : msg).

Record world := {
  calls : nat;
  trace : list event
}.

Definition boot : world := {| calls := 0; trace := [] |}.

Definition log (e : event) (w : world) : world :=
  {| calls := calls w; trace := e :: trace w |}.

Definition M (A : Type) : Type := Eff.M world A.

Definition say (c : color) (m : msg) : M unit := act (log (Said c m)).

(** What [run_command] hands back: the completed process, or, on the
    path of line 43, the exception object itself.  Both have a
    [returncode]. *)
Inductive result :=
| Done (p : CompletedProcess)
| Failed (e : CalledProcessError).

Definition result_returncode (r : result) : Z :=
  match r with
  | Done p => returncode p
  | Failed e => e_returncode e
  end.

(** Truth value of an optional string: [None] and the empty string are
    false. *)
Definition truthy (s : option string) : bool :=
  match s with
  | Some text => Py.truthy text
  | None => false
  end.

Definition text_of (s : option string) : string :=
  match s with
  | Some text => text
  | None => "None"
  end.

Section Script.

Variable H : host.

(** [p.exists()] *)
Definition exists_ (p : path) : M bool :=
  fun w => (Ok (path_exists H p), log (Stat p) w).

Definition launch (command : string) (cwd : option path) : M outcome :=
  fun w =>
    let o := shell H (calls w) command cwd in
    (Ok o, {| calls := S (calls w); trace := Ran command cwd o :: trace w |}).

(** [subprocess.run(..., check=check)]: [inl] stands for the
    [CalledProcessError] that [check=True] raises on a return code
    other than 0; any other exception is raised as such. *)
Definition subprocess_run (command : string) (cwd : option path) (check : bool)
    : M (CalledProcessError + CompletedProcess) :=
  o <- launch command cwd ;;
  match o with
  | Exit p =>
      if check && negb (returncode p =? 0)%Z then
        ret (inl {| e_returncode := returncode p;
                    e_cmd := command;
                    e_stderr := Some (stderr p) |})
      else ret (inr p)
  | Crash e => raise (Exception e)
  end.

(** [run_command(command, cwd=None, check=True)], lines 25-43. *)
Definition run_command (command : string) (cwd : option path) (check : bool)
    : M result :=
  r <- subprocess_run command cwd check ;;
  match r with
  | inr result => ret (Done result)
  | inl e =>
      say RED (CommandFailed command) ;;
      (if truthy (e_stderr e) then say RED (ErrorText (text_of (e_stderr e)))
       else ret tt) ;;
      if check then sys_exit 1
      else ret (Failed e)
  end.

Definition tools : list string := ["ansible-playbook"].

(** The [for] loop of [check_prerequisites], lines 49-56.  The body of
    the [try] ends in [inl] when it raises [CalledProcessError], which
    is what the [except] clause catches; [SystemExit] and whatever else
    [run_command] raises go through. *)
Fixpoint check_tools (tools : list string) : M unit :=
  match tools with
  | [] => ret tt
  | tool :: rest =>
      r <- (result <- run_command ("command -v " ++ tool) None true ;;
            if negb (result_returncode result =? 0)%Z then
              ret (inl {| e_returncode := result_returncode result;
                          e_cmd := "command -v " ++ tool;
                          e_stderr := None |})
            else ret (inr tt)) ;;
      match r with
      | inl _ =>
          say RED (NotInstalled tool) ;;
          sys_exit 1
      | inr _ => check_tools rest
      end
  end.

Definition check_prerequisites : M unit := check_tools tools.

(** Lines 61-65, 72-76, 83-87 and 96-100: the inventory file has to be
    there. *)
Definition require_inventory (environment : string) (ansible_dir : path) : M unit :=
  let inventory_file := joinpath ansible_dir ("inventories/" ++ environment ++ ".yml") in
  present <- exists_ inventory_file ;;
  if negb present then
    say RED (InventoryNotFound inventory_file) ;;
    sys_exit 1
  else ret tt.

Definition ansible_syntax_check (environment : string) (ansible_dir : path) : M unit :=
  say BLUE CheckingSyntax ;;
  require_inventory environment ansible_dir ;;
  run_command
    ("ansible-playbook playbooks/site.yml --syntax-check -i inventories/"
       ++ environment ++ ".yml")
    (Some ansible_dir) true ;;
  ret tt.

Definition ansible_check (environment : string) (ansible_dir : path) : M unit :=
  say BLUE RunningDryRun ;;
  require_inventory environment ansible_dir ;;
  run_command
    ("ansible-playbook playbooks/site.yml --check -i inventories/"
       ++ environment ++ ".yml")
    (Some ansible_dir) true ;;
  ret tt.

Definition ansible_deploy (environment : string) (ansible_dir : path) : M unit :=
  say BLUE Deploying ;;
  require_inventory environment ansible_dir ;;
  run_command
    ("ansible-playbook playbooks/site.yml -i inventories/" ++ environment ++ ".yml")
    (Some ansible_dir) true ;;
  ret tt.

Definition ansible_cleanup (environment : string) (ansible_dir : path) : M unit :=
  say YELLOW RunningCleanup ;;
  let cleanup_playbook := joinpath ansible_dir "playbooks/cleanup.yml" in
  require_inventory environment ansible_dir ;;
  present <- exists_ cleanup_playbook ;;
  if present then
    run_command
      ("ansible-playbook playbooks/cleanup.yml -i inventories/" ++ environment ++ ".yml")
      (Some ansible_dir) false ;;
    ret tt
  else say YELLOW NoCleanupPlaybook.

(** [main], from line 119 on, with the parsed arguments. *)
Definition main (a : args) : M unit :=
  say BLUE (Starting (environment a)) ;;
  let ansible_dir := joinpath (project_root H) "ansible" in
  present <- exists_ ansible_dir ;;
  if negb present then
    say RED (AnsibleDirNotFound ansible_dir) ;;
    say YELLOW RequiresAnsibleDir ;;
    sys_exit 1
  else
    check_prerequisites ;;
    match action a with
    | DoCheck => ansible_syntax_check (environment a) ansible_dir
    | DoPlan => ansible_check (environment a) ansible_dir
    | DoApply => ansible_deploy (environment a) ansible_dir
    | DoCleanup => ansible_cleanup (environment a) ansible_dir
    end ;;
    say GREEN OperationCompleted.

End Script.

(** *** Reading a run of the deployment script *)

Definition says_not_installed (e : event) : bool :=
  match e with
  | Said _ (NotInstalled _) => true
  | _ => false
  end.

Definition says_command_failed (e : event) : bool :=
  match e with
  | Said _ (CommandFailed _) => true
  | _ => false
  end.

(** The command line of the playbook an action runs. *)
Definition playbook_command (c : choice) (environment : string) : string :=
  match c with
  | DoCheck =>
      "ansible-playbook playbooks/site.yml --syntax-check -i inventories/"
        ++ environment ++ ".yml"
  | DoPlan =>
      "ansible-playbook playbooks/site.yml --check -i inventories/"
        ++ environment ++ ".yml"
  | DoApply =>
      "ansible-playbook playbooks/site.yml -i inventories/" ++ environment ++ ".yml"
  | DoCleanup =>
      "ansible-playbook playbooks/cleanup.yml -i inventories/" ++ environment ++ ".yml"
  end.

Definition ansible_dir (H : host) : path := joinpath (project_root H) "ansible".

Definition inventory_file (H : host) (a : args) : path :=
  joinpath (ansible_dir H) ("inventories/" ++ environment a ++ ".yml").

(** The launches a run may make: the query for the tool, from the
    directory the script was started in, and the playbook of the
    action, from the ansible directory and with the inventory there. *)
Definition launch_of (H : host) (a : args) (e : event) : Prop :=
  match e with
  | Ran command cwd _ =>
      (command = "command -v ansible-playbook" /\ cwd = None)
      \/ (command = playbook_command (action a) (environment a)
          /\ cwd = Some (ansible_dir H)
          /\ path_exists H (inventory_file H a) = true)
  | _ => True
  end.

End Deploy.

(* ================================================================== *)
(** ** Concrete hosts *)

Module Scenario.

Import TestLocal.

Definition silent (ms : N) : reply :=
  {| took := ms; does := Exits 0 "" "" |}.

Definition prints (ms : N) (rc : Z) (out : string) : reply :=
  {| took := ms; does := Exits rc out "" |}.

Definition on (p : nat -> string -> reply) : host :=
  {| proc := p;
     http := fun _ => HttpError;
     home := "/root";
     project_root := "/repo";
     path_exists := fun _ => true;
     read_text := fun _ => Some "ssh-rsa AAAA" |}.

(** No container by that name: both listings come back empty, each
    after half a second. *)
Definition absent : host := on (fun _ _ => silent 500).

(** The container has stopped and its log is not valid UTF-8, so that
    reading the output of [docker logs] raises. *)
Definition garbled : host :=
  on (fun _ c =>
        if (c =? ps_all_command "web")%string then
          prints 0 0 "Exited (1) 2 seconds ago"
        else if (c =? logs_command "web" "20")%string then
          {| took := 0; does := Crashes "UnicodeDecodeError" |}
        else silent 0).

(** The container has stopped; its log can be read. *)
Definition stopped : host :=
  on (fun _ c =>
        if (c =? ps_all_command "test-vps")%string then
          prints 100 0 "Exited (1) 2 seconds ago"
        else silent 100).

(** The container is up, but the first listing hangs for longer than
    the 300 seconds [run_command] allows. *)
Definition hung : host :=
  on (fun _ c =>
        if (c =? ps_command "test-vps")%string then
          prints 301000 0 "Up 5 minutes"
        else if (c =? ps_all_command "test-vps")%string then
          prints 100 0 "Up 5 minutes"
        else silent 100).

(** The container is up and systemd reports [degraded], exit code 1. *)
Definition degraded : host :=
  on (fun _ c =>
        if (c =? ps_command "test-vps")%string then prints 100 0 "Up 2 seconds"
        else prints 100 1 "degraded").

(** Every command exits with code 1 at once: the SSH unit is inactive
    and stays so. *)
Definition inactive : host := on (fun _ _ => prints 0 1 "inactive").

(** SSH is active and listening from the first poll on. *)
Definition listening : host := on (fun _ _ => prints 0 0 "active").

(** Every container is up: each listing prints an [Up] status after a
    fifth of a second. *)
Definition running : host := on (fun _ _ => prints 200 0 "Up 2 minutes").

(** Docker is there, but every command run through it exits with code
    125. *)
Definition refusing : host := on (fun _ _ => prints 10 125 "").

(** A health-check host on which everything is in place and every
    ansible command succeeds. *)
Definition healthy : HealthCheck.host :=
  {| HealthCheck.project_root := ["/"; "repo"];
     HealthCheck.path_exists := fun _ => true;
     HealthCheck.ansible := fun _ _ _ => HealthCheck.Exit 0 |}.

(** The same, with every monitoring endpoint down: the [uri] probes
    exit with code 2. *)
Definition endpoints_down : HealthCheck.host :=
  {| HealthCheck.project_root := ["/"; "repo"];
     HealthCheck.path_exists := fun _ => true;
     HealthCheck.ansible := fun _ c _ =>
       if Py.contains "-m uri" c then HealthCheck.Exit 2 else HealthCheck.Exit 0 |}.

(** A health-check host with the ansible directory but no inventory in
    it. *)
Definition bare : HealthCheck.host :=
  {| HealthCheck.project_root := ["/"; "repo"];
     HealthCheck.path_exists := fun p =>
       match p with
       | ["/"; "repo"; "ansible"] => true
       | _ => false
       end;
     HealthCheck.ansible := fun _ _ _ => HealthCheck.Exit 0 |}.

(** A health-check host whose servers do not answer: the ping exits
    with code 4, everything else with 0. *)
Definition unreachable : HealthCheck.host :=
  {| HealthCheck.project_root := ["/"; "repo"];
     HealthCheck.path_exists := fun _ => true;
     HealthCheck.ansible := fun _ c _ =>
       if Py.contains "-m ping" c then HealthCheck.Exit 4 else HealthCheck.Exit 0 |}.

(** A validation host on which every command succeeds and every file
    is there, but no monitoring template parses as YAML. *)
Definition templated : Validate.host :=
  {| Validate.project_root := ["/"; "repo"];
     Validate.path_exists := fun _ => true;
     Validate.read_text := fun _ => Some "scrape_interval: {{ interval";
     Validate.yaml_loads := fun _ => false;
     Validate.getenv := fun _ => None;
     Validate.shell := fun _ _ _ _ => Validate.Exit 0 |}.

(** The same host with [SKIP_DOCKER_PULL=True] in the environment. *)
Definition offline : Validate.host :=
  {| Validate.project_root := ["/"; "repo"];
     Validate.path_exists := fun _ => true;
     Validate.read_text := fun _ => Some "scrape_interval: 15s";
     Validate.yaml_loads := fun _ => true;
     Validate.getenv := fun _ => Some "True";
     Validate.shell := fun _ _ _ _ => Validate.Exit 0 |}.

(** A validation host whose checkout lacks the playbook. *)
Definition incomplete : Validate.host :=
  {| Validate.project_root := ["/"; "repo"];
     Validate.path_exists := fun p =>
       match p with
       | ["/"; "repo"; "ansible"; "playbooks"; "site.yml"] => false
       | _ => true
       end;
     Validate.read_text := fun _ => Some "scrape_interval: 15s";
     Validate.yaml_loads := fun _ => true;
     Validate.getenv := fun _ => None;
     Validate.shell := fun _ _ _ _ => Validate.Exit 0 |}.

(** A deployment host with every path in place, on which every
    playbook fails with exit code 2. *)
Definition failing_playbooks : Deploy.host :=
  {| Deploy.project_root := ["/"; "repo"];
     Deploy.path_exists := fun _ => true;
     Deploy.shell := fun _ c _ =>
       if Py.startswith "ansible-playbook" c then
         Deploy.Exit {| Deploy.returncode := 2; Deploy.stdout := "";
                        Deploy.stderr := "ERROR! the playbook could not be run" |}
       else
         Deploy.Exit {| Deploy.returncode := 0; Deploy.stdout := ""; Deploy.stderr := "" |} |}.

(** Every SSH unit query exits with code 1 and the first of the final
    diagnostics cannot be run. *)
Definition undiagnosable : host :=
  on (fun _ c =>
        if (c =? "docker exec test-vps systemctl status ssh --no-pager -l")%string then
          {| took := 0; does := Crashes "OSError" |}
        else prints 0 1 "inactive").

(** The listing of running containers cannot be run. *)
Definition dockerless : host :=
  on (fun _ c =>
        if (c =? ps_command "web")%string then
          {| took := 0; does := Crashes "OSError" |}
        else silent 0).

(** SSH is active, but nothing listens on port 22: the search for a
    listener exits with code 1. *)
Definition deaf : host :=
  on (fun _ c =>
        if (c =? port_command "test-vps")%string then prints 0 1 ""
        else prints 0 0 "active").

(** The container is up while systemd is still starting: the
    [is-system-running] probe exits with code 3. *)
Definition starting : host :=
  on (fun _ c =>
        if (c =? ps_command "test-vps")%string then prints 100 0 "Up 2 seconds"
        else prints 100 3 "starting").

(** Everything the local test driver launches succeeds at once and
    prints [Up and active]; no HTTP server answers. *)
Definition all_up : host := on (fun _ _ => prints 0 0 "Up and active").

(** The [systemctl is-active ssh] probe cannot be run. *)
Definition unprobed : host :=
  on (fun _ c =>
        if (c =? ssh_active_command "test-vps")%string then
          {| took := 0; does := Crashes "OSError" |}
        else silent 0).

End Scenario.

(* ================================================================== *)
(** * Properties *)

(** ** Case analysis of monadic code *)

Ltac inner x :=
  lazymatch x with
  | context [match ?y with _ => _ end] => inner y
  | _ => x
  end.

(** Split on the scrutinee of the innermost [match] of the goal. *)
Ltac split_case :=
  match goal with
  | |- context [match ?x with _ => _ end] =>
      let y := inner x in destruct y eqn:?
  end; cbv beta iota.

(** Split the conjunctions of a closed goal and evaluate each part. *)
Ltac evaluate :=
  repeat lazymatch goal with |- _ /\ _ => split end;
  vm_compute; try reflexivity.

Module PyFacts.

Example strip_status :
  Py.strip ("Up 3 seconds" ++ String "010" "") = "Up 3 seconds".
Proof. reflexivity. Qed.

Example strip_blank : Py.strip (" " ++ String "010" "") = "".
Proof. reflexivity. Qed.

Example inactive_contains_active : Py.contains "active" "inactive" = true.
Proof. reflexivity. Qed.

Example split_path :
  Py.split "/" "inventories/dev.yml" = ["inventories"; "dev.yml"].
Proof. reflexivity. Qed.

Lemma startswith_nonempty a p s :
  Py.startswith (String a p) s = true -> Py.truthy s = true.
Proof. destruct s; [discriminate|reflexivity]. Qed.

End PyFacts.

(** ** The monad *)

Module EffFacts.

Import Eff.

Lemma bind_unfold {W A B} (m : M W A) (k : A -> M W B) w :
  bind m k w =
  match m w with
  | (Ok a, w') => k a w'
  | (Err e, w') => (Err e, w')
  | (OutOfFuel, w') => (OutOfFuel, w')
  end.
Proof. reflexivity. Qed.

Lemma bind_assoc {W A B C} (m : M W A) (k : A -> M W B) (k' : B -> M W C) w :
  bind (bind m k) k' w = bind m (fun a => bind (k a) k') w.
Proof.
  unfold bind. destruct (m w) as [[a|e|] w1]; reflexivity.
Qed.

Lemma bind_ret {W A B} (a : A) (k : A -> M W B) w : bind (ret a) k w = k a w.
Proof. reflexivity. Qed.

(** An exception the handler takes is gone; anything else passes. *)
Lemma try_except_unfold {W A} (m : M W A) h w :
  try_except m h w =
  match m w with
  | (Err (Exception e), w') => h e w'
  | r => r
  end.
Proof. reflexivity. Qed.

End EffFacts.

(* ================================================================== *)
(** ** The container readiness wait *)

Module ContainerWait.

Import Eff TestLocal.

Open Scope N_scope.

Ltac open_poll :=
  cbv beta iota zeta delta
    [container_poll container_up ssh_poll ssh_give_up try_except run_command
     launch bind say_if say sleep act ret raise andb negb].

Ltac prefix_of l t :=
  lazymatch l with
  | t => constr:(@nil event)
  | ?e :: ?l' => let r := prefix_of l' t in constr:(e :: r)
  end.

(** Name the events a run added to the trace. *)
Ltac give_new :=
  lazymatch goal with
  | |- exists new, trace ?w' = (new ++ trace ?w)%list /\ _ =>
      let l := eval cbn [trace log tick count] in (trace w') in
      let n := prefix_of l (trace w) in
      exists n; split; [reflexivity|]
  end.

Lemma since_exited_app a b :
  since_exited (a ++ b) =
  if existsb says_exited a then since_exited a else (a ++ since_exited b)%list.
Proof.
  induction a as [|e a IH]; cbn; [reflexivity|].
  destruct (says_exited e); cbn; [reflexivity|].
  rewrite IH. destruct (existsb says_exited a); reflexivity.
Qed.

Lemma last_said_app a b :
  last_said (a ++ b) =
  match last_said a with Some m => Some m | None => last_said b end.
Proof.
  induction a as [|e a IH]; cbn; [reflexivity|].
  destruct e; auto.
Qed.

Lemma lasted_le_took r t : lasted r t <= took r.
Proof. unfold lasted. lia. Qed.

Lemma lasted_le_timeout r t : lasted r t <= secs t.
Proof. unfold lasted. lia. Qed.

Section Bounded.

Variable H : host.

(** No launch of a poll lasts longer than [d]; polls set timeouts of 10
    and 300 seconds. *)
Variable d : N.
Hypothesis Hd : forall i c t, t <= 300 -> lasted (proc H i c) t <= d.

Ltac bound_launches :=
  repeat match goal with
  | |- context [lasted (proc H ?i ?c) ?t] =>
      let F := fresh "F" in
      assert (F := Hd i c t ltac:(lia));
      generalize dependent (lasted (proc H i c) t); intros
  end.

(** One poll never raises, and what it printed tells how it ended. *)
Lemma poll_cases name w :
  exists f w', container_poll H name w = (Ok f, w') /\
  exists new, trace w' = (new ++ trace w)%list /\
    clock w <= clock w' /\ poll_inv d name f new (clock w' - clock w).
Proof.
  open_poll.
  repeat split_case.
  all: eexists; eexists; (split; [reflexivity|]); give_new.
  all: cbn [clock log tick count]; split; [lia|].
  all: unfold poll_inv, ready_line, fetch_line, crashed_fetch;
    cbn -[N.sub N.add N.le N.mul lasted].
  all: repeat split; try reflexivity; try discriminate; auto.
  all: bound_launches; unfold secs; try lia.
Qed.

Section Loop.

Variable name : string.
Variables start timeout : N.

(** The invariant of the rest of the loop carries over a poll that did
    not return. *)
Lemma loop_later b new' mid new1 c0 c1 c2 :
  existsb says_ready (mid ++ new1) = false ->
  (existsb says_exited (mid ++ new1) = true ->
   existsb crashed_fetch (mid ++ new1) = true) ->
  (existsb says_exited (mid ++ new1) = false ->
   filter is_log_fetch (mid ++ new1) = [] /\ c1 <= c0 + 2 * d + 3000) ->
  c0 - start < secs timeout -> start <= c0 -> c0 <= c1 ->
  loop_inv d name start timeout b new' c1 c2 ->
  loop_inv d name start timeout b (new' ++ mid ++ new1) c0 c2.
Proof.
  intros Hr Hx Hq Hg Hs Hc [I1 I2 I3 I4].
  set (old := (mid ++ new1)%list) in *.
  split.
  - intros E. rewrite existsb_app, (I1 E). reflexivity.
  - rewrite !existsb_app. intros E1 E2.
    apply orb_false_iff in E1 as [E1 _], E2 as [E2 E2'].
    destruct (I2 E1 E2) as (-> & L & T1 & T2).
    destruct (Hq E2') as [_ Hle].
    rewrite last_said_app, L. repeat split; auto. left. lia.
  - rewrite !existsb_app. intros E1 E2.
    apply orb_false_iff in E2 as [E2 E2'].
    destruct (existsb says_exited old) eqn:Eo.
    { rewrite (Hx eq_refl) in E2'. discriminate. }
    rewrite orb_false_r in E1.
    destruct (I3 E1 E2) as (-> & R & S1 & S2 & S3).
    destruct (Hq eq_refl) as [Hf _].
    rewrite since_exited_app, E1, filter_app, Hf, app_nil_r, R, Hr.
    repeat split; auto.
  - rewrite last_said_app, existsb_app.
    destruct I4 as [[-> [L|L]]|[[-> L]|(-> & E & L)]].
    + left. split; auto. rewrite L. left; reflexivity.
    + left. split; auto. rewrite L. right; reflexivity.
    + right; left. rewrite L. auto.
    + right; right. rewrite E. split; auto. split; auto.
      destruct (last_said new') as [m|]; [exact L|destruct L].
Qed.

(** With one unit of fuel per two seconds left, and one to spare, the
    loop returns a boolean. *)
Lemma loop_cases fuel : forall w,
  start <= clock w ->
  (N.to_nat ((start + secs timeout - clock w + 1999) / 2000) + 1 <= fuel)%nat ->
  exists b w', container_loop H fuel name start timeout w = (Ok b, w') /\
  exists new, trace w' = (new ++ trace w)%list /\ clock w <= clock w' /\
    loop_inv d name start timeout b new (clock w) (clock w').
Proof.
  induction fuel as [|fuel IH]; intros w Hs Hf; [lia|].
  cbn [container_loop]. unfold bind at 1, now.
  destruct (N.ltb_spec (clock w - start) (secs timeout)) as [Hg|Hg].
  - destruct (poll_cases name w) as (f & w1 & E & new1 & Ht & Hc & Hp).
    unfold bind at 1. rewrite E.
    destruct f as [b| |].
    + exists b, w1. split; [reflexivity|]. exists new1. repeat split; auto.
      all: destruct b; cbn in Hp; try discriminate; intuition (try congruence).
    + cbn in Hp. destruct Hp as (X & R & Q & T1 & T2).
      destruct (IH w1) as (b & w' & E' & new' & Ht' & Hc' & Hi);
        [lia|unfold secs in *; lia|].
      exists b, w'. split; [exact E'|]. exists (new' ++ new1)%list.
      split; [rewrite Ht', Ht, app_assoc; reflexivity|]. split; [lia|].
      apply (loop_later b new' [] new1 (clock w) (clock w1) (clock w'));
        cbn; auto; try lia.
      * congruence.
      * intros _. split; auto. lia.
    + cbn in Hp. destruct Hp as (R & X & Q).
      unfold bind at 1, sleep, act.
      set (w2 := log (Slept (secs 3)) (tick (secs 3) w1)).
      destruct (IH w2) as (b & w' & E' & new' & Ht' & Hc' & Hi).
      { subst w2; cbn [clock log tick]; unfold secs; lia. }
      { subst w2; cbn [clock log tick]; unfold secs in *; lia. }
      exists b, w'. split; [exact E'|].
      exists (new' ++ [Slept (secs 3)] ++ new1)%list.
      split; [rewrite Ht'; subst w2; cbn; rewrite Ht, <- app_assoc; reflexivity|].
      split; [subst w2; cbn [clock log tick] in *; lia|].
      apply (loop_later b new' [Slept (secs 3)] new1
               (clock w) (clock w2) (clock w')); cbn; auto.
      * intros E0. destruct (Q E0) as [Q1 Q2]. split; auto.
        subst w2; cbn [clock log tick]; unfold secs; lia.
      * subst w2; cbn [clock log tick]; lia.
  - unfold bind, say, act, ret. eexists; eexists; split; [reflexivity|].
    exists [Said RED (NotReadyWithin name timeout)]. cbn [trace log clock app].
    split; [reflexivity|]. split; [lia|].
    split; cbn -[secs N.add N.mul]; try discriminate; auto.
    intros _ _. repeat split; auto. lia.
Qed.

(** The banner the wait prints first changes nothing. *)
Lemma loop_banner b new c0 c2 :
  loop_inv d name start timeout b new c0 c2 ->
  loop_inv d name start timeout b
    (new ++ [Said YELLOW (WaitingFor name)]) c0 c2.
Proof.
  intros [I1 I2 I3 I4].
  split; rewrite ?existsb_app, ?last_said_app; cbn; rewrite ?orb_false_r.
  - exact I1.
  - intros E1 E2. destruct (I2 E1 E2) as (-> & L & T). rewrite L. auto.
  - intros E1 E2. destruct (I3 E1 E2) as (-> & R & S1 & S2 & S3).
    rewrite since_exited_app, E1, filter_app, app_nil_r. auto.
  - destruct I4 as [[-> [L|L]]|[[-> L]|(-> & E & L)]].
    + left. split; auto. rewrite L. left; reflexivity.
    + left. split; auto. rewrite L. right; reflexivity.
    + right; left. rewrite L. auto.
    + right; right. split; auto. split; auto.
      destruct (last_said new) as [m|]; [exact L|destruct L].
Qed.

End Loop.

(** The wait returns a boolean, whatever the host does. *)
Lemma wait_cases name timeout w :
  exists b w', wait_for_container_healthy H name timeout w = (Ok b, w') /\
  exists new, trace w' = (new ++ trace w)%list /\ clock w <= clock w' /\
    loop_inv d name (clock w) timeout b new (clock w) (clock w').
Proof.
  unfold wait_for_container_healthy, bind, say, act, now.
  cbn [clock log].
  set (w0 := log (Said YELLOW (WaitingFor name)) w).
  destruct (loop_cases name (clock w) timeout (polls 2 timeout) w0)
    as (b & w' & E & new & Ht & Hc & Hi).
  { cbn. lia. }
  { unfold polls, w0, secs. cbn [clock log]. lia. }
  exists b, w'. split; [exact E|].
  exists (new ++ [Said YELLOW (WaitingFor name)])%list.
  split; [rewrite Ht, <- app_assoc; reflexivity|].
  split; [exact Hc|].
  apply loop_banner. exact Hi.
Qed.

End Bounded.

(** Launches of a poll are cut off after 300 seconds at the latest. *)
Lemma cut_off H i c t : t <= 300 -> lasted (proc H i c) t <= 300000.
Proof. intros L. pose proof (lasted_le_timeout (proc H i c) t). unfold secs in *. lia. Qed.

(** What is left of the trace when the wait returns, named. *)
Ltac run_of C w :=
  let b := fresh "b" in let w1 := fresh "w1" in let E := fresh "E" in
  let new1 := fresh "new1" in let Ht := fresh "Ht" in
  let Hc := fresh "Hc" in let Hi := fresh "Hi" in
  destruct C as (b & w1 & E & new1 & Ht & Hc & Hi);
  match goal with
  | R : wait_for_container_healthy _ _ _ w = _, T : trace _ = (_ ++ trace w)%list |- _ =>
      rewrite E in R; injection R as <- <-;
      rewrite Ht in T; apply app_inv_tail in T; subst new1
  end.

(** When no log fetch raises, a poll that finds the container stopped
    or exited ends the wait: the wait returns [False], nothing is slept
    and nothing but the log fetch is launched after the announcement,
    and the whole run fetches the log once. *)
Lemma exited_fails_fast H name timeout w r w' new :
  wait_for_container_healthy H name timeout w = (r, w') ->
  trace w' = (new ++ trace w)%list ->
  existsb says_exited new = true ->
  existsb crashed_fetch new = false ->
  r = Ok false
  /\ existsb says_ready new = false
  /\ existsb is_sleep (since_exited new) = false
  /\ filter is_launch (since_exited new) = filter is_log_fetch new
  /\ length (filter is_log_fetch new) = 1%nat.
Proof.
  intros R T X C.
  run_of (wait_cases H 300000 (cut_off H) name timeout w) w.
  destruct (inv_exited _ _ _ _ _ _ _ _ Hi X C) as (-> & ? & ? & ? & ?).
  auto.
Qed.

(** C1: on a host where the container has stopped and reading the
    output of [docker logs] raises, the wait does not return after the
    poll that found the container stopped: the handler of line 118
    takes the exception, three seconds are slept, the container is
    polled again and the log is fetched a second time; the wait ends at
    the deadline. *)
Theorem log_fetch_that_raises_keeps_polling :
  exists w',
    wait_for_container_healthy Scenario.garbled "web" 5 boot = (Ok false, w')
    /\ clock w' = 6000
    /\ history w' =
       [ Said YELLOW (WaitingFor "web");
         Ran "docker ps --filter name=web --format '{{.Status}}'"
           (Completed {| returncode := 0; stdout := ""; stderr := "" |});
         Ran "docker ps -a --filter name=web --format '{{.Status}}'"
           (Completed {| returncode := 0;
                         stdout := "Exited (1) 2 seconds ago"; stderr := "" |});
         Said RED (ExistsButStopped "web" "Exited (1) 2 seconds ago");
         Said YELLOW ContainerLogs;
         Said BLUE (Running "docker logs web --tail 20");
         Ran "docker logs web --tail 20" (Raised "UnicodeDecodeError");
         Said YELLOW (CheckingContainer "UnicodeDecodeError");
         Slept 3000;
         Ran "docker ps --filter name=web --format '{{.Status}}'"
           (Completed {| returncode := 0; stdout := ""; stderr := "" |});
         Ran "docker ps -a --filter name=web --format '{{.Status}}'"
           (Completed {| returncode := 0;
                         stdout := "Exited (1) 2 seconds ago"; stderr := "" |});
         Said RED (ExistsButStopped "web" "Exited (1) 2 seconds ago");
         Said YELLOW ContainerLogs;
         Said BLUE (Running "docker logs web --tail 20");
         Ran "docker logs web --tail 20" (Raised "UnicodeDecodeError");
         Said YELLOW (CheckingContainer "UnicodeDecodeError");
         Slept 3000;
         Said RED (NotReadyWithin "web" 5) ].
Proof.
  exists (snd (wait_for_container_healthy Scenario.garbled "web" 5 boot)).
  evaluate.
Qed.

(** C2, as stated, fails: with no container by that name, a timeout of
    5 seconds and listings that take half a second each, the wait
    returns 8 seconds after its start, which is not before the timeout
    plus one polling interval of 3 seconds. *)
Lemma deadline_overrun :
  exists w',
    wait_for_container_healthy Scenario.absent "test-vps" 5 boot = (Ok false, w')
    /\ existsb says_ready (trace w') = false
    /\ existsb says_exited (trace w') = false
    /\ ~ (clock w' - clock boot < secs 5 + secs 3).
Proof.
  exists (snd (wait_for_container_healthy Scenario.absent "test-vps" 5 boot)).
  evaluate. congruence.
Qed.


(** C6: on a host where the container is up but the first listing hangs
    past the 300 seconds [run_command] allows, the poll takes the failed
    listing for an empty one, finds the container in [docker ps -a] and
    returns [False] with "exists but stopped: Up 5 minutes". *)
Theorem timed_out_listing_is_taken_for_stopped :
  exists w',
    wait_for_container_healthy Scenario.hung "test-vps" 180 boot = (Ok false, w')
    /\ history w' =
       [ Said YELLOW (WaitingFor "test-vps");
         Ran "docker ps --filter name=test-vps --format '{{.Status}}'" Expired;
         Said RED (TimedOut 300
                     "docker ps --filter name=test-vps --format '{{.Status}}'");
         Ran "docker ps -a --filter name=test-vps --format '{{.Status}}'"
           (Completed {| returncode := 0; stdout := "Up 5 minutes"; stderr := "" |});
         Said RED (ExistsButStopped "test-vps" "Up 5 minutes");
         Said YELLOW ContainerLogs;
         Said BLUE (Running "docker logs test-vps --tail 20");
         Ran "docker logs test-vps --tail 20"
           (Completed {| returncode := 0; stdout := ""; stderr := "" |});
         Said BLUE (ExitCode 0) ].
Proof.
  exists (snd (wait_for_container_healthy Scenario.hung "test-vps" 180 boot)).
  evaluate.
Qed.

(** No exception leaves the container wait, and it does not run out of
    fuel: it returns [True] or [False]. *)
Lemma wait_returns H name timeout w :
  exists b w', wait_for_container_healthy H name timeout w = (Ok b, w').
Proof.
  destruct (wait_cases H 300000 (cut_off H) name timeout w) as (b & w' & E & _).
  eauto.
Qed.

(** A listing that raises ends the poll without a verdict: the loop
    sleeps three seconds and polls again. *)
Lemma raising_listing_is_not_a_verdict H name w e :
  answer (proc H (calls w) (ps_command name)) 300 = Raised e ->
  exists w', container_poll H name w = (Ok Next, w').
Proof.
  intros A. open_poll. rewrite A. cbv beta iota. eauto.
Qed.

End ContainerWait.

(* ================================================================== *)
(** ** What the waits launch *)

Module Steps.

Import Eff TestLocal.
Import ContainerWait.

Open Scope N_scope.

Section Rules.

Variable H : host.
Variable allowed : list string.

Lemma steps_ret {A} (Q : res A -> Prop) a :
  Q (Ok a) -> steps H allowed Q (ret a).
Proof.
  intros q w. exists (Ok a), w, []. repeat split; auto; lia.
Qed.

Lemma steps_raise {A} (Q : res A -> Prop) e :
  Q (Err e) -> steps H allowed Q (raise e).
Proof.
  intros q w. exists (Err e), w, []. repeat split; auto; lia.
Qed.

Lemma steps_weaken {A} (Q Q' : res A -> Prop) m :
  steps H allowed Q m -> (forall r, Q r -> Q' r) -> steps H allowed Q' m.
Proof.
  intros S I w. destruct (S w) as (r & w' & new & E & q & T).
  exists r, w', new. split; auto.
Qed.

Lemma steps_bind {A B} (P : res A -> Prop) (Q : res B -> Prop) m k :
  steps H allowed P m ->
  (forall a, P (Ok a) -> steps H allowed Q (k a)) ->
  (forall e, P (Err e) -> Q (Err e)) ->
  (P OutOfFuel -> Q OutOfFuel) ->
  steps H allowed Q (bind m k).
Proof.
  intros S K E F w. unfold bind.
  destruct (S w) as (r & w1 & new1 & E1 & q & T1 & C1 & N1 & L1). rewrite E1.
  destruct r as [a|e|].
  - destruct (K a q w1) as (r & w2 & new2 & E2 & q2 & T2 & C2 & N2 & L2).
    exists r, w2, (new2 ++ new1)%list. rewrite T2, T1, app_assoc.
    repeat split; auto; try lia. apply Forall_app; auto.
  - exists (Err e), w1, new1. repeat split; auto.
  - exists OutOfFuel, w1, new1. repeat split; auto.
Qed.

Lemma steps_try {A} (P Q : res A -> Prop) m h :
  steps H allowed P m ->
  (forall e, P (Err (Exception e)) -> steps H allowed Q (h e)) ->
  (forall r, P r -> (forall e, r <> Err (Exception e)) -> Q r) ->
  steps H allowed Q (try_except m h).
Proof.
  intros S K E w. unfold try_except.
  destruct (S w) as (r & w1 & new1 & E1 & q & T1 & C1 & N1 & L1). rewrite E1.
  destruct r as [a|[e|c]|].
  2: { destruct (K e q w1) as (r & w2 & new2 & E2 & q2 & T2 & C2 & N2 & L2).
       exists r, w2, (new2 ++ new1)%list. rewrite T2, T1, app_assoc.
       repeat split; auto; try lia. apply Forall_app; auto. }
  all: eexists; exists w1, new1; repeat split; auto; apply E; auto; discriminate.
Qed.

Lemma steps_seq {A B} (Q : res B -> Prop) (m : M A) k :
  steps H allowed plain m ->
  (forall a, steps H allowed Q (k a)) ->
  (forall e, Q (Err (Exception e))) ->
  steps H allowed Q (bind m k).
Proof.
  intros S K E. apply (steps_bind plain Q); auto.
  - intros [e|c] p; [apply E|destruct p].
  - intros [].
Qed.

Lemma steps_try_plain {A} (Q : res A -> Prop) (m : M A) h :
  steps H allowed plain m ->
  (forall e, steps H allowed Q (h e)) ->
  (forall a, Q (Ok a)) ->
  steps H allowed Q (try_except m h).
Proof.
  intros S K E. apply (steps_try plain Q); auto.
  intros [a|[e|c]|] p N; auto; try destruct p. destruct (N e eq_refl).
Qed.

Lemma steps_say {Q : res unit -> Prop} c m :
  Q (Ok tt) -> steps H allowed Q (say c m).
Proof.
  intros q w. exists (Ok tt), (log (Said c m) w), [Said c m].
  repeat split; auto; cbn; try lia. repeat constructor.
Qed.

Lemma steps_say_if {Q : res unit -> Prop} b c m :
  Q (Ok tt) -> steps H allowed Q (say_if b c m).
Proof.
  intros q. destruct b; [apply steps_say|apply steps_ret]; auto.
Qed.

Lemma steps_sleep {Q : res unit -> Prop} n :
  Q (Ok tt) -> steps H allowed Q (sleep n).
Proof.
  intros q w. eexists (Ok tt), _, [Slept (secs n)].
  repeat split; auto; cbn; try lia. repeat constructor.
Qed.

Lemma steps_now {Q : res N -> Prop} :
  (forall t, Q (Ok t)) -> steps H allowed Q now.
Proof.
  intros q w. exists (Ok (clock w)), w, []. repeat split; auto; lia.
Qed.

Lemma steps_run command cwd check timeout verbose :
  In command allowed ->
  steps H allowed plain (run_command H command cwd check timeout verbose).
Proof.
  intros I w. open_poll.
  repeat split_case.
  all: eexists; eexists; eexists; (split; [reflexivity|]).
  all: cbn [clock calls log tick count trace].
  all: split; [exact Logic.I|].
  all: split;
    [match goal with
     | |- ?l = _ =>
         let n := prefix_of l (trace w) in instantiate (1 := n)
     end; reflexivity|].
  all: repeat split; try lia.
  all: repeat (apply Forall_cons; [first [exact Logic.I | exact I]|]);
    apply Forall_nil.
Qed.

End Rules.

Ltac in_list :=
  lazymatch goal with
  | |- In ?c (?a :: ?l) =>
      first [constr_eq c a; left; reflexivity | right; in_list]
  end.

(** Follow the program text, one rule per construct. *)
Ltac walk :=
  cbv beta;
  first
  [ assumption
  | lazymatch goal with
    | |- steps _ _ _ (bind _ _) =>
        apply steps_seq; [walk | intro; walk | try (intro; exact Logic.I)]
    | |- steps _ _ _ (try_except _ _) =>
        apply steps_try_plain; [walk | intro; walk | try (intro; exact Logic.I)]
    | |- steps _ _ _ (ret _) => apply steps_ret; try exact Logic.I
    | |- steps _ _ _ (say _ _) => apply steps_say; exact Logic.I
    | |- steps _ _ _ (say_if _ _ _) => apply steps_say_if; exact Logic.I
    | |- steps _ _ _ (sleep _) => apply steps_sleep; exact Logic.I
    | |- steps _ _ _ now => apply steps_now; intro; exact Logic.I
    | |- steps _ _ _ (raise (Exception _)) => apply steps_raise; exact Logic.I
    | |- steps _ _ _ (run_command _ _ _ _ _ _) => apply steps_run; in_list
    | |- steps _ _ _ (if ?b then _ else _) => destruct b; walk
    | |- steps _ _ _ (match ?x with _ => _ end) => destruct x; walk
    | |- _ => idtac
    end ].

Section Launches.

Variable H : host.
Variable name : string.

Lemma container_poll_steps :
  steps H (container_queries name) plain (container_poll H name).
Proof.
  unfold container_poll, container_up, container_queries. walk.
Qed.

Lemma ssh_poll_steps : steps H (ssh_commands name) plain (ssh_poll H name).
Proof.
  unfold ssh_poll, ssh_commands, ssh_queries. walk.
Qed.

(** Giving up returns [False], unless one of its diagnostics raises. *)
Lemma give_up_steps timeout :
  steps H (ssh_commands name) (returns_or_raises (eq false))
    (ssh_give_up H name timeout).
Proof.
  unfold ssh_give_up, ssh_commands, ssh_queries, ssh_status_command. walk.
  reflexivity.
Qed.

Lemma out_of_fuel_steps {A} allowed :
  steps H allowed anyhow (fun w => (@OutOfFuel A, w)).
Proof.
  intros w. exists OutOfFuel, w, []. repeat split; auto; lia.
Qed.

Lemma container_loop_steps start timeout fuel :
  steps H (container_queries name) anyhow
    (container_loop H fuel name start timeout).
Proof.
  induction fuel as [|fuel IH]; [apply out_of_fuel_steps|].
  cbn [container_loop]. pose proof container_poll_steps. walk.
Qed.

Lemma ssh_loop_steps start timeout fuel :
  steps H (ssh_commands name) anyhow (ssh_loop H fuel name start timeout).
Proof.
  induction fuel as [|fuel IH]; [apply out_of_fuel_steps|].
  cbn [ssh_loop]. pose proof ssh_poll_steps. walk.
  eapply steps_weaken; [apply give_up_steps|]. intros; exact Logic.I.
Qed.

End Launches.

(** C8, as stated, fails: on a host where the SSH unit is inactive, the
    SSH wait launches [systemctl start ssh] in the container, which is
    not one of the commands that only report. *)
Lemma ssh_wait_starts_the_service :
  exists w',
    wait_for_ssh_service Scenario.inactive "test-vps" 5 boot = (Ok false, w')
    /\ existsb (fun e => match e with
                         | Ran c _ => (c =? ssh_start_command "test-vps")%string
                         | _ => false
                         end) (trace w') = true
    /\ ~ In (ssh_start_command "test-vps")
            (container_queries "test-vps" ++ ssh_queries "test-vps").
Proof.
  exists (snd (wait_for_ssh_service Scenario.inactive "test-vps" 5 boot)).
  split; [vm_compute; reflexivity|]. split; [vm_compute; reflexivity|].
  cbn. intros I. repeat (destruct I as [I|I]; [discriminate I|]). exact I.
Qed.

End Steps.

(* ================================================================== *)
(** ** The SSH readiness wait and the systemd probe *)

Module SshWait.

Import Eff TestLocal.
Import ContainerWait Steps.

Open Scope N_scope.

Ltac split_probe :=
  split_case; cbn [seen calls log tick count port_open ssh_active].

Section Polls.

Variable H : host.
Variable name : string.

(** One poll returns [True] when both probes answer in the affirmative
    and ends without a verdict in every other case. *)
Lemma ssh_poll_cases w :
  exists w',
    ssh_poll H name w =
      (Ok (if active_and_listening H name (calls w) then Return true else Next), w')
    /\ clock w <= clock w' /\ (calls w <= calls w')%nat.
Proof.
  unfold active_and_listening.
  open_poll. cbn [seen calls log tick count port_open ssh_active].
  repeat split_probe.
  all: cbn [andb].
  all: eexists; (split; [reflexivity|]).
  all: cbn [clock calls log tick count]; split; lia.
Qed.

Variables start timeout : N.


End Polls.

(** C5, as stated, fails: on a host where every command exits with code
    1, the SSH wait returns [False]; it takes exit code 1 of its
    [systemctl is-active ssh] probe for "not active", and it never
    launches [systemctl is-system-running]. *)
Lemma ssh_wait_rejects_exit_code_1 :
  exists w',
    wait_for_ssh_service Scenario.inactive "test-vps" 5 boot = (Ok false, w')
    /\ (forall i c t,
          answer (proc Scenario.inactive i c) t =
          Completed {| returncode := 1; stdout := "inactive"; stderr := "" |})
    /\ existsb (fun e => match e with
                         | Ran c _ => Py.contains "is-system-running" c
                         | _ => false
                         end) (trace w') = false.
Proof.
  exists (snd (wait_for_ssh_service Scenario.inactive "test-vps" 5 boot)).
  split; [vm_compute; reflexivity|]. split.
  - intros i c t. unfold answer. cbn [Scenario.inactive Scenario.on proc
      Scenario.prints took does].
    destruct (N.ltb_spec (secs t) 0) as [L|L]; [lia|reflexivity].
  - vm_compute. reflexivity.
Qed.

End SshWait.

(* ================================================================== *)
(** ** The local test driver after deployment *)

Module LocalDriver.

Import Eff EffFacts TestLocal.

(** The endpoint loop returns whatever the servers answer, and leaves
    requests, "is responding" lines and warnings in the trace. *)
Lemma endpoint_loop_returns H l w :
  exists w' new,
    endpoint_loop H l w = (Ok tt, w')
    /\ trace w' = (new ++ trace w)%list
    /\ Forall endpoint_event new.
Proof.
  revert w. induction l as [|[[url name] expected] l IH]; intros w.
  - exists w, []. repeat split; auto.
  - cbn [endpoint_loop].
    unfold bind at 1, test_http_endpoint, bind at 1, act, ret.
    set (ok := match http H url with Response _ _ => _ | HttpError => _ end).
    set (w1 := log (Fetched url) w).
    unfold bind at 1.
    destruct ok; unfold say, act.
    + destruct (IH (log (Said GREEN (Responding name)) w1)) as (w' & new & E & T & F).
      exists w', (new ++ [Said GREEN (Responding name); Fetched url])%list.
      split; [exact E|]. split; [rewrite T, <- app_assoc; reflexivity|].
      apply Forall_app. split; auto. repeat constructor.
    + destruct (IH (log (Said YELLOW (Inconclusive name)) w1)) as (w' & new & E & T & F).
      exists w', (new ++ [Said YELLOW (Inconclusive name); Fetched url])%list.
      split; [exact E|]. split; [rewrite T, <- app_assoc; reflexivity|].
      apply Forall_app. split; auto. repeat constructor.
Qed.

Lemma bind_say {A} c m (k : unit -> M A) w :
  bind (say c m) k w = k tt (log (Said c m) w).
Proof. reflexivity. Qed.

Lemma bind_sleep {A} n (k : unit -> M A) w :
  bind (sleep n) k w = k tt (log (Slept (secs n)) (tick (secs n) w)).
Proof. reflexivity. Qed.

(** The lines [main] prints last. *)
Lemma farewell_returns w :
  exists w',
    (say GREEN (Note "Local testing completed!") ;;
     say BLUE (Note "You can now access services at:") ;;
     say NC (Note "  * Grafana: https://localhost:3001 (admin/admin)") ;;
     say NC (Note "  * Prometheus: https://localhost:9091") ;;
     say NC (Note "  * Loki: https://localhost:3101") ;;
     say NC (Note "To clean up test environment:") ;;
     say NC (Note "  cd docker/test-environment && docker-compose down") ;;
     say GREEN (Note "Configuration is ready for production deployment!")) w
    = (Ok tt, w').
Proof. rewrite !bind_say. unfold say, act. eauto. Qed.

(** How the stage after deployment ends does not depend on the HTTP
    servers. *)
Lemma test_services_whatever_http H h dir w :
  fst (test_services (with_http H h) dir w) = fst (test_services H dir w).
Proof.
  unfold test_services. rewrite !bind_say, !bind_sleep, !bind_say.
  change (run_command (with_http H h)) with (run_command H).
  rewrite !bind_unfold.
  match goal with
  | |- context [run_command H ?c ?d ?k ?t ?v ?x] =>
      destruct (run_command H c d k t v x) as [[a|e|] w1]
  end; try reflexivity.
  rewrite !bind_say, !bind_unfold.
  match goal with
  | |- context [endpoint_loop H endpoints ?x] =>
      destruct (endpoint_loop_returns (with_http H h) endpoints x)
        as (w2 & n2 & -> & _);
      destruct (endpoint_loop_returns H endpoints x) as (w3 & n3 & -> & _)
  end.
  destruct (farewell_returns w2) as (w4 & ->).
  destruct (farewell_returns w3) as (w5 & ->).
  reflexivity.
Qed.

(** Whatever is behind the ports, [main] ends the same way. *)
Lemma main_whatever_http H h w :
  fst (main (with_http H h) w) = fst (main H w).
Proof.
  unfold main. change (deploy (with_http H h)) with (deploy H).
  rewrite !bind_unfold.
  destruct (deploy H w) as [[a|e|] w1]; try reflexivity.
  apply test_services_whatever_http.
Qed.

(** One turn of the endpoint loop: one request and one line, the
    warning when the endpoint is unreachable. *)
Lemma endpoint_step H url name expected rest w :
  exists ok,
    endpoint_loop H ((url, name, expected) :: rest) w
    = endpoint_loop H rest (log (verdict_line ok name) (log (Fetched url) w))
    /\ (unreachable (http H url) -> ok = false).
Proof.
  cbn [endpoint_loop].
  unfold bind at 1, test_http_endpoint, bind at 1, act, ret.
  set (ok := match http H url with Response _ _ => _ | HttpError => _ end).
  exists ok. split.
  - unfold bind at 1. destruct ok; reflexivity.
  - subst ok. destruct (http H url) as [s t|]; cbn [unreachable]; [|reflexivity].
    intros U. destruct (Z.eqb_spec s 200); [contradiction|reflexivity].
Qed.

(** The whole loop of lines 385-389. *)
Lemma endpoint_loop_lines H w :
  exists ok1 ok2 ok3 w',
    endpoint_loop H endpoints w = (Ok tt, w')
    /\ clock w' = clock w /\ calls w' = calls w
    /\ trace w' = (endpoint_lines ok1 ok2 ok3 ++ trace w)%list
    /\ (unreachable (http H "https://localhost:3001") -> ok1 = false)
    /\ (unreachable (http H "https://localhost:9091") -> ok2 = false)
    /\ (unreachable (http H "https://localhost:3101") -> ok3 = false).
Proof.
  unfold endpoints.
  destruct (endpoint_step H "https://localhost:3001" "Grafana" (Some "grafana")
              [("https://localhost:9091", "Prometheus", Some "prometheus");
               ("https://localhost:3101", "Loki", None)] w) as (ok1 & -> & U1).
  destruct (endpoint_step H "https://localhost:9091" "Prometheus" (Some "prometheus")
              [("https://localhost:3101", "Loki", None)]
              (log (verdict_line ok1 "Grafana") (log (Fetched "https://localhost:3001") w)))
    as (ok2 & -> & U2).
  destruct (endpoint_step H "https://localhost:3101" "Loki" None []
              (log (verdict_line ok2 "Prometheus")
                 (log (Fetched "https://localhost:9091")
                    (log (verdict_line ok1 "Grafana")
                       (log (Fetched "https://localhost:3001") w)))))
    as (ok3 & -> & U3).
  exists ok1, ok2, ok3. eexists. split; [reflexivity|].
  repeat split; assumption.
Qed.

(** A command that is launched and does not raise is answered. *)
Lemma run_command_answers H c d k t v w :
  (forall e, answer (proc H (calls w) c) t <> Raised e) ->
  exists r w', run_command H c d k t v w = (Ok r, w').
Proof.
  intros NR. unfold run_command, say_if, launch, bind, say, act, ret, raise.
  destruct v; cbn [calls log].
  all: destruct (answer (proc H (calls w) c) t) as [p| |e] eqn:A;
    [|eauto|destruct (NR e eq_refl)].
  all: repeat split_case; eauto.
Qed.

(** Everything after the deployment, when the listing of the containers
    can be launched. *)
Lemma test_services_lines H dir w :
  (forall e, answer (proc H (calls w) containers_command) 300 <> Raised e) ->
  exists ok1 ok2 ok3 w' rest,
    test_services H dir w = (Ok tt, w')
    /\ trace w' = (farewell ++ endpoint_lines ok1 ok2 ok3 ++ rest)%list
    /\ (unreachable (http H "https://localhost:3001") -> ok1 = false)
    /\ (unreachable (http H "https://localhost:9091") -> ok2 = false)
    /\ (unreachable (http H "https://localhost:3101") -> ok3 = false).
Proof.
  intros NR. unfold test_services.
  rewrite !bind_say, bind_sleep, bind_say, bind_unfold.
  fold containers_command.
  match goal with
  | |- context [run_command H containers_command ?d ?k ?t ?v ?x] =>
      destruct (run_command_answers H containers_command d k t v x NR)
        as (r & w1 & ->)
  end.
  rewrite bind_say, bind_unfold.
  destruct (endpoint_loop_lines H (log (Said YELLOW (Note "Testing HTTP endpoints...")) w1))
    as (ok1 & ok2 & ok3 & w2 & -> & _ & _ & T & U).
  rewrite !bind_say. unfold say, act.
  exists ok1, ok2, ok3. eexists. exists (Said YELLOW (Note "Testing HTTP endpoints...") :: trace w1).
  split; [reflexivity|]. split; [|exact U].
  cbn [trace log]. rewrite T. reflexivity.
Qed.

Lemma main_lines H w w1 :
  deploy H w = (Ok tt, w1) ->
  (forall e, answer (proc H (calls w1) containers_command) 300 <> Raised e) ->
  exists ok1 ok2 ok3 w' rest,
    main H w = (Ok tt, w')
    /\ trace w' = (farewell ++ endpoint_lines ok1 ok2 ok3 ++ rest)%list
    /\ (unreachable (http H "https://localhost:3001") -> ok1 = false)
    /\ (unreachable (http H "https://localhost:9091") -> ok2 = false)
    /\ (unreachable (http H "https://localhost:3101") -> ok3 = false).
Proof.
  intros E NR. unfold main. rewrite bind_unfold, E.
  apply test_services_lines. exact NR.
Qed.

End LocalDriver.

(* ================================================================== *)
(** ** The health-check driver *)

Module HealthFacts.

Import Eff EffFacts Pathlib HealthCheck.

Lemma bind_said {A} c m (k : unit -> M A) w :
  bind (say c m) k w = k tt (log (Said c m) w).
Proof. reflexivity. Qed.

Section Host.

Variable H : host.

(** [run_checks] goes through a list of checks in order. *)
Lemma run_checks_app l1 l2 environment dir : forall failed w,
  run_checks (l1 ++ l2) environment dir failed w =
  bind (run_checks l1 environment dir failed)
       (fun failed' => run_checks l2 environment dir failed') w.
Proof.
  induction l1 as [|[check_name check_function] l1 IH]; intros failed w.
  - cbn [app run_checks]. unfold bind, ret. reflexivity.
  - cbn [app run_checks]. rewrite bind_assoc.
    rewrite (bind_unfold _ _ w), (bind_unfold _ (fun a => bind _ _) w).
    destruct (try_except _ _ w) as [[a|e|] w1]; auto.
Qed.

Lemma run_checks_cons check_name check_function l environment dir failed_checks w :
  run_checks ((check_name, check_function) :: l) environment dir failed_checks w =
  bind
    (try_except
       (say BLUE (RunningCheck check_name) ;;
        ok <- check_function environment dir ;;
        ret (if ok then failed_checks else (failed_checks ++ [check_name])%list))
       (fun e =>
          say RED (CheckFailedWithError check_name e) ;;
          ret (failed_checks ++ [check_name])%list))
    (fun failed => run_checks l environment dir failed) w.
Proof. reflexivity. Qed.

(** A list of failed checks only grows. *)
Lemma run_checks_grows l environment dir : forall failed w failed' w',
  run_checks l environment dir failed w = (Ok failed', w') ->
  exists more, failed' = (failed ++ more)%list.
Proof.
  induction l as [|[check_name check_function] l IH]; intros failed w failed' w'.
  - cbn. unfold ret. intros [= <- <-]. exists []. rewrite app_nil_r. reflexivity.
  - cbn [run_checks]. rewrite bind_unfold.
    destruct (try_except _ _ w) as [[a|e|] w1] eqn:T; try discriminate.
    intros R. destruct (IH _ _ _ _ R) as (more & ->).
    assert (G : a = failed \/ a = (failed ++ [check_name])%list).
    { revert T. unfold try_except. rewrite bind_said, bind_unfold.
      destruct (check_function environment dir _) as [[[|]|[e|c]|] w2];
        unfold ret, say, act, bind; cbn; intros [= <- <-]; auto. }
    destruct G as [->| ->]; [eauto|].
    exists ([check_name] ++ more)%list. rewrite app_assoc. reflexivity.
Qed.

(** Without its inventory the connectivity check fails. *)
Lemma connectivity_needs_inventory environment dir w :
  path_exists H (joinpath dir ("inventories/" ++ environment ++ ".yml")) = false ->
  exists w', check_connectivity H environment dir w = (Ok false, w').
Proof.
  intros E. unfold check_connectivity, with_inventory.
  rewrite bind_said, bind_unfold. unfold exists_ at 1. rewrite E. cbn [negb].
  rewrite bind_said. unfold ret. eauto.
Qed.

Lemma say_each_returns l : forall w, exists w', say_each l w = (Ok tt, w').
Proof.
  induction l as [|c l IH]; intros w; cbn [say_each].
  - unfold ret. eauto.
  - rewrite bind_said. apply IH.
Qed.

(** One endpoint probe that exits. *)
Lemma probe_step description command rest inv dir success rc w :
  ansible H (calls w) ("ansible " ++ command ++ " -i " ++ name inv) (Some dir) = Exit rc ->
  exists w1,
    probe_each H ((description, command) :: rest) inv dir success w
    = probe_each H rest inv dir success w1
    /\ calls w1 = S (calls w)
    /\ trace w1 = (rev (probe_lines description command inv dir rc) ++ trace w)%list.
Proof.
  intros A. cbn [probe_each]. rewrite bind_said, bind_unfold.
  unfold run_ansible_command. rewrite bind_unfold. unfold launch at 1.
  cbn [calls log]. rewrite A. unfold probe_lines.
  destruct (rc =? 0)%Z.
  - unfold ret at 1. cbn [negb]. rewrite bind_unfold. unfold ret at 1.
    eexists. split; [reflexivity|]. split; reflexivity.
  - rewrite bind_said. unfold ret at 1. cbn [negb]. rewrite bind_said.
    eexists. split; [reflexivity|]. split; reflexivity.
Qed.

(** The endpoint check, probe by probe, when the inventory is there
    and each probe exits. *)
Lemma endpoint_check_lines environment dir rc1 rc2 rc3 w :
  let inventory := joinpath dir ("inventories/" ++ environment ++ ".yml") in
  let grafana :=
    "all -m uri -a " ++ Py.dq ++ "url=http://localhost:3000/api/health timeout=10" ++ Py.dq in
  let prometheus :=
    "all -m uri -a " ++ Py.dq ++ "url=http://localhost:9090/-/ready timeout=10" ++ Py.dq in
  let loki :=
    "all -m uri -a " ++ Py.dq ++ "url=http://localhost:3100/ready timeout=10" ++ Py.dq in
  path_exists H inventory = true ->
  ansible H (calls w) ("ansible " ++ grafana ++ " -i " ++ name inventory) (Some dir)
  = Exit rc1 ->
  ansible H (S (calls w)) ("ansible " ++ prometheus ++ " -i " ++ name inventory) (Some dir)
  = Exit rc2 ->
  ansible H (S (S (calls w))) ("ansible " ++ loki ++ " -i " ++ name inventory) (Some dir)
  = Exit rc3 ->
  exists w',
    check_monitoring_endpoints H environment dir w = (Ok true, w')
    /\ calls w' = S (S (S (calls w)))
    /\ trace w' =
       (rev ([ Said BLUE (Heading "Checking monitoring endpoints..."); Stat inventory ]
             ++ probe_lines "Grafana (port 3000)" grafana inventory dir rc1
             ++ probe_lines "Prometheus (port 9090)" prometheus inventory dir rc2
             ++ probe_lines "Loki (port 3100)" loki inventory dir rc3)
        ++ trace w)%list.
Proof.
  intros inventory grafana prometheus loki P A1 A2 A3.
  unfold check_monitoring_endpoints, with_inventory.
  rewrite bind_said, bind_unfold. unfold exists_ at 1.
  fold inventory. rewrite P. cbn [negb]. unfold endpoint_commands.
  fold grafana prometheus loki.
  set (w0 := log (Stat inventory) _).
  change (calls w) with (calls w0) in A1, A2, A3 |- *.
  destruct (probe_step "Grafana (port 3000)" grafana
              [("Prometheus (port 9090)", prometheus); ("Loki (port 3100)", loki)]
              inventory dir true rc1 w0 A1) as (w1 & -> & C1 & T1).
  rewrite <- C1 in A2, A3.
  destruct (probe_step "Prometheus (port 9090)" prometheus [("Loki (port 3100)", loki)]
              inventory dir true rc2 w1 A2) as (w2 & -> & C2 & T2).
  rewrite <- C2 in A3.
  destruct (probe_step "Loki (port 3100)" loki [] inventory dir true rc3 w2 A3)
    as (w3 & -> & C3 & T3).
  exists w3. split; [reflexivity|]. split; [rewrite C3, C2, C1; reflexivity|].
  rewrite T3, T2, T1. subst w0. cbn [trace log].
  rewrite !rev_app_distr, <- !app_assoc. reflexivity.
Qed.

Hypothesis probes : probes_exit H.

(** A probe that exits, with whatever code, is answered with [True] or
    [False], never with an exception. *)
Lemma probe_each_returns inv dir success l :
  (forall x, In x l -> In x endpoint_commands) ->
  forall w, exists w' new,
    probe_each H l inv dir success w = (Ok success, w')
    /\ trace w' = (new ++ trace w)%list
    /\ Forall probe_event new.
Proof.
  induction l as [|[description command] l IH]; intros Sub w.
  - exists w, []. repeat split; auto.
  - cbn [probe_each]. rewrite bind_said, bind_unfold.
    unfold run_ansible_command. rewrite bind_unfold. unfold launch at 1.
    cbn [calls log].
    pose proof (probes (calls w) description command (name inv) (Some dir)) as P.
    destruct (ansible H (calls w) _ (Some dir)) as [rc|e] eqn:A.
    2: { exfalso. apply (P e); [apply Sub; left; reflexivity|reflexivity]. }
    clear P.
    match goal with
    | |- context [{| calls := ?n; trace := ?t |}] =>
        set (w1 := {| calls := n; trace := t |})
    end.
    assert (T1 : exists new1, trace w1 = (new1 ++ trace w)%list /\ Forall probe_event new1).
    { subst w1. cbn [trace log].
      exists [Ran ("ansible " ++ command ++ " -i " ++ name inv) (Some dir) (Exit rc);
              Said YELLOW (Checking description)].
      split; [reflexivity|]. repeat constructor. }
    clearbody w1. destruct T1 as (new1 & T1 & F1).
    assert (IH' : forall w2 new2,
               trace w2 = (new2 ++ trace w)%list -> Forall probe_event new2 ->
               exists w' new,
                 probe_each H l inv dir success w2 = (Ok success, w')
                 /\ trace w' = (new ++ trace w)%list /\ Forall probe_event new).
    { intros w2 new2 T2 F2.
      destruct (IH (fun x I => Sub x (or_intror I)) w2) as (w' & new & E & T & F).
      exists w', (new ++ new2)%list. split; [exact E|].
      split; [rewrite T, T2, app_assoc; reflexivity|].
      apply Forall_app. auto. }
    destruct (rc =? 0)%Z.
    + unfold ret at 1. cbn [negb]. rewrite bind_unfold. unfold ret at 1.
      apply (IH' w1 new1); auto.
    + rewrite bind_said. unfold ret at 1. cbn [negb]. rewrite bind_said.
      eapply IH'.
      * cbn [trace log]. rewrite T1.
        instantiate (1 := (Said YELLOW (MayNotBeResponding description)
                             :: Said RED (CommandFailed
                                            ("ansible " ++ command ++ " -i " ++ name inv))
                             :: new1)).
        reflexivity.
      * repeat constructor. exact F1.
Qed.

(** The endpoint check answers whether the inventory is there, and
    nothing else. *)
Lemma endpoint_check_reports_inventory environment dir w :
  exists w' new,
    check_monitoring_endpoints H environment dir w =
    (Ok (path_exists H (joinpath dir ("inventories/" ++ environment ++ ".yml"))), w')
    /\ trace w' = (new ++ trace w)%list
    /\ Forall endpoint_check_event new.
Proof.
  unfold check_monitoring_endpoints, with_inventory.
  rewrite bind_said, bind_unfold. unfold exists_ at 1.
  set (inv := joinpath dir ("inventories/" ++ environment ++ ".yml")).
  destruct (path_exists H inv) eqn:E; cbn [negb].
  - destruct (probe_each_returns inv dir true endpoint_commands (fun x I => I)
                (log (Stat inv)
                   (log (Said BLUE (Heading "Checking monitoring endpoints...")) w)))
      as (w' & new & -> & T & F).
    exists w', (new ++ [Stat inv; Said BLUE (Heading "Checking monitoring endpoints...")])%list.
    split; [reflexivity|]. split; [rewrite T, <- app_assoc; reflexivity|].
    apply Forall_app. split; [|repeat constructor].
    eapply Forall_impl; [|exact F]. intros [p|c d o|[] []]; cbn; tauto.
  - rewrite bind_said. unfold ret. eexists. 
    exists [Said RED (InventoryNotFound inv); Stat inv;
            Said BLUE (Heading "Checking monitoring endpoints...")].
    split; [reflexivity|]. split; [reflexivity|]. repeat constructor.
Qed.

(** The exit status is 0 when no check failed and 1 otherwise. *)
Lemma summary_exit failed_checks w :
  exit_status
    (fst ((say BLUE Summary ;;
           match failed_checks with
           | [] =>
               say GREEN AllPassed ;;
               sys_exit 0
           | _ =>
               say RED (FailedCount (length failed_checks)) ;;
               say_each failed_checks ;;
               say YELLOW (Tip "Tips:") ;;
               say YELLOW (Tip "Check server connectivity and SSH access") ;;
               say YELLOW (Tip "Verify services are running: systemctl status <service>") ;;
               say YELLOW (Tip "Check logs: journalctl -u <service> --tail 50") ;;
               sys_exit 1
           end) w))
  = Some (match failed_checks with [] => 0 | _ => 1 end)%Z.
Proof.
  rewrite bind_said. destruct failed_checks as [|c l].
  - rewrite bind_said. reflexivity.
  - rewrite bind_said, bind_unfold.
    destruct (say_each_returns (c :: l) (log (Said RED (FailedCount (length (c :: l))))
                                           (log (Said BLUE Summary) w))) as (w' & ->).
    rewrite !bind_said. reflexivity.
Qed.

(** Whether the endpoint check runs or is skipped, [main] exits with
    the same status. *)
Lemma main_exit_whatever_probes environment w :
  exit_status (fst (main H {| environment := environment; skip_endpoints := false |} w))
  = exit_status (fst (main H {| environment := environment; skip_endpoints := true |} w)).
Proof.
  unfold main. cbv zeta. cbn [HealthCheck.environment skip_endpoints].
  rewrite !bind_said, !bind_unfold. unfold exists_ at 1 2.
  destruct (path_exists H (joinpath (project_root H) "ansible")); cbn [negb];
    [|reflexivity].
  set (dir := joinpath (project_root H) "ansible").
  set (w0 := log (Stat dir) _).
  rewrite !bind_unfold. rewrite !run_checks_app, !bind_unfold.
  destruct (run_checks _ environment dir [] w0) as [[failed|e|] w1] eqn:R;
    [|reflexivity|reflexivity].
  cbn [run_checks]. unfold ret at 2 3 4. cbv beta iota.
  rewrite bind_unfold. unfold try_except at 1.
  rewrite bind_said, bind_unfold.
  destruct (endpoint_check_reports_inventory environment dir
              (log (Said BLUE (RunningCheck "monitoring endpoints")) w1))
    as (w2 & new2 & -> & _).
  destruct (path_exists H (joinpath dir ("inventories/" ++ environment ++ ".yml")))
    eqn:Inv; unfold ret at 1; cbv beta iota; rewrite !summary_exit.
  - reflexivity.
  - assert (N : exists c l, failed = c :: l).
    { revert R. rewrite run_checks_cons, bind_unfold. unfold try_except at 1.
      rewrite bind_said, bind_unfold.
      destruct (connectivity_needs_inventory environment dir
                  (log (Said BLUE (RunningCheck "connectivity")) w0) Inv)
        as (w3 & ->).
      unfold ret at 1. cbv beta iota. intros R.
      destruct (run_checks_grows _ _ _ _ _ _ _ R) as (more & ->).
      cbn. eauto. }
    destruct N as (c & l & ->). reflexivity.
Qed.

End Host.

End HealthFacts.

(* ================================================================== *)
(** ** Claims on the drivers *)

Module Drivers.

Import Eff Pathlib.

Lemma endpoints_down_probes_exit : HealthCheck.probes_exit Scenario.endpoints_down.
Proof.
  intros i description command inventory cwd e _.
  cbn [Scenario.endpoints_down HealthCheck.ansible].
  destruct (Py.contains _ _); discriminate.
Qed.

(** C9: for the environment [dev] the connectivity check tests that
    [ansible/inventories/dev.yml] exists and then launches ansible in
    [ansible] with [-i dev.yml]: [run_ansible_command] passes
    [inventory_file.name], the last part of the path only, and from the
    working directory of the command that is [ansible/dev.yml], another
    file than the one tested. *)
Theorem inventory_argument_drops_directory :
  let dir := ["/"; "repo"; "ansible"] in
  let run := HealthCheck.check_connectivity Scenario.healthy "dev" dir HealthCheck.boot in
  fst run = Ok true
  /\ HealthCheck.history (snd run) =
     [ HealthCheck.Said HealthCheck.BLUE
         (HealthCheck.Heading "Checking server connectivity...");
       HealthCheck.Stat ["/"; "repo"; "ansible"; "inventories"; "dev.yml"];
       HealthCheck.Ran "ansible all -m ping -i dev.yml"
         (Some ["/"; "repo"; "ansible"]) (HealthCheck.Exit 0) ]
  /\ joinpath dir "dev.yml" = ["/"; "repo"; "ansible"; "dev.yml"]
  /\ joinpath dir "dev.yml" <> ["/"; "repo"; "ansible"; "inventories"; "dev.yml"].
Proof.
  cbv zeta. evaluate. discriminate.
Qed.

(** C7, counterexample: with the three monitoring endpoints down, the
    endpoint check of the health check prints more than a warning for
    each failed probe: the red line "Command failed: ansible all -m uri
    ..." of [run_ansible_command] comes before the yellow "may not be
    responding". *)
Lemma failed_probe_prints_command_failed :
  let grafana :=
    "all -m uri -a " ++ Py.dq ++ "url=http://localhost:3000/api/health timeout=10" ++ Py.dq in
  let prometheus :=
    "all -m uri -a " ++ Py.dq ++ "url=http://localhost:9090/-/ready timeout=10" ++ Py.dq in
  let loki :=
    "all -m uri -a " ++ Py.dq ++ "url=http://localhost:3100/ready timeout=10" ++ Py.dq in
  let dir := ["/"; "repo"; "ansible"] in
  let run :=
    HealthCheck.check_monitoring_endpoints Scenario.endpoints_down "dev" dir
      HealthCheck.boot in
  fst run = Ok true
  /\ HealthCheck.history (snd run) =
     [ HealthCheck.Said HealthCheck.BLUE
         (HealthCheck.Heading "Checking monitoring endpoints...");
       HealthCheck.Stat ["/"; "repo"; "ansible"; "inventories"; "dev.yml"];
       HealthCheck.Said HealthCheck.YELLOW (HealthCheck.Checking "Grafana (port 3000)");
       HealthCheck.Ran ("ansible " ++ grafana ++ " -i dev.yml") (Some dir)
         (HealthCheck.Exit 2);
       HealthCheck.Said HealthCheck.RED
         (HealthCheck.CommandFailed ("ansible " ++ grafana ++ " -i dev.yml"));
       HealthCheck.Said HealthCheck.YELLOW
         (HealthCheck.MayNotBeResponding "Grafana (port 3000)");
       HealthCheck.Said HealthCheck.YELLOW (HealthCheck.Checking "Prometheus (port 9090)");
       HealthCheck.Ran ("ansible " ++ prometheus ++ " -i dev.yml") (Some dir)
         (HealthCheck.Exit 2);
       HealthCheck.Said HealthCheck.RED
         (HealthCheck.CommandFailed ("ansible " ++ prometheus ++ " -i dev.yml"));
       HealthCheck.Said HealthCheck.YELLOW
         (HealthCheck.MayNotBeResponding "Prometheus (port 9090)");
       HealthCheck.Said HealthCheck.YELLOW (HealthCheck.Checking "Loki (port 3100)");
       HealthCheck.Ran ("ansible " ++ loki ++ " -i dev.yml") (Some dir)
         (HealthCheck.Exit 2);
       HealthCheck.Said HealthCheck.RED
         (HealthCheck.CommandFailed ("ansible " ++ loki ++ " -i dev.yml"));
       HealthCheck.Said HealthCheck.YELLOW
         (HealthCheck.MayNotBeResponding "Loki (port 3100)") ].
Proof.
  cbv zeta. evaluate.
Qed.

(** C7 (amended): a failed HTTP reachability probe does not fail the
    run.  In the local test driver the endpoint loop makes one request
    per endpoint and prints one line for it, the yellow "test
    inconclusive" warning when the request fails or is answered with
    another status than 200, and returns; [main], once the deployment
    has succeeded and the listing of the containers could be launched,
    goes through the loop, prints its closing lines and returns, and
    how it ends never depends on what the HTTP servers answer.  In the
    health check, when the inventory is there and the three probes
    exit, the endpoint check returns [True] whatever their exit codes;
    a probe that exits with another code than 0 leaves two lines, the
    red "Command failed" of [run_ansible_command] and then the yellow
    "may not be responding"; and when no probe fails to be launched the
    exit status of [main] is the one it has with [--skip-endpoints]. *)
Theorem failed_probes_warn_and_pass (L : TestLocal.host) (H : HealthCheck.host) :
  (forall w,
     exists ok1 ok2 ok3 w',
       TestLocal.endpoint_loop L TestLocal.endpoints w = (Ok tt, w')
       /\ TestLocal.clock w' = TestLocal.clock w
       /\ TestLocal.calls w' = TestLocal.calls w
       /\ TestLocal.trace w' =
          (TestLocal.endpoint_lines ok1 ok2 ok3 ++ TestLocal.trace w)%list
       /\ (TestLocal.unreachable (TestLocal.http L "https://localhost:3001") ->
           ok1 = false)
       /\ (TestLocal.unreachable (TestLocal.http L "https://localhost:9091") ->
           ok2 = false)
       /\ (TestLocal.unreachable (TestLocal.http L "https://localhost:3101") ->
           ok3 = false))
  /\ (forall w w1,
        TestLocal.deploy L w = (Ok tt, w1) ->
        (forall e,
           TestLocal.answer
             (TestLocal.proc L (TestLocal.calls w1) TestLocal.containers_command) 300
           <> TestLocal.Raised e) ->
        exists ok1 ok2 ok3 w' rest,
          TestLocal.main L w = (Ok tt, w')
          /\ TestLocal.trace w' =
             (TestLocal.farewell ++ TestLocal.endpoint_lines ok1 ok2 ok3 ++ rest)%list
          /\ (TestLocal.unreachable (TestLocal.http L "https://localhost:3001") ->
              ok1 = false)
          /\ (TestLocal.unreachable (TestLocal.http L "https://localhost:9091") ->
              ok2 = false)
          /\ (TestLocal.unreachable (TestLocal.http L "https://localhost:3101") ->
              ok3 = false))
  /\ (forall h w,
        fst (TestLocal.main (TestLocal.with_http L h) w) = fst (TestLocal.main L w))
  /\ (forall environment dir rc1 rc2 rc3 w,
        let inventory := joinpath dir ("inventories/" ++ environment ++ ".yml") in
        let grafana :=
          "all -m uri -a " ++ Py.dq ++ "url=http://localhost:3000/api/health timeout=10"
            ++ Py.dq in
        let prometheus :=
          "all -m uri -a " ++ Py.dq ++ "url=http://localhost:9090/-/ready timeout=10"
            ++ Py.dq in
        let loki :=
          "all -m uri -a " ++ Py.dq ++ "url=http://localhost:3100/ready timeout=10"
            ++ Py.dq in
        HealthCheck.path_exists H inventory = true ->
        HealthCheck.ansible H (HealthCheck.calls w)
          ("ansible " ++ grafana ++ " -i " ++ name inventory) (Some dir)
        = HealthCheck.Exit rc1 ->
        HealthCheck.ansible H (S (HealthCheck.calls w))
          ("ansible " ++ prometheus ++ " -i " ++ name inventory) (Some dir)
        = HealthCheck.Exit rc2 ->
        HealthCheck.ansible H (S (S (HealthCheck.calls w)))
          ("ansible " ++ loki ++ " -i " ++ name inventory) (Some dir)
        = HealthCheck.Exit rc3 ->
        exists w',
          HealthCheck.check_monitoring_endpoints H environment dir w = (Ok true, w')
          /\ HealthCheck.calls w' = S (S (S (HealthCheck.calls w)))
          /\ HealthCheck.trace w' =
             (rev ([ HealthCheck.Said HealthCheck.BLUE
                       (HealthCheck.Heading "Checking monitoring endpoints...");
                     HealthCheck.Stat inventory ]
                   ++ HealthCheck.probe_lines "Grafana (port 3000)" grafana
                        inventory dir rc1
                   ++ HealthCheck.probe_lines "Prometheus (port 9090)" prometheus
                        inventory dir rc2
                   ++ HealthCheck.probe_lines "Loki (port 3100)" loki
                        inventory dir rc3)
              ++ HealthCheck.trace w)%list)
  /\ (HealthCheck.probes_exit H ->
      forall environment w,
        exit_status
          (fst (HealthCheck.main H
                  {| HealthCheck.environment := environment;
                     HealthCheck.skip_endpoints := false |} w))
        = exit_status
            (fst (HealthCheck.main H
                    {| HealthCheck.environment := environment;
                       HealthCheck.skip_endpoints := true |} w))).
Proof.
  split; [|split; [|split; [|split]]].
  - apply LocalDriver.endpoint_loop_lines.
  - apply LocalDriver.main_lines.
  - intros h w. apply LocalDriver.main_whatever_http.
  - intros environment dir rc1 rc2 rc3 w.
    apply HealthFacts.endpoint_check_lines.
  - intros P environment w. apply HealthFacts.main_exit_whatever_probes. exact P.
Qed.

Lemma failed_probes_warn_and_pass_witness :
  (exists w' rest,
     TestLocal.main Scenario.all_up TestLocal.boot = (Ok tt, w')
     /\ TestLocal.trace w' =
        (TestLocal.farewell ++ TestLocal.endpoint_lines false false false ++ rest)%list)
  /\ (exists w',
        HealthCheck.check_monitoring_endpoints Scenario.endpoints_down "dev"
          ["/"; "repo"; "ansible"] HealthCheck.boot = (Ok true, w')
        /\ HealthCheck.calls w' = 3%nat
        /\ In (HealthCheck.Said HealthCheck.RED
                 (HealthCheck.CommandFailed
                    ("ansible all -m uri -a " ++ Py.dq
                       ++ "url=http://localhost:3100/ready timeout=10" ++ Py.dq
                       ++ " -i dev.yml")))
              (HealthCheck.trace w'))
  /\ exit_status
       (fst (HealthCheck.main Scenario.endpoints_down
               {| HealthCheck.environment := "dev";
                  HealthCheck.skip_endpoints := false |} HealthCheck.boot))
     = Some 0%Z.
Proof.
  pose proof (failed_probes_warn_and_pass Scenario.all_up Scenario.endpoints_down)
    as (_ & M & _ & C & X).
  split; [|split].
  - destruct (M TestLocal.boot (snd (TestLocal.deploy Scenario.all_up TestLocal.boot)))
      as (ok1 & ok2 & ok3 & w' & rest & E & T & U1 & U2 & U3).
    + vm_compute. reflexivity.
    + intros e. vm_compute. discriminate.
    + rewrite (U1 I), (U2 I), (U3 I) in T. exists w', rest. split; [exact E|exact T].
  - destruct (C "dev" ["/"; "repo"; "ansible"] 2%Z 2%Z 2%Z HealthCheck.boot)
      as (w' & E & N & T); try reflexivity.
    exists w'. split; [exact E|]. split; [exact N|].
    rewrite T. vm_compute. tauto.
  - rewrite (X endpoints_down_probes_exit "dev" HealthCheck.boot). reflexivity.
Defined.

End Drivers.

(* ================================================================== *)
(** ** The validation driver *)

Module ValidateFacts.

Import Eff EffFacts Pathlib Validate.

Lemma bind_print {A} c m (k : unit -> M A) w :
  bind (say c m) k w = k tt (log (Said c m) w).
Proof. reflexivity. Qed.

Lemma harmless_ret {A} (a : A) : harmless (ret a).
Proof. intros w. exists a, w. auto. Qed.

Lemma harmless_bind {A B} (m : M A) (k : A -> M B) :
  harmless m -> (forall a, harmless (k a)) -> harmless (bind m k).
Proof.
  intros Hm Hk w. rewrite bind_unfold.
  destruct (Hm w) as (a & w1 & -> & F1 & S1).
  destruct (Hk a w1) as (b & w2 & -> & F2 & S2).
  exists b, w2. repeat split; congruence.
Qed.

Lemma harmless_say c m : harmless (say c m).
Proof. intros w. exists tt, (log (Said c m) w). auto. Qed.

Lemma harmless_pass : harmless (act pass).
Proof. intros w. exists tt, (pass w). auto. Qed.

Lemma harmless_log e : harmless (act (log e)).
Proof. intros w. exists tt, (log e w). auto. Qed.

(** A malformed or unreadable template that exists: a warning, and
    neither counter moves. *)
Lemma malformed_template_is_not_counted H template_dir filename test_name w :
  path_exists H (joinpath template_dir filename) = true ->
  match read_text H (joinpath template_dir filename) with
  | Some content => yaml_loads H content = false
  | None => True
  end ->
  validate_config_file H template_dir filename test_name w =
  (Ok tt,
   log (Said YELLOW (TemplateWithVariables test_name))
     (log (Read (joinpath template_dir filename))
        (log (Stat (joinpath template_dir filename)) w))).
Proof.
  intros E R. unfold validate_config_file. cbv zeta.
  rewrite bind_unfold. unfold exists_ at 1. rewrite E.
  unfold try_except, load_yaml. rewrite bind_unfold. unfold bind at 1, act at 1.
  destruct (read_text H (joinpath template_dir filename)) as [content|].
  - rewrite R. reflexivity.
  - reflexivity.
Qed.

Section Host.

Variable H : host.
Hypothesis commands : commands_succeed H.
Hypothesis files : files_present H.

Lemma run_test_passes test_name command cwd timeout :
  harmless (run_test H test_name command cwd timeout).
Proof.
  intros w. unfold run_test. rewrite bind_print, bind_unfold. unfold launch at 1.
  rewrite commands. cbn [Z.eqb]. rewrite bind_print.
  eexists; eexists. split; [reflexivity|]. auto.
Qed.

Lemma check_files_pass l :
  (forall f, In f l -> In f required_files) ->
  harmless (check_files H (project_root H) l).
Proof.
  induction l as [|f l IH]; intros Sub; cbn [check_files].
  - apply harmless_ret.
  - intros w. cbv zeta. rewrite bind_unfold. unfold exists_ at 1.
    rewrite (proj1 files f (Sub f (or_introl eq_refl))).
    rewrite bind_unfold, bind_print. unfold act at 1.
    destruct (IH (fun x I => Sub x (or_intror I))
                (pass (log (Said GREEN (TestingTick (name (joinpath [] f) ++ " exists")))
                         (log (Stat (joinpath (project_root H) f)) w))))
      as (a & w' & -> & F & S).
    exists a, w'. auto.
Qed.

Lemma exists_harmless p : harmless (exists_ H p).
Proof. intros w. exists (path_exists H p), (log (Stat p) w). auto. Qed.

Lemma pull_each_passes l : harmless (pull_each H l).
Proof.
  induction l as [|image l IH]; cbn [pull_each].
  - apply harmless_ret.
  - apply harmless_bind; [apply run_test_passes|intros _; exact IH].
Qed.

Lemma check_docker_images_passes : harmless (check_docker_images H).
Proof.
  intros w. unfold check_docker_images.
  assert (P : harmless
                (say BLUE (Heading "Checking Docker image availability...") ;;
                 say YELLOW (Heading "Tip: Set SKIP_DOCKER_PULL=true to skip image pulling") ;;
                 pull_each H images)).
  { apply harmless_bind; [apply harmless_say|intros _].
    apply harmless_bind; [apply harmless_say|intros _].
    apply pull_each_passes. }
  destruct (skip_docker_pull w) eqn:S.
  - eexists; eexists. split; [reflexivity|]. cbn. auto.
  - destruct (P w) as (a & w' & E & F & S'). exists a, w'.
    rewrite E. repeat split; congruence.
Qed.

Lemma validate_config_file_harmless filename test_name :
  In (filename, test_name) config_files ->
  harmless
    (validate_config_file H
       (joinpath (project_root H) "ansible/roles/monitoring/templates")
       filename test_name).
Proof.
  intros I w. unfold validate_config_file. cbv zeta.
  rewrite bind_unfold. unfold exists_ at 1.
  rewrite (proj2 files filename test_name I).
  unfold try_except, load_yaml. rewrite bind_unfold. unfold bind at 1, act at 1.
  destruct (read_text H _) as [content|].
  - destruct (yaml_loads H content).
    + unfold ret at 1. rewrite bind_print. unfold act.
      eexists; eexists. split; [reflexivity|]. auto.
    + unfold raise at 1. eexists; eexists. split; [reflexivity|]. auto.
  - unfold raise at 1. eexists; eexists. split; [reflexivity|]. auto.
Qed.

Lemma validate_each_harmless l :
  (forall x, In x l -> In x config_files) ->
  harmless
    (validate_each H
       (joinpath (project_root H) "ansible/roles/monitoring/templates") l).
Proof.
  induction l as [|[filename test_name] l IH]; intros Sub; cbn [validate_each].
  - apply harmless_ret.
  - apply harmless_bind.
    + apply validate_config_file_harmless. apply Sub. left. reflexivity.
    + intros _. apply IH. intros x I. apply Sub. right. exact I.
Qed.

(** Everything [main] does before the summary. *)
Lemma steps_before_summary :
  harmless
    (say BLUE (Heading "Running pre-deployment validation...") ;;
     check_prerequisites H ;;
     check_file_structure H (project_root H) ;;
     validate_ansible_syntax H (project_root H) ;;
     test_template_rendering H (project_root H) ;;
     check_docker_images H ;;
     validate_config_files H (project_root H)).
Proof.
  repeat first
    [ apply harmless_say
    | apply harmless_ret
    | apply run_test_passes
    | apply exists_harmless
    | apply check_docker_images_passes
    | apply check_files_pass; auto
    | apply validate_each_harmless; auto
    | match goal with
      | |- harmless (if ?b then _ else _) => destruct b
      | |- harmless (check_prerequisites _) => unfold check_prerequisites
      | |- harmless (check_file_structure _ _) => unfold check_file_structure
      | |- harmless (validate_ansible_syntax _ _) =>
          unfold validate_ansible_syntax; cbv zeta
      | |- harmless (test_template_rendering _ _) =>
          unfold test_template_rendering; cbv zeta
      | |- harmless (validate_config_files _ _) =>
          unfold validate_config_files; cbv zeta
      | |- harmless (bind _ _) => apply harmless_bind; [|intro]
      end ].
Qed.

(** With nothing failed, [main] exits with status 0. *)
Lemma main_exits_0 w :
  tests_failed w = 0%nat ->
  exists w', main H w = (Err (SystemExit 0), w') /\ tests_failed w' = 0%nat.
Proof.
  intros Z.
  assert (E : forall w0, main H w0 =
            bind (say BLUE (Heading "Running pre-deployment validation...") ;;
                  check_prerequisites H ;;
                  check_file_structure H (project_root H) ;;
                  validate_ansible_syntax H (project_root H) ;;
                  test_template_rendering H (project_root H) ;;
                  check_docker_images H ;;
                  validate_config_files H (project_root H))
                 (fun _ => success <- print_summary ;;
                           sys_exit (if success then 0 else 1)%Z) w0).
  { intros w0. unfold main. cbv zeta.
    unfold bind.
    repeat match goal with
    | |- context [match ?m ?x with _ => _ end] =>
        lazymatch m with
        | print_summary => fail
        | _ => destruct (m x) as [[?|?|] ?]
        end
    end; reflexivity. }
  rewrite E, bind_unfold.
  destruct (steps_before_summary w) as (a & w1 & -> & F & _).
  rewrite bind_unfold. unfold print_summary at 1.
  rewrite !bind_print. rewrite F, Z. cbn [Nat.eqb]. rewrite bind_print.
  unfold ret, sys_exit, raise. eexists. split; [reflexivity|]. cbn. congruence.
Qed.

End Host.

(** C10: in the validation driver, a monitoring template that exists
    but does not parse as YAML moves neither [tests_passed] nor
    [tests_failed]; and on a host where every command succeeds and
    every required file and template is there, such a template still
    leaves [tests_failed] at 0 and the exit status at 0. *)
Theorem malformed_template_is_not_a_failure H filename test_name content :
  commands_succeed H ->
  files_present H ->
  In (filename, test_name) config_files ->
  read_text H
    (joinpath (joinpath (project_root H) "ansible/roles/monitoring/templates") filename)
  = Some content ->
  yaml_loads H content = false ->
  (forall w, exists w',
     validate_config_file H
       (joinpath (project_root H) "ansible/roles/monitoring/templates")
       filename test_name w = (Ok tt, w')
     /\ tests_passed w' = tests_passed w
     /\ tests_failed w' = tests_failed w)
  /\ (exists w',
        main H (init H) = (Err (SystemExit 0), w')
        /\ tests_failed w' = 0%nat
        /\ exit_status (fst (main H (init H))) = Some 0%Z).
Proof.
  intros C F I R Y. split.
  - intros w. eexists. split.
    + apply malformed_template_is_not_counted.
      * exact (proj2 F filename test_name I).
      * rewrite R. exact Y.
    + auto.
  - destruct (main_exits_0 H C F (init H) eq_refl) as (w' & E & Z).
    exists w'. rewrite E. auto.
Qed.

Lemma malformed_template_is_not_a_failure_witness :
  exists w',
    main Scenario.templated (init Scenario.templated) = (Err (SystemExit 0), w')
    /\ tests_failed w' = 0%nat
    /\ exit_status (fst (main Scenario.templated (init Scenario.templated))) = Some 0%Z.
Proof.
  apply (malformed_template_is_not_a_failure Scenario.templated
           "prometheus.yml.j2" "Prometheus config template"
           "scrape_interval: {{ interval").
  - intros i command cwd timeout. reflexivity.
  - split; intros; reflexivity.
  - left. reflexivity.
  - reflexivity.
  - reflexivity.
Defined.

End ValidateFacts.

(* ================================================================== *)
(** ** When the container wait gives up *)

Module Deadline.

Import Eff EffFacts TestLocal.
Import ContainerWait.

Open Scope N_scope.

Lemma launches_rev (l : list event) :
  length (filter is_launch (rev l)) = length (filter is_launch l).
Proof.
  induction l as [|e l IH]; [reflexivity|].
  cbn [rev filter]. rewrite filter_app, length_app, IH. cbn [filter].
  destruct (is_launch e); cbn [length]; lia.
Qed.

Lemma longest_app H a : forall i b,
  longest H i (a ++ b) =
  N.max (longest H i a) (longest H (i + length (filter is_launch a)) b).
Proof.
  induction a as [|e a IH]; intros i b.
  - cbn. rewrite Nat.add_0_r. lia.
  - destruct e as [c r|ms|c m|url]; cbn [app longest filter is_launch length].
    + rewrite IH. replace (i + S (length (filter is_launch a)))%nat
        with (S i + length (filter is_launch a))%nat by lia. lia.
    + apply IH.
    + apply IH.
    + apply IH.
Qed.

(** No launch is counted for more than the 300 seconds it may run. *)
Lemma longest_le H hist : forall i, longest H i hist <= secs 300.
Proof.
  induction hist as [|e hist IH]; intros i; [cbn; unfold secs; lia|].
  destruct e as [c r|ms|c m|url]; cbn [longest]; auto.
  pose proof (lasted_le_timeout (proc H i c) 300). specialize (IH (S i)). lia.
Qed.

Section Timed.

Variable H : host.
Variable name : string.

(** One poll, with the time it takes set against its launches: a poll
    that finds the container neither ready nor stopped nor exited
    launches two commands at most, and sleeps two or three seconds
    itself when it goes straight to the next poll. *)
Lemma poll_time w :
  exists f w' new,
    container_poll H name w = (Ok f, w')
    /\ trace w' = (new ++ trace w)%list
    /\ calls w' = (calls w + length (filter is_launch new))%nat
    /\ match f with
       | Return true => existsb says_ready new = true
       | Return false => existsb says_exited new = true
       | Continue =>
           clock w + 2000 <= clock w'
           /\ clock w' <= clock w + 2 * longest H (calls w) (rev new) + 3000
       | Next =>
           clock w <= clock w'
           /\ (existsb says_exited new = false ->
               clock w' <= clock w + 2 * longest H (calls w) (rev new))
       end.
Proof.
  open_poll.
  repeat split_case.
  all: eexists; eexists;
    lazymatch goal with
    | |- exists new, (_, ?w1) = _ /\ _ =>
        let l := eval cbn [trace log tick count] in (trace w1) in
        let n := prefix_of l (trace w) in
        exists n; split; [reflexivity|]; split; [reflexivity|]
    end.
  all: cbn [clock calls log tick count rev app filter is_launch length longest
            existsb says_ready says_exited orb].
  all: split; [lia|].
  all: try reflexivity.
  all: unfold lasted, secs; repeat split; try lia.
  all: intros; try discriminate; lia.
Qed.

Variables start timeout : N.

(** The loop, when nothing is ever found: it ends in [False] at the
    first test of the deadline that fails, and the last test that
    passed is followed by one poll. *)
Lemma loop_time fuel : forall w,
  start <= clock w ->
  (N.to_nat ((start + secs timeout - clock w + 1999) / 2000) + 1 <= fuel)%nat ->
  exists b w' new,
    container_loop H fuel name start timeout w = (Ok b, w')
    /\ trace w' = (new ++ trace w)%list
    /\ (existsb says_ready new = false -> existsb says_exited new = false ->
        b = false
        /\ last_said new = Some (NotReadyWithin name timeout)
        /\ start + secs timeout <= clock w'
        /\ (clock w' < start + secs timeout + 3000
                       + 2 * longest H (calls w) (rev new)
            \/ clock w' = clock w)).
Proof.
  induction fuel as [|fuel IH]; intros w Hs Hf; [lia|].
  cbn [container_loop]. rewrite bind_unfold. unfold now at 1.
  destruct (N.ltb_spec (clock w - start) (secs timeout)) as [G|G].
  - rewrite bind_unfold.
    destruct (poll_time w) as (f & w1 & new1 & -> & T1 & C1 & P).
    destruct f as [[|]| |].
    + exists true, w1, new1. split; [reflexivity|]. split; [exact T1|].
      intros R _. rewrite R in P. discriminate.
    + exists false, w1, new1. split; [reflexivity|]. split; [exact T1|].
      intros _ X. rewrite X in P. discriminate.
    + destruct P as [P1 P2].
      destruct (IH w1) as (b & w' & new' & E & T & V);
        [lia|unfold secs in *; lia|].
      exists b, w', (new' ++ new1)%list. split; [exact E|].
      split; [rewrite T, T1, app_assoc; reflexivity|].
      rewrite !existsb_app. intros R X.
      apply orb_false_iff in R as [R R1], X as [X X1].
      destruct (V R X) as (-> & L & D & U).
      split; [reflexivity|]. split; [rewrite last_said_app, L; reflexivity|].
      split; [exact D|]. left.
      rewrite rev_app_distr, longest_app, launches_rev, <- C1.
      destruct U as [U|U]; lia.
    + destruct P as [P1 P2].
      rewrite bind_unfold. unfold sleep at 1, act at 1.
      destruct (IH (log (Slept (secs 3)) (tick (secs 3) w1)))
        as (b & w' & new' & E & T & V).
      { cbn [clock log tick]. unfold secs. lia. }
      { cbn [clock log tick]. unfold secs in *. lia. }
      exists b, w', (new' ++ Slept (secs 3) :: new1)%list. split; [exact E|].
      split; [rewrite T; cbn [trace log tick]; rewrite T1, <- app_assoc;
              reflexivity|].
      rewrite !existsb_app. cbn [existsb says_ready says_exited orb].
      intros R X. apply orb_false_iff in R as [R R1], X as [X X1].
      destruct (V R X) as (-> & L & D & U).
      split; [reflexivity|]. split; [rewrite last_said_app, L; reflexivity|].
      split; [exact D|]. left.
      specialize (P2 X1).
      rewrite rev_app_distr. cbn [rev]. rewrite longest_app.
      rewrite filter_app, length_app. cbn [filter is_launch length].
      rewrite launches_rev, Nat.add_0_r, <- C1.
      rewrite (longest_app H (rev new1) (calls w) [Slept (secs 3)]).
      cbn [longest]. cbn [clock calls log tick] in U.
      unfold secs in *. destruct U as [U|U]; lia.
  - rewrite bind_unfold. unfold say at 1, act at 1, ret.
    exists false, (log (Said RED (NotReadyWithin name timeout)) w),
      [Said RED (NotReadyWithin name timeout)].
    split; [reflexivity|]. split; [reflexivity|]. intros _ _.
    cbn [last_said clock log]. repeat split; auto. lia.
Qed.

End Timed.

(** C2 (amended): a run of the container wait in which no poll finds the
    container ready, stopped or exited returns [False] after the line
    "did not become ready within [timeout]s", no earlier than [timeout]
    after its start and, on the clock of the model, strictly before
    [timeout] plus one polling interval of 3 seconds plus twice the
    longest time one of the commands it launched took; and no command
    is counted for more than the 300 seconds after which [run_command]
    cuts it off. *)
Theorem deadline_is_overrun_by_one_poll H name timeout w r w' new :
  wait_for_container_healthy H name timeout w = (r, w') ->
  trace w' = (new ++ trace w)%list ->
  existsb says_ready new = false ->
  existsb says_exited new = false ->
  r = Ok false
  /\ last_said new = Some (NotReadyWithin name timeout)
  /\ secs timeout <= clock w' - clock w
  /\ clock w' - clock w
     < secs timeout + secs 3 + 2 * longest H (calls w) (rev new)
  /\ longest H (calls w) (rev new) <= secs 300.
Proof.
  unfold wait_for_container_healthy. rewrite bind_unfold. unfold say at 1, act at 1.
  rewrite bind_unfold. unfold now at 1. cbn [clock log].
  intros R T NR NX.
  destruct (loop_time H name (clock w) timeout (polls 2 timeout)
              (log (Said YELLOW (WaitingFor name)) w))
    as (b & w1 & new1 & E & T1 & V).
  { cbn [clock log]. lia. }
  { unfold polls, secs. cbn [clock log]. lia. }
  rewrite E in R. injection R as <- <-.
  cbn [trace log] in T1. rewrite T1 in T.
  change (Said YELLOW (WaitingFor name) :: trace w)
    with ([Said YELLOW (WaitingFor name)] ++ trace w)%list in T.
  rewrite app_assoc in T. apply app_inv_tail in T. subst new.
  rewrite existsb_app in NR, NX. cbn [existsb says_ready says_exited] in NR, NX.
  rewrite !orb_false_r in NR, NX.
  destruct (V NR NX) as (-> & L & D & U).
  split; [reflexivity|]. split; [rewrite last_said_app, L; reflexivity|].
  rewrite rev_app_distr. cbn [rev app longest]. cbn [calls clock log] in U.
  pose proof (longest_le H (rev new1) (calls w)).
  unfold secs in *. repeat split; try lia.
Qed.

Lemma deadline_is_overrun_by_one_poll_witness :
  Ok false = Ok false
  /\ last_said (trace (snd (wait_for_container_healthy Scenario.absent "test-vps" 5 boot)))
     = Some (NotReadyWithin "test-vps" 5)
  /\ secs 5 <= 8000 - 0
  /\ 8000 - 0 < secs 5 + secs 3 + 2 * 500
  /\ 500 <= secs 300.
Proof.
  apply (deadline_is_overrun_by_one_poll Scenario.absent "test-vps" 5 boot (Ok false)
           (snd (wait_for_container_healthy Scenario.absent "test-vps" 5 boot))
           (trace (snd (wait_for_container_healthy Scenario.absent "test-vps" 5 boot)))).
  - vm_compute. reflexivity.
  - vm_compute. reflexivity.
  - vm_compute. reflexivity.
  - vm_compute. reflexivity.
Defined.

End Deadline.

(* ================================================================== *)
(** ** What a failed wait hands to its caller *)

Module Outcomes.

Import Eff EffFacts TestLocal.
Import ContainerWait Steps SshWait.

Open Scope N_scope.




Section Polls.

Variable H : host.
Variable name : string.







End Polls.



End Outcomes.

(* ================================================================== *)
(** ** What the waits take for ready *)

Module Readiness.

Import Eff EffFacts TestLocal.
Import ContainerWait Steps SshWait.

Open Scope N_scope.

Lemma eqb_same_prefix a s1 s2 :
  ((a ++ s1) =? (a ++ s2))%string = (s1 =? s2)%string.
Proof.
  induction a as [|c a IH]; cbn; [reflexivity|].
  rewrite Ascii.eqb_refl. exact IH.
Qed.

Lemma systemd_ok_spec q :
  systemd_ok (Some q) = true <-> (returncode q = 0 \/ returncode q = 1)%Z.
Proof.
  unfold systemd_ok. rewrite orb_true_iff, !Z.eqb_eq. tauto.
Qed.

(** The test of lines 143 and 152, spelled out. *)
Lemma both_probes_spec H name i :
  active_and_listening H name i = true <-> both_probes_succeed H name i.
Proof.
  unfold active_and_listening, both_probes_succeed, ssh_active_command, port_command.
  split.
  - destruct (answer (proc H i _) 5) as [p| |e]; cbn [seen ssh_active andb];
      try discriminate.
    destruct (answer (proc H (S i) _) 5) as [q| |e]; cbn [seen port_open];
      rewrite ?andb_false_r; try discriminate.
    rewrite !andb_true_iff, !Z.eqb_eq. intros [[R C] R']. exists p, q. auto.
  - intros (p & q & -> & R & C & -> & R'). cbn [seen ssh_active port_open].
    rewrite R, C, R'. reflexivity.
Qed.

Section Ssh.

Variable H : host.
Variable name : string.

(** One poll of the SSH wait: it returns [True] after the two probes,
    when both succeed, and ends without a verdict otherwise. *)
Lemma ssh_poll_detail w :
  exists f w',
    ssh_poll H name w = (Ok f, w')
    /\ clock w <= clock w' /\ (calls w <= calls w')%nat
    /\ ((f = Return true /\ both_probes_succeed H name (calls w)
         /\ calls w' = S (S (calls w)))
        \/ (f = Next /\ ~ both_probes_succeed H name (calls w))).
Proof.
  assert (B : exists f w',
             ssh_poll H name w = (Ok f, w')
             /\ clock w <= clock w' /\ (calls w <= calls w')%nat
             /\ ((f = Return true /\ active_and_listening H name (calls w) = true
                  /\ calls w' = S (S (calls w)))
                 \/ (f = Next /\ active_and_listening H name (calls w) = false))).
  { unfold active_and_listening.
    open_poll. cbn [seen calls log tick count port_open ssh_active].
    repeat split_probe.
    all: cbn [andb].
    all: eexists; eexists; (split; [reflexivity|]).
    all: cbn [clock calls log tick count]; split; [lia|]; split; [lia|].
    all: first [ left; split; [reflexivity|]; split; reflexivity
               | right; split; reflexivity ]. }
  destruct B as (f & w' & E & C & N & V). exists f, w'.
  split; [exact E|]. split; [exact C|]. split; [exact N|].
  destruct V as [(-> & A & D)|(-> & A)]; [left|right].
  - split; [reflexivity|]. split; [apply both_probes_spec; exact A|exact D].
  - split; [reflexivity|]. intros X. apply both_probes_spec in X. congruence.
Qed.

Variables start timeout : N.

Lemma ssh_loop_detail fuel : forall w,
  start <= clock w ->
  (N.to_nat ((start + secs timeout - clock w + 2999) / 3000) + 1 <= fuel)%nat ->
  exists r w', ssh_loop H fuel name start timeout w = (r, w')
    /\ clock w <= clock w'
    /\ ((r = Ok true
         /\ exists i, (calls w <= i)%nat /\ calls w' = S (S i)
                      /\ both_probes_succeed H name i)
        \/ ((r = Ok false \/ exists e, r = Err (Exception e))
            /\ start + secs timeout <= clock w')).
Proof.
  induction fuel as [|fuel IH]; intros w Hs Hf; [lia|].
  cbn [ssh_loop]. rewrite bind_unfold. unfold now at 1.
  destruct (N.ltb_spec (clock w - start) (secs timeout)) as [G|G].
  - rewrite bind_unfold.
    destruct (ssh_poll_detail w) as (f & w1 & -> & C & N & [(-> & B & D)|(-> & B)]).
    + exists (Ok true), w1. split; [reflexivity|]. split; [exact C|]. left.
      split; [reflexivity|]. exists (calls w). auto.
    + rewrite bind_unfold. unfold sleep at 1, act at 1.
      destruct (IH (log (Slept (secs 3)) (tick (secs 3) w1))) as (r & w' & E & C' & V).
      { cbn [clock log tick]. unfold secs. lia. }
      { cbn [clock log tick]. unfold secs in *. lia. }
      exists r, w'. split; [exact E|]. cbn [clock calls log tick] in *.
      split; [lia|].
      destruct V as [(-> & i & L & D & B')|V]; [left|right; exact V].
      split; [reflexivity|]. exists i. split; [lia|]. auto.
  - destruct (give_up_steps H name timeout w)
      as (r & w' & new & E & Q & _ & C & _ & _).
    exists r, w'. split; [exact E|]. split; [exact C|]. right.
    split; [|unfold secs in *; lia].
    destruct r as [[|]|[e|c]|]; cbn in Q; try discriminate; try destruct Q; eauto.
Qed.

(** The loop of the SSH wait, one round. *)
Lemma ssh_loop_round fuel w :
  clock w - start < secs timeout ->
  (both_probes_succeed H name (calls w) ->
   exists w1,
     ssh_loop H (S fuel) name start timeout w = (Ok true, w1)
     /\ calls w1 = S (S (calls w)))
  /\ (~ both_probes_succeed H name (calls w) ->
      exists w1,
        ssh_poll H name w = (Ok Next, w1)
        /\ ssh_loop H (S fuel) name start timeout w
           = ssh_loop H fuel name start timeout
               (log (Slept (secs 3)) (tick (secs 3) w1))).
Proof.
  intros G. apply N.ltb_lt in G.
  assert (R : forall f w1,
             ssh_poll H name w = (Ok f, w1) ->
             ssh_loop H (S fuel) name start timeout w =
             match f with
             | Return b => (Ok b, w1)
             | Continue => ssh_loop H fuel name start timeout w1
             | Next =>
                 ssh_loop H fuel name start timeout
                   (log (Slept (secs 3)) (tick (secs 3) w1))
             end).
  { intros f w1 E. cbn [ssh_loop]. rewrite bind_unfold. unfold now at 1.
    rewrite G. cbv beta iota. rewrite bind_unfold, E.
    destruct f; [reflexivity|reflexivity|]. rewrite bind_unfold. reflexivity. }
  destruct (ssh_poll_detail w) as (f & w1 & E & _ & _ & [(-> & B & D)|(-> & B)]).
  - split; [|intros N; destruct (N B)]. intros _. exists w1.
    rewrite (R _ _ E). auto.
  - split; [intros B'; destruct (B B')|]. intros _. exists w1.
    split; [exact E|]. exact (R _ _ E).
Qed.

Lemma ssh_loop_gives_up fuel w :
  secs timeout <= clock w - start ->
  ssh_loop H (S fuel) name start timeout w = ssh_give_up H name timeout w.
Proof.
  intros G. apply N.ltb_ge in G.
  cbn [ssh_loop]. rewrite bind_unfold. unfold now at 1. rewrite G. reflexivity.
Qed.

End Ssh.

Lemma ssh_wait_detail H name timeout w :
  exists r w',
    wait_for_ssh_service H name timeout w = (r, w')
    /\ ((r = Ok true
         /\ exists i, (calls w <= i)%nat /\ calls w' = S (S i)
                      /\ both_probes_succeed H name i)
        \/ ((r = Ok false \/ exists e, r = Err (Exception e))
            /\ secs timeout <= clock w' - clock w)).
Proof.
  unfold wait_for_ssh_service. rewrite bind_unfold. unfold say at 1, act at 1.
  rewrite bind_unfold. unfold now at 1. cbn [clock log].
  destruct (ssh_loop_detail H name (clock w) timeout (polls 3 timeout)
              (log (Said YELLOW WaitingForSsh) w)) as (r & w' & E & C & V).
  { cbn [clock log]. lia. }
  { unfold polls, secs. cbn [clock log]. lia. }
  exists r, w'. split; [exact E|]. cbn [clock calls log] in *.
  destruct V as [V|[V L]]; [left; exact V|right]. split; [exact V|lia].
Qed.

Section Container.

Variable H : host.
Variable name : string.

(** One poll of the container wait: it returns [True] right after the
    listing that shows the container [Up] or, for [test-vps], right
    after the systemd probe that follows it. *)
Lemma container_poll_detail w :
  exists f w',
    container_poll H name w = (Ok f, w')
    /\ clock w <= clock w' /\ (calls w <= calls w')%nat
    /\ (f = Return true ->
        listed_up H name (calls w)
        /\ if (name =? "test-vps")%string
           then calls w' = S (S (calls w)) /\ systemd_answers H name (S (calls w))
           else calls w' = S (calls w)).
Proof.
  unfold listed_up, systemd_answers.
  open_poll. unfold ps_command, systemd_command. cbn [has_output].
  repeat (split_case; cbn [calls log tick count stdout has_output] in * ).
  all: try match goal with X : systemd_ok None = true |- _ => discriminate X end.
  all: eexists; eexists; (split; [reflexivity|]).
  all: cbn [clock calls log tick count]; split; [lia|]; split; [lia|].
  all: intros V; try discriminate V.
  all: split; [eexists; split; [reflexivity|assumption]|].
  all: try reflexivity.
  all: split; [reflexivity|].
  all: eexists; split; [reflexivity|]; apply systemd_ok_spec; assumption.
Qed.

Lemma container_loop_detail start timeout fuel : forall w r w',
  container_loop H fuel name start timeout w = (r, w') ->
  r = Ok true ->
  exists i,
    (calls w <= i)%nat
    /\ listed_up H name i
    /\ if (name =? "test-vps")%string
       then calls w' = S (S i) /\ systemd_answers H name (S i)
       else calls w' = S i.
Proof.
  induction fuel as [|fuel IH]; intros w r w'; [intros [= <- _]; discriminate|].
  cbn [container_loop]. rewrite bind_unfold. unfold now at 1.
  destruct (clock w - start <? secs timeout).
  - rewrite bind_unfold.
    destruct (container_poll_detail w) as (f & w1 & -> & _ & C & V).
    destruct f as [b| |].
    + unfold ret. intros [= <- <-] [= ->]. exists (calls w).
      destruct (V eq_refl) as [U S]. auto.
    + intros R E. destruct (IH _ _ _ R E) as (i & L & U). exists i.
      split; [lia|exact U].
    + rewrite bind_unfold. unfold sleep at 1, act at 1.
      intros R E. destruct (IH _ _ _ R E) as (i & L & U). exists i.
      cbn [calls log tick] in L. split; [lia|exact U].
  - rewrite bind_unfold. unfold say at 1, act at 1, ret.
    intros [= <- _]; discriminate.
Qed.

End Container.

(** A wait that returns [True] does so right after a poll that saw the
    container up. *)
Lemma container_wait_detail H name timeout w w' :
  wait_for_container_healthy H name timeout w = (Ok true, w') ->
  exists i,
    (calls w <= i)%nat
    /\ listed_up H name i
    /\ if (name =? "test-vps")%string
       then calls w' = S (S i) /\ systemd_answers H name (S i)
       else calls w' = S i.
Proof.
  unfold wait_for_container_healthy. rewrite bind_unfold. unfold say at 1, act at 1.
  rewrite bind_unfold. unfold now at 1. intros R.
  exact (container_loop_detail H name _ _ _ _ _ _ R eq_refl).
Qed.

(** For [test-vps], a poll that lists the container [Up] goes on to the
    systemd probe, and the answer of the probe decides. *)
Lemma systemd_poll H w :
  listed_up H "test-vps" (calls w) ->
  exists f w',
    container_poll H "test-vps" w = (Ok f, w')
    /\ calls w' = S (S (calls w))
    /\ ((f = Return true /\ systemd_answers H "test-vps" (S (calls w)))
        \/ (f = Next /\ ~ systemd_answers H "test-vps" (S (calls w)))).
Proof.
  unfold listed_up, systemd_answers. intros (p & A & U).
  assert (T : Py.truthy (Py.strip (stdout p)) = true)
    by exact (PyFacts.startswith_nonempty _ _ _ U).
  open_poll. unfold ps_command, systemd_command.
  change ("docker ps --filter name=" ++ "test-vps" ++ " --format '{{.Status}}'")
    with "docker ps --filter name=test-vps --format '{{.Status}}'" in *.
  change ("docker exec " ++ "test-vps" ++ " systemctl is-system-running --wait")
    with "docker exec test-vps systemctl is-system-running --wait" in *.
  rewrite A. cbv beta iota. cbn [has_output stdout]. rewrite T. cbv beta iota.
  rewrite U. cbv beta iota.
  cbn [String.eqb Ascii.eqb Bool.eqb calls log tick count]. cbv beta iota.
  destruct (answer (proc H (S (calls w))
                      "docker exec test-vps systemctl is-system-running --wait") 10)
    as [q| |e]; cbv beta iota.
  - destruct (systemd_ok (Some q)) eqn:S; cbv beta iota.
    + eexists; eexists. split; [reflexivity|]. split; [reflexivity|]. left.
      split; [reflexivity|]. exists q. split; [reflexivity|].
      apply systemd_ok_spec. exact S.
    + eexists; eexists. split; [reflexivity|]. split; [reflexivity|]. right.
      split; [reflexivity|]. intros (q' & [= <-] & R).
      apply systemd_ok_spec in R. congruence.
  - eexists; eexists. split; [reflexivity|]. split; [reflexivity|]. right.
    split; [reflexivity|]. intros (q' & D & _). discriminate D.
  - eexists; eexists. split; [reflexivity|]. split; [reflexivity|]. right.
    split; [reflexivity|]. intros (q' & D & _). discriminate D.
Qed.

(** The SSH wait launches no systemd probe. *)
Lemma no_systemd_probe_in name new :
  Forall (launched_from (ssh_commands name)) new ->
  existsb (is_systemd_probe name) new = false.
Proof.
  induction 1 as [|e new L _ IH]; [reflexivity|].
  cbn [existsb]. rewrite IH, orb_false_r.
  destruct e as [c r|ms|c m|url]; try reflexivity.
  cbn [launched_from is_systemd_probe] in *.
  unfold ssh_commands, ssh_queries, ssh_start_command, ssh_active_command,
    port_command, ssh_status_command in L.
  repeat (destruct L as [<-|L];
          [rewrite !eqb_same_prefix; reflexivity|]).
  destruct L.
Qed.

(* ------------------------------------------------------------------ *)

(** C4: the SSH wait returns [True] only when, in one poll, the
    [systemctl is-active ssh] probe exits with code 0 and has "active"
    in its output and the search for a listener on port 22, launched
    next, exits with code 0.  A poll in which either fails ends without
    a verdict, the loop sleeps three seconds and tests the deadline
    again; once the deadline has passed the wait gives up.  The wait as
    a whole returns [True] right after such a pair of probes, or ends,
    with [False] or with what a final diagnostic raised, no earlier
    than the timeout. *)
Theorem ssh_ready_needs_both_probes H name :
  (forall w, exists f w',
     ssh_poll H name w = (Ok f, w')
     /\ ((f = Return true /\ both_probes_succeed H name (calls w)
          /\ calls w' = S (S (calls w)))
         \/ (f = Next /\ ~ both_probes_succeed H name (calls w))))
  /\ (forall fuel start timeout w,
        clock w - start < secs timeout ->
        (both_probes_succeed H name (calls w) ->
         exists w1,
           ssh_loop H (S fuel) name start timeout w = (Ok true, w1)
           /\ calls w1 = S (S (calls w)))
        /\ (~ both_probes_succeed H name (calls w) ->
            exists w1,
              ssh_poll H name w = (Ok Next, w1)
              /\ ssh_loop H (S fuel) name start timeout w
                 = ssh_loop H fuel name start timeout
                     (log (Slept (secs 3)) (tick (secs 3) w1))))
  /\ (forall fuel start timeout w,
        secs timeout <= clock w - start ->
        ssh_loop H (S fuel) name start timeout w = ssh_give_up H name timeout w)
  /\ (forall timeout w, exists r w',
        wait_for_ssh_service H name timeout w = (r, w')
        /\ ((r = Ok true
             /\ exists i, (calls w <= i)%nat /\ calls w' = S (S i)
                          /\ both_probes_succeed H name i)
            \/ ((r = Ok false \/ exists e, r = Err (Exception e))
                /\ secs timeout <= clock w' - clock w))).
Proof.
  split; [|split; [|split]].
  - intros w. destruct (ssh_poll_detail H name w) as (f & w' & E & _ & _ & V).
    exists f, w'. auto.
  - intros fuel start timeout w. apply ssh_loop_round.
  - intros fuel start timeout w. apply ssh_loop_gives_up.
  - intros timeout w. apply ssh_wait_detail.
Qed.

Lemma ssh_ready_needs_both_probes_witness :
  (exists w1, ssh_poll Scenario.listening "test-vps" boot = (Ok (Return true), w1))
  /\ (exists w1, ssh_poll Scenario.deaf "test-vps" boot = (Ok Next, w1)).
Proof.
  split.
  - destruct (proj1 (ssh_ready_needs_both_probes Scenario.listening "test-vps") boot)
      as (f & w' & E & [(-> & _)|(_ & N)]).
    + exists w'. exact E.
    + exfalso. apply N.
      exists {| returncode := 0; stdout := "active"; stderr := "" |},
        {| returncode := 0; stdout := "active"; stderr := "" |}.
      repeat split; reflexivity.
  - destruct (proj1 (ssh_ready_needs_both_probes Scenario.deaf "test-vps") boot)
      as (f & w' & E & [(_ & (p & q & _ & _ & _ & A & R) & _)|(-> & _)]).
    + exfalso. vm_compute in A. injection A as <-. discriminate R.
    + exists w'. exact E.
Defined.

(** C5 (amended): it is the container wait, for the container named
    [test-vps], that takes both exit code 0 and exit code 1 of
    [systemctl is-system-running --wait] for ready.  A poll that lists
    the container [Up] launches the probe next and returns [True] when
    the probe exits with 0 or 1 within its 10 seconds; on any other
    exit code, on a timeout and when the probe raises the poll ends
    without a verdict and the loop sleeps three seconds.  The wait
    returns [True] only right after such a listing and such a probe.
    The SSH wait never launches the probe, and returns [True] only
    after a [systemctl is-active ssh] probe that exits with code 0. *)
Theorem systemd_probe_is_the_container_waits H :
  (forall w,
     listed_up H "test-vps" (calls w) ->
     exists f w',
       container_poll H "test-vps" w = (Ok f, w')
       /\ calls w' = S (S (calls w))
       /\ ((f = Return true /\ systemd_answers H "test-vps" (S (calls w)))
           \/ (f = Next /\ ~ systemd_answers H "test-vps" (S (calls w)))))
  /\ (forall fuel start timeout w w1,
        clock w - start < secs timeout ->
        container_poll H "test-vps" w = (Ok Next, w1) ->
        container_loop H (S fuel) "test-vps" start timeout w
        = container_loop H fuel "test-vps" start timeout
            (log (Slept (secs 3)) (tick (secs 3) w1)))
  /\ (forall timeout w w',
        wait_for_container_healthy H "test-vps" timeout w = (Ok true, w') ->
        exists i,
          (calls w <= i)%nat /\ calls w' = S (S i)
          /\ listed_up H "test-vps" i /\ systemd_answers H "test-vps" (S i))
  /\ (forall name timeout w, exists r w' new,
        wait_for_ssh_service H name timeout w = (r, w')
        /\ trace w' = (new ++ trace w)%list
        /\ existsb (is_systemd_probe name) new = false
        /\ (r = Ok true ->
            exists i, (calls w <= i)%nat /\ calls w' = S (S i)
                      /\ both_probes_succeed H name i)).
Proof.
  split; [|split; [|split]].
  - intros w. apply systemd_poll.
  - intros fuel start timeout w w1 G E. apply N.ltb_lt in G.
    cbn [container_loop]. rewrite bind_unfold. unfold now at 1.
    rewrite G. cbv beta iota. rewrite bind_unfold, E, bind_unfold. reflexivity.
  - intros timeout w w' R.
    destruct (container_wait_detail H "test-vps" timeout w w' R) as (i & L & U & C & S).
    exists i. auto.
  - intros name timeout w.
    assert (S : steps H (ssh_commands name) anyhow
                  (wait_for_ssh_service H name timeout)).
    { unfold wait_for_ssh_service. walk. apply ssh_loop_steps. }
    destruct (S w) as (r & w' & new & E & _ & T & _ & _ & L).
    exists r, w', new. split; [exact E|]. split; [exact T|].
    split; [apply no_systemd_probe_in; exact L|].
    intros ->. destruct (ssh_wait_detail H name timeout w) as (r & w2 & E2 & V).
    rewrite E in E2. injection E2 as <- <-.
    destruct V as [[_ V]|[[V|(e & V)] _]]; [exact V|discriminate V|discriminate V].
Qed.

Lemma systemd_probe_is_the_container_waits_witness :
  (exists w1, container_poll Scenario.degraded "test-vps" boot = (Ok (Return true), w1))
  /\ (exists w1, container_poll Scenario.running "test-vps" boot = (Ok (Return true), w1))
  /\ (exists w1, container_poll Scenario.starting "test-vps" boot = (Ok Next, w1)).
Proof.
  split; [|split].
  - destruct (proj1 (systemd_probe_is_the_container_waits Scenario.degraded) boot)
      as (f & w' & E & _ & [(-> & _)|(_ & N)]).
    + exists {| returncode := 0; stdout := "Up 2 seconds"; stderr := "" |}.
      split; reflexivity.
    + exists w'. exact E.
    + exfalso. apply N.
      exists {| returncode := 1; stdout := "degraded"; stderr := "" |}.
      split; [reflexivity|right; reflexivity].
  - destruct (proj1 (systemd_probe_is_the_container_waits Scenario.running) boot)
      as (f & w' & E & _ & [(-> & _)|(_ & N)]).
    + exists {| returncode := 0; stdout := "Up 2 minutes"; stderr := "" |}.
      split; reflexivity.
    + exists w'. exact E.
    + exfalso. apply N.
      exists {| returncode := 0; stdout := "Up 2 minutes"; stderr := "" |}.
      split; [reflexivity|left; reflexivity].
  - destruct (proj1 (systemd_probe_is_the_container_waits Scenario.starting) boot)
      as (f & w' & E & _ & [(_ & (q & A & R))|(-> & _)]).
    + exists {| returncode := 0; stdout := "Up 2 seconds"; stderr := "" |}.
      split; reflexivity.
    + exfalso. vm_compute in A. injection A as <-. destruct R as [R|R]; discriminate R.
    + exists w'. exact E.
Defined.

End Readiness.

(* ================================================================== *)
(** ** The one command of the waits that is not a query *)

Module ReadOnly.

Import Eff EffFacts TestLocal.
Import ContainerWait Steps SshWait Readiness.

Open Scope N_scope.

(** The container wait does not start the SSH service. *)
Lemma no_start_in name new :
  Forall (launched_from (container_queries name)) new ->
  existsb (is_start name) new = false.
Proof.
  induction 1 as [|e new L _ IH]; [reflexivity|].
  cbn [existsb]. rewrite IH, orb_false_r.
  destruct e as [c r|ms|c m|url]; try reflexivity.
  cbn [launched_from is_start] in *.
  unfold container_queries, ps_command, ps_all_command, logs_command,
    systemd_command in L.
  repeat (destruct L as [<-|L];
          [first [reflexivity | rewrite !eqb_same_prefix; reflexivity]|]).
  destruct L.
Qed.

(** A poll of the SSH wait starts the service when its first probe
    comes back without reporting the service active, and then only. *)
Lemma ssh_poll_starts H name w :
  exists f w' new,
    ssh_poll H name w = (Ok f, w')
    /\ trace w' = (new ++ trace w)%list
    /\ existsb (is_start name) new =
       match
         answer (proc H (calls w) ("docker exec " ++ name ++ " systemctl is-active ssh")) 5
       with
       | Completed p => negb ((returncode p =? 0)%Z && Py.contains "active" (stdout p))
       | Expired => true
       | Raised _ => false
       end.
Proof.
  open_poll.
  unfold ssh_active_command, port_command, ssh_start_command, ssh_status_command.
  cbn [seen calls log tick count port_open ssh_active].
  repeat split_probe.
  all: try match goal with
           | X : (_ && _)%bool = _ |- _ => cbn [andb] in X; discriminate X
           end.
  all: eexists; eexists;
    lazymatch goal with
    | |- exists new, (_, ?w1) = _ /\ _ =>
        let l := eval cbn [trace log tick count] in (trace w1) in
        let n := prefix_of l (trace w) in
        exists n; split; [reflexivity|]; split; [reflexivity|]
    end.
  all: cbn [existsb is_start orb negb andb].
  all: rewrite ?eqb_same_prefix; reflexivity.
Qed.

(** C8 (amended): every command the container wait launches is one of
    its queries ([docker ps], [docker ps -a], [docker logs --tail] and
    [systemctl is-system-running --wait]), and it never launches
    [systemctl start ssh].  Every command the SSH wait launches is one
    of its queries or [systemctl start ssh], which asks systemd in the
    container to start the service; a poll launches it when the
    [systemctl is-active ssh] probe comes back, completed or cut off
    after its 5 seconds, without both exit code 0 and "active" in its
    output, and in no other poll: not when the probe reports the
    service active and not when the probe raises. *)
Theorem start_is_the_one_command_that_is_no_query H name timeout w :
  (exists r w' new,
     wait_for_container_healthy H name timeout w = (r, w')
     /\ trace w' = (new ++ trace w)%list
     /\ Forall (launched_from (container_queries name)) new
     /\ existsb (is_start name) new = false)
  /\ (exists r w' new,
        wait_for_ssh_service H name timeout w = (r, w')
        /\ trace w' = (new ++ trace w)%list
        /\ Forall (launched_from (ssh_start_command name :: ssh_queries name)) new)
  /\ (exists f w' new,
        ssh_poll H name w = (Ok f, w')
        /\ trace w' = (new ++ trace w)%list
        /\ existsb (is_start name) new =
           match
             answer (proc H (calls w)
                       ("docker exec " ++ name ++ " systemctl is-active ssh")) 5
           with
           | Completed p =>
               negb ((returncode p =? 0)%Z && Py.contains "active" (stdout p))
           | Expired => true
           | Raised _ => false
           end).
Proof.
  split; [|split].
  - assert (S : steps H (container_queries name) anyhow
                  (wait_for_container_healthy H name timeout)).
    { unfold wait_for_container_healthy. walk. apply container_loop_steps. }
    destruct (S w) as (r & w' & new & E & _ & T & _ & _ & L).
    exists r, w', new. split; [exact E|]. split; [exact T|].
    split; [exact L|]. apply no_start_in. exact L.
  - assert (S : steps H (ssh_commands name) anyhow
                  (wait_for_ssh_service H name timeout)).
    { unfold wait_for_ssh_service. walk. apply ssh_loop_steps. }
    destruct (S w) as (r & w' & new & E & _ & T & _ & _ & L). eauto 6.
  - apply ssh_poll_starts.
Qed.

Lemma start_is_the_one_command_that_is_no_query_witness :
  (exists f w' new,
     ssh_poll Scenario.inactive "test-vps" boot = (Ok f, w')
     /\ trace w' = (new ++ trace boot)%list
     /\ existsb (is_start "test-vps") new = true)
  /\ (exists f w' new,
        ssh_poll Scenario.listening "test-vps" boot = (Ok f, w')
        /\ trace w' = (new ++ trace boot)%list
        /\ existsb (is_start "test-vps") new = false)
  /\ (exists f w' new,
        ssh_poll Scenario.unprobed "test-vps" boot = (Ok f, w')
        /\ trace w' = (new ++ trace boot)%list
        /\ existsb (is_start "test-vps") new = false).
Proof.
  split; [|split].
  - exact (proj2 (proj2 (start_is_the_one_command_that_is_no_query
                           Scenario.inactive "test-vps" 5 boot))).
  - exact (proj2 (proj2 (start_is_the_one_command_that_is_no_query
                           Scenario.listening "test-vps" 5 boot))).
  - exact (proj2 (proj2 (start_is_the_one_command_that_is_no_query
                           Scenario.unprobed "test-vps" 5 boot))).
Defined.

End ReadOnly.

(* ================================================================== *)
(** ** More on scripts/test_local.py *)

Module LocalFacts.

Import Eff EffFacts TestLocal.
Import ContainerWait Steps.

Open Scope N_scope.

(** [run_command] launches one process, comes back within [timeout]
    seconds, and hands back [None] exactly when the process was cut off
    or, with [check=True], exited with a code other than 0; whatever
    else [subprocess.run] raises goes on to the caller. *)
Theorem run_command_contract H command cwd check timeout verbose w :
  exists w',
    run_command H command cwd check timeout verbose w =
      (match answer (proc H (calls w) command) timeout with
       | Expired => Ok None
       | Raised e => Err (Exception e)
       | Completed p =>
           Ok (if check && negb (returncode p =? 0)%Z then None else Some p)
       end, w')
    /\ calls w' = S (calls w)
    /\ clock w <= clock w' <= clock w + secs timeout.
Proof.
  pose proof (lasted_le_timeout (proc H (calls w) command) timeout) as L.
  open_poll.
  repeat (split_case; cbn [calls log tick count] in * ).
  all: try congruence.
  all: eexists; (split; [reflexivity|]).
  all: cbn [clock calls log tick count]; split; [reflexivity|lia].
Qed.

(** [test_http_endpoint] makes one request and never raises; it
    answers [True] only for a response with status 200; an empty
    expected text is no expectation; and without an expected text the
    status alone decides. *)
Theorem test_http_endpoint_contract H url expected_text timeout w :
  (exists b,
     test_http_endpoint H url expected_text timeout w = (Ok b, log (Fetched url) w)
     /\ (b = true -> exists text, http H url = Response 200 text))
  /\ test_http_endpoint H url (Some "") timeout w
     = test_http_endpoint H url None timeout w
  /\ test_http_endpoint H url None timeout w
     = (Ok match http H url with
           | Response status_code _ => (status_code =? 200)%Z
           | HttpError => false
           end,
        log (Fetched url) w).
Proof.
  unfold test_http_endpoint. rewrite !bind_unfold. unfold act, ret.
  split; [|split].
  - eexists. split; [reflexivity|].
    destruct (http H url) as [status text|]; [|discriminate].
    destruct (Z.eqb_spec status 200) as [->|]; [eauto|discriminate].
  - destruct (http H url) as [status text|]; [|reflexivity].
    destruct (status =? 200)%Z; reflexivity.
  - destruct (http H url) as [status text|]; [|reflexivity].
    destruct (status =? 200)%Z; reflexivity.
Qed.

(** With a timeout of 0 the container wait probes nothing: it prints
    its banner and the timeout line and returns [False]. *)
Theorem zero_timeout_probes_nothing H name w :
  wait_for_container_healthy H name 0 w =
  (Ok false,
   log (Said RED (NotReadyWithin name 0)) (log (Said YELLOW (WaitingFor name)) w)).
Proof.
  unfold wait_for_container_healthy. rewrite bind_unfold. unfold say at 1, act at 1.
  rewrite bind_unfold. unfold now at 1. cbn [clock log].
  change (polls 2 0) with 2%nat. cbn [container_loop].
  rewrite bind_unfold. unfold now at 1. cbn [clock log].
  rewrite N.sub_diag. reflexivity.
Qed.

(** A poll that finds the container up, when no systemd probe is due,
    returns [True] after the one listing. *)
Lemma poll_of_a_running_container H name w p :
  answer (proc H (calls w) (ps_command name)) 300 = Completed p ->
  Py.startswith "Up" (Py.strip (stdout p)) = true ->
  (name =? "test-vps")%string = false ->
  container_poll H name w =
  (Ok (Return true),
   log (Said GREEN (IsRunning name))
     (log (Ran (ps_command name) (Completed p))
        (tick (lasted (proc H (calls w) (ps_command name)) 300) (count w)))).
Proof.
  intros A U T.
  assert (O : has_output (Some p) = true).
  { cbn. exact (PyFacts.startswith_nonempty _ _ _ U). }
  open_poll. rewrite A. cbv beta iota. rewrite O. cbv beta iota.
  cbn [stdout]. rewrite U. cbv beta iota. rewrite T. reflexivity.
Qed.

(** A container that is up at the first listing ends the wait at once:
    one launch, no sleep, [True]. *)
Theorem ready_at_first_poll H name timeout w p :
  answer (proc H (calls w) (ps_command name)) 300 = Completed p ->
  Py.startswith "Up" (Py.strip (stdout p)) = true ->
  (name =? "test-vps")%string = false ->
  0 < timeout ->
  wait_for_container_healthy H name timeout w =
  (Ok true,
   log (Said GREEN (IsRunning name))
     (log (Ran (ps_command name) (Completed p))
        (tick (lasted (proc H (calls w) (ps_command name)) 300)
           (count (log (Said YELLOW (WaitingFor name)) w))))).
Proof.
  intros A U T P.
  unfold wait_for_container_healthy. rewrite bind_unfold. unfold say at 1, act at 1.
  rewrite bind_unfold. unfold now at 1. cbn [clock log].
  replace (polls 2 timeout) with (S (S (N.to_nat (secs timeout / secs 2))))
    by (unfold polls; lia).
  cbn [container_loop]. rewrite bind_unfold. unfold now at 1. cbn [clock log].
  rewrite N.sub_diag.
  destruct (N.ltb_spec 0 (secs timeout)) as [_|G]; [|unfold secs in G; lia].
  rewrite bind_unfold.
  rewrite (poll_of_a_running_container H name _ p); auto.
Qed.

Lemma ready_at_first_poll_witness :
  wait_for_container_healthy Scenario.running "web" 5 boot =
  (Ok true,
   log (Said GREEN (IsRunning "web"))
     (log (Ran (ps_command "web")
             (Completed {| returncode := 0; stdout := "Up 2 minutes"; stderr := "" |}))
        (tick (lasted (proc Scenario.running (calls boot) (ps_command "web")) 300)
           (count (log (Said YELLOW (WaitingFor "web")) boot))))).
Proof.
  apply (ready_at_first_poll Scenario.running "web" 5 boot
           {| returncode := 0; stdout := "Up 2 minutes"; stderr := "" |}).
  - vm_compute. reflexivity.
  - vm_compute. reflexivity.
  - vm_compute. reflexivity.
  - lia.
Defined.

Section Container.

Variable H : host.
Variable name : string.

(** Every poll lists the container once, and a poll that goes straight
    to the next one takes two seconds at least. *)
Lemma poll_lists_once w :
  exists f w',
    container_poll H name w = (Ok f, w')
    /\ exists new,
         trace w' = (new ++ trace w)%list
         /\ length (filter is_listing new) = 1%nat
         /\ clock w <= clock w'
         /\ (f = Continue -> clock w + 2000 <= clock w').
Proof.
  open_poll.
  repeat split_case.
  all: eexists; eexists; (split; [reflexivity|]); give_new.
  all: cbn [clock log tick count].
  all: split; [reflexivity|]; split; [lia|].
  all: intros V; try discriminate V; unfold secs; lia.
Qed.

Lemma loop_budget start timeout fuel : forall w r w',
  start <= clock w ->
  container_loop H fuel name start timeout w = (r, w') ->
  exists new,
    trace w' = (new ++ trace w)%list
    /\ (length (filter is_listing new)
        <= N.to_nat ((start + secs timeout - clock w + 1999) / 2000))%nat.
Proof.
  induction fuel as [|fuel IH]; intros w r w' S.
  - intros [= _ <-]. exists []. split; [reflexivity|]. cbn. lia.
  - cbn [container_loop]. rewrite bind_unfold. unfold now at 1.
    destruct (N.ltb_spec (clock w - start) (secs timeout)) as [G|G].
    + rewrite bind_unfold.
      destruct (poll_lists_once w) as (f & w1 & -> & new1 & T1 & L1 & C1 & D1).
      destruct f as [b| |].
      * unfold ret. intros [= _ <-]. exists new1. split; [exact T1|].
        rewrite L1. unfold secs in *. lia.
      * intros R. destruct (IH w1 _ _ ltac:(lia) R) as (new & T & L).
        exists (new ++ new1)%list. split; [rewrite T, T1, app_assoc; reflexivity|].
        rewrite filter_app, length_app, L1.
        specialize (D1 eq_refl). unfold secs in *. lia.
      * rewrite bind_unfold. unfold sleep at 1, act at 1.
        intros R.
        destruct (IH (log (Slept (secs 3)) (tick (secs 3) w1)) _ _
                    ltac:(cbn [clock log tick]; lia) R) as (new & T & L).
        exists (new ++ [Slept (secs 3)] ++ new1)%list.
        split; [rewrite T; cbn [trace log tick app]; rewrite T1, <- app_assoc;
                reflexivity|].
        rewrite !filter_app, !length_app, L1. cbn [filter is_listing length].
        cbn [clock log tick] in L. unfold secs in *. lia.
    + rewrite bind_unfold. unfold say at 1, act at 1, ret.
      intros [= _ <-]. eexists [_]. split; [reflexivity|]. cbn. lia.
Qed.

(** Without the systemd probe, the poll launches docker commands
    only. *)
Lemma docker_poll_steps :
  (name =? "test-vps")%string = false ->
  steps H (docker_queries name) plain (container_poll H name).
Proof.
  intros T. unfold container_poll, container_up, docker_queries. rewrite T. walk.
Qed.

Lemma docker_loop_steps start timeout fuel :
  (name =? "test-vps")%string = false ->
  steps H (docker_queries name) anyhow (container_loop H fuel name start timeout).
Proof.
  intros T. induction fuel as [|fuel IH]; [apply out_of_fuel_steps|].
  cbn [container_loop]. pose proof (docker_poll_steps T). walk.
Qed.

End Container.

(** When the container wait returns [True], the last command it
    launched, or for the container named [test-vps] the one before the
    last, was a listing of the container that completed with a status
    starting with [Up]; and for [test-vps] the last command was the
    systemd probe, which completed with exit code 0 or 1. *)
Theorem success_means_up H name timeout w w' :
  wait_for_container_healthy H name timeout w = (Ok true, w') ->
  exists i,
    (calls w <= i)%nat
    /\ listed_up H name i
    /\ if (name =? "test-vps")%string
       then calls w' = S (S i) /\ systemd_answers H name (S i)
       else calls w' = S i.
Proof.
  apply Readiness.container_wait_detail.
Qed.

Lemma success_means_up_witness :
  exists i,
    (calls boot <= i)%nat
    /\ listed_up Scenario.degraded "test-vps" i
    /\ calls (snd (wait_for_container_healthy Scenario.degraded "test-vps" 5 boot))
       = S (S i)
    /\ systemd_answers Scenario.degraded "test-vps" (S i).
Proof.
  destruct (success_means_up Scenario.degraded "test-vps" 5 boot
              (snd (wait_for_container_healthy Scenario.degraded "test-vps" 5 boot)))
    as (i & L & U & C & S).
  - vm_compute. reflexivity.
  - exists i. auto.
Defined.

(** The container wait lists the container at most once per two
    seconds of its timeout, rounded up. *)
Theorem listings_are_bounded H name timeout w r w' new :
  wait_for_container_healthy H name timeout w = (r, w') ->
  trace w' = (new ++ trace w)%list ->
  (length (filter is_listing new) <= N.to_nat ((secs timeout + 1999) / 2000))%nat.
Proof.
  unfold wait_for_container_healthy. rewrite bind_unfold. unfold say at 1, act at 1.
  rewrite bind_unfold. unfold now at 1. cbn [clock log]. intros R T.
  assert (S : clock w <= clock (log (Said YELLOW (WaitingFor name)) w))
    by (cbn [clock log]; lia).
  destruct (loop_budget H name _ _ _ _ _ _ S R) as (new0 & T0 & L).
  cbn [trace log clock] in T0, L.
  rewrite T0 in T. change (Said YELLOW (WaitingFor name) :: trace w)
    with ([Said YELLOW (WaitingFor name)] ++ trace w)%list in T.
  rewrite app_assoc in T. apply app_inv_tail in T. subst new.
  rewrite filter_app, length_app. cbn [filter is_listing length].
  replace (clock w + secs timeout - clock w) with (secs timeout) in L by lia.
  lia.
Qed.

Lemma listings_are_bounded_witness :
  (length
     (filter is_listing
        (trace (snd (wait_for_container_healthy Scenario.absent "test-vps" 5 boot))))
   <= N.to_nat ((secs 5 + 1999) / 2000))%nat.
Proof.
  apply (listings_are_bounded Scenario.absent "test-vps" 5 boot
           (fst (wait_for_container_healthy Scenario.absent "test-vps" 5 boot))
           (snd (wait_for_container_healthy Scenario.absent "test-vps" 5 boot))).
  - vm_compute. reflexivity.
  - vm_compute. reflexivity.
Defined.

(** The systemd probe is for the container named [test-vps] only: for
    any other name the container wait launches [docker ps],
    [docker ps -a] and [docker logs] and nothing else. *)
Theorem systemd_probe_is_for_test_vps_only H name timeout w :
  (name =? "test-vps")%string = false ->
  exists r w' new,
    wait_for_container_healthy H name timeout w = (r, w')
    /\ trace w' = (new ++ trace w)%list
    /\ Forall (launched_from (docker_queries name)) new.
Proof.
  intros T.
  assert (S : steps H (docker_queries name) anyhow
                (wait_for_container_healthy H name timeout)).
  { unfold wait_for_container_healthy. walk. apply docker_loop_steps. exact T. }
  destruct (S w) as (r & w' & new & E & _ & Tr & _ & _ & L). eauto 6.
Qed.

Lemma systemd_probe_is_for_test_vps_only_witness :
  exists r w' new,
    wait_for_container_healthy Scenario.running "web" 5 boot = (r, w')
    /\ trace w' = (new ++ trace boot)%list
    /\ Forall (launched_from (docker_queries "web")) new.
Proof.
  apply (systemd_probe_is_for_test_vps_only Scenario.running "web" 5 boot).
  vm_compute. reflexivity.
Defined.

(** A launch raises only when the process does. *)
Lemma raised_means_crashed r timeout e :
  answer r timeout = Raised e -> does r = Crashes e.
Proof.
  unfold answer. destruct (secs timeout <? took r); [discriminate|].
  destruct (does r); [discriminate|]. intros [= ->]. reflexivity.
Qed.

(** Once the key pair is there, [setup_ssh_access] does not raise: what
    goes wrong inside its [try] makes it return [False]; and an
    unreadable public key is such a thing. *)
Theorem setup_ssh_access_returns H w :
  path_exists H (home H ++ "/.ssh/id_rsa") = true ->
  (exists b w', setup_ssh_access H w = (Ok b, w'))
  /\ (read_text H ((home H ++ "/.ssh/id_rsa") ++ ".pub") = None ->
      exists w', setup_ssh_access H w = (Ok false, w')).
Proof.
  intros K. unfold setup_ssh_access, read_file. cbv zeta. rewrite K.
  open_poll. split; [|intros R; rewrite R].
  all: repeat split_case; eauto.
Qed.

Lemma setup_ssh_access_returns_witness :
  (exists b w', setup_ssh_access Scenario.refusing boot = (Ok b, w'))
  /\ (read_text Scenario.refusing ((home Scenario.refusing ++ "/.ssh/id_rsa") ++ ".pub")
      = None ->
      exists w', setup_ssh_access Scenario.refusing boot = (Ok false, w')).
Proof.
  apply (setup_ssh_access_returns Scenario.refusing boot).
  reflexivity.
Defined.

(** [setup_ssh_access] does not look at what its [docker exec] commands
    return: with the key pair there and readable it reports success
    as long as no command raises, be it that every command exits with
    an error or is cut off. *)
Theorem setup_ssh_access_ignores_exit_codes H w pub :
  path_exists H (home H ++ "/.ssh/id_rsa") = true ->
  read_text H ((home H ++ "/.ssh/id_rsa") ++ ".pub") = Some pub ->
  (forall i c e, does (proc H i c) <> Crashes e) ->
  exists w', setup_ssh_access H w = (Ok true, w') /\ calls w' = (4 + calls w)%nat.
Proof.
  intros K R C. unfold setup_ssh_access, read_file. cbv zeta. rewrite K, R.
  open_poll.
  repeat (split_case; cbn [calls log tick count] in * ).
  all: try match goal with
           | A : answer _ _ = Raised _ |- _ =>
               apply raised_means_crashed in A; destruct (C _ _ _ A)
           end.
  all: eexists; split; [reflexivity|reflexivity].
Qed.

Lemma setup_ssh_access_ignores_exit_codes_witness :
  exists w',
    setup_ssh_access Scenario.refusing boot = (Ok true, w')
    /\ calls w' = (4 + calls boot)%nat.
Proof.
  apply (setup_ssh_access_ignores_exit_codes Scenario.refusing boot "ssh-rsa AAAA").
  - reflexivity.
  - reflexivity.
  - intros i c e. discriminate.
Defined.

(** When [docker info] does not come back with exit code 0, [main]
    exits with status 1 and has launched nothing else. *)
Theorem docker_must_answer H w :
  match answer (proc H (calls w) "docker info") 10 with
  | Completed p => returncode p <> 0%Z
  | _ => True
  end ->
  exists w',
    main H w = (Err (SystemExit 1), w') /\ calls w' = S (calls w).
Proof.
  intros D. unfold main, deploy. open_poll. cbn [calls log] in *.
  destruct (answer (proc H (calls w) "docker info") 10) as [p| |e];
    cbv beta iota.
  - destruct (Z.eqb_spec (returncode p) 0) as [Z|_]; [destruct (D Z)|].
    cbv beta iota. eexists. split; reflexivity.
  - eexists. split; reflexivity.
  - eexists. split; reflexivity.
Qed.

Lemma docker_must_answer_witness :
  exists w',
    main Scenario.refusing boot = (Err (SystemExit 1), w')
    /\ calls w' = S (calls boot).
Proof.
  apply (docker_must_answer Scenario.refusing boot).
  vm_compute. discriminate.
Defined.

End LocalFacts.

(* ================================================================== *)
(** ** More on scripts/utilities/health_check.py *)

Module HealthMore.

Import Eff EffFacts Pathlib HealthCheck HealthFacts.

Section Host.

Variable H : host.

(** Without its inventory file a check fails at once and launches
    nothing. *)
Lemma with_inventory_missing heading environment dir k w :
  path_exists H (joinpath dir ("inventories/" ++ environment ++ ".yml")) = false ->
  with_inventory H heading environment dir k w =
  (Ok false,
   log (Said RED (InventoryNotFound
                    (joinpath dir ("inventories/" ++ environment ++ ".yml"))))
     (log (Stat (joinpath dir ("inventories/" ++ environment ++ ".yml")))
        (log (Said BLUE (Heading heading)) w))).
Proof.
  intros E. unfold with_inventory. rewrite bind_said, bind_unfold.
  unfold exists_ at 1. rewrite E. reflexivity.
Qed.

Lemma with_inventory_present heading environment dir k w :
  path_exists H (joinpath dir ("inventories/" ++ environment ++ ".yml")) = true ->
  with_inventory H heading environment dir k w =
  k (joinpath dir ("inventories/" ++ environment ++ ".yml"))
    (log (Stat (joinpath dir ("inventories/" ++ environment ++ ".yml")))
       (log (Said BLUE (Heading heading)) w)).
Proof.
  intros E. unfold with_inventory. rewrite bind_said, bind_unfold.
  unfold exists_ at 1. rewrite E. reflexivity.
Qed.

(** A command that exits is answered with whether its exit code is 0,
    after one launch. *)
Lemma run_ansible_command_exit command inventory_file cwd w rc :
  ansible H (calls w) (full_command command inventory_file) cwd = Exit rc ->
  exists w',
    run_ansible_command H command inventory_file cwd w = (Ok (rc =? 0)%Z, w')
    /\ calls w' = S (calls w).
Proof.
  intros A. unfold run_ansible_command. cbv zeta. rewrite bind_unfold.
  unfold launch at 1. unfold full_command in A. rewrite A.
  destruct (rc =? 0)%Z.
  - unfold ret. eauto.
  - rewrite bind_said. unfold ret. eauto.
Qed.

(** The loop over the commands of a check goes to the end of the list
    whatever fails on the way. *)
Lemma run_each_to_the_end inventory_file dir :
  launches_exit H ->
  forall commands success w, exists b w',
    run_each H commands inventory_file dir success w = (Ok b, w')
    /\ calls w' = (calls w + length commands)%nat
    /\ (b = true <->
        success = true
        /\ forall k d c, nth_error commands k = Some (d, c) ->
             ansible H (calls w + k) (full_command c inventory_file) (Some dir)
             = Exit 0).
Proof.
  intros L. induction commands as [|[description command] commands IH];
    intros success w.
  - exists success, w. cbn. split; [reflexivity|]. split; [lia|].
    split; [intros ->; split; [reflexivity|]; intros [|k] d c; discriminate|tauto].
  - cbn [run_each]. rewrite bind_said, bind_unfold.
    destruct (ansible H (calls w) (full_command command inventory_file) (Some dir))
      as [rc|e] eqn:A; [|destruct (L _ _ _ _ A)].
    destruct (run_ansible_command_exit command inventory_file (Some dir)
                (log (Said YELLOW (Checking description)) w) rc A)
      as (w1 & -> & C1).
    destruct (IH (if (rc =? 0)%Z then success else false) w1) as (b & w' & -> & C & B).
    exists b, w'. split; [reflexivity|]. cbn [calls log length] in *.
    split; [lia|]. rewrite B. rewrite C1. split.
    + intros [Hs K]. destruct (Z.eqb_spec rc 0) as [->|]; [|discriminate].
      split; [exact Hs|]. intros [|k] d c N.
      * cbn in N. injection N as <- <-. rewrite Nat.add_0_r. exact A.
      * replace (calls w + S k)%nat with (S (calls w) + k)%nat by lia.
        apply (K k d c). exact N.
    + intros [Hs K]. pose proof (K 0%nat description command eq_refl) as K0.
      rewrite Nat.add_0_r, A in K0. injection K0 as ->. cbn [Z.eqb].
      split; [exact Hs|]. intros k d c N.
      replace (S (calls w) + k)%nat with (calls w + S k)%nat by lia.
      apply (K (S k) d c). exact N.
Qed.

End Host.

(** When [inventory_file.exists()] answers [False], each of the five
    checks returns [False] and launches nothing. *)
Theorem no_launch_without_inventory H environment dir w :
  path_exists H (joinpath dir ("inventories/" ++ environment ++ ".yml")) = false ->
  Forall
    (fun check : string -> path -> M bool =>
       exists w',
         check environment dir w = (Ok false, w') /\ calls w' = calls w)
    [ check_connectivity H; check_system_resources H; check_services H;
      check_docker_containers H; check_monitoring_endpoints H ].
Proof.
  intros E.
  repeat (apply Forall_cons;
          [eexists; split; [apply with_inventory_missing; exact E|reflexivity]|]).
  apply Forall_nil.
Qed.

Lemma no_launch_without_inventory_witness :
  Forall
    (fun check : string -> path -> M bool =>
       exists w',
         check "dev" ["/"; "repo"; "ansible"] boot = (Ok false, w')
         /\ calls w' = calls boot)
    [ check_connectivity Scenario.bare; check_system_resources Scenario.bare;
      check_services Scenario.bare; check_docker_containers Scenario.bare;
      check_monitoring_endpoints Scenario.bare ].
Proof.
  apply (no_launch_without_inventory Scenario.bare "dev" ["/"; "repo"; "ansible"] boot).
  reflexivity.
Defined.

(** The checks that run a list of commands run all of them, whatever
    fails on the way, and report [True] exactly when every command
    exited with code 0. *)
Theorem commands_are_run_to_the_end H environment dir w :
  path_exists H (joinpath dir ("inventories/" ++ environment ++ ".yml")) = true ->
  launches_exit H ->
  Forall
    (fun '(check, commands) =>
       exists b w',
         (check : string -> path -> M bool) environment dir w = (Ok b, w')
         /\ calls w' = (calls w + length commands)%nat
         /\ (b = true <->
             forall k d c, nth_error commands k = Some (d, c) ->
               ansible H (calls w + k)
                 (full_command c
                    (joinpath dir ("inventories/" ++ environment ++ ".yml")))
                 (Some dir)
               = Exit 0))
    [ (check_system_resources H, resource_commands);
      (check_services H, service_commands);
      (check_docker_containers H, container_commands) ].
Proof.
  intros E L.
  repeat (apply Forall_cons;
    [lazymatch goal with
     | |- exists b w', ?check environment dir w = _ /\ _ =>
         unfold check_system_resources, check_services, check_docker_containers;
         rewrite (with_inventory_present H _ environment dir _ w E);
         lazymatch goal with
         | |- exists b w', run_each H ?l ?inv dir true ?w0 = _ /\ _ =>
             destruct (run_each_to_the_end H inv dir L l true w0)
               as (b & w' & R & C & B);
             exists b, w'; split; [exact R|]; split; [exact C|];
             rewrite B; cbn [calls log]; tauto
         end
     end|]).
  apply Forall_nil.
Qed.

Lemma commands_are_run_to_the_end_witness :
  Forall
    (fun '(check, commands) =>
       exists b w',
         (check : string -> path -> M bool) "dev" ["/"; "repo"; "ansible"] boot
         = (Ok b, w')
         /\ calls w' = (calls boot + length commands)%nat
         /\ (b = true <->
             forall k d c, nth_error commands k = Some (d, c) ->
               ansible Scenario.endpoints_down (calls boot + k)
                 (full_command c
                    (joinpath ["/"; "repo"; "ansible"] ("inventories/" ++ "dev" ++ ".yml")))
                 (Some ["/"; "repo"; "ansible"])
               = Exit 0))
    [ (check_system_resources Scenario.endpoints_down, resource_commands);
      (check_services Scenario.endpoints_down, service_commands);
      (check_docker_containers Scenario.endpoints_down, container_commands) ].
Proof.
  apply (commands_are_run_to_the_end Scenario.endpoints_down "dev"
           ["/"; "repo"; "ansible"] boot).
  - reflexivity.
  - intros i c cwd e. cbn [Scenario.endpoints_down ansible].
    destruct (Py.contains _ _); discriminate.
Defined.

Section Tame.

Variable H : host.

Lemma tame_ret {A} (a : A) : tame (ret a).
Proof. intros w. exists (Ok a), w. eauto. Qed.

Lemma tame_bind {A B} (m : M A) (k : A -> M B) :
  tame m -> (forall a, tame (k a)) -> tame (bind m k).
Proof.
  intros Tm Tk w. rewrite bind_unfold.
  destruct (Tm w) as (r & w1 & -> & [[a ->]|[e ->]]).
  - apply Tk.
  - exists (Err (Exception e)), w1. eauto.
Qed.

Lemma tame_say c m : tame (say c m).
Proof. intros w. exists (Ok tt), (log (Said c m) w). eauto. Qed.

Lemma tame_exists p : tame (exists_ H p).
Proof. intros w. exists (Ok (path_exists H p)), (log (Stat p) w). eauto. Qed.

Lemma tame_run_ansible_command command inventory_file cwd :
  tame (run_ansible_command H command inventory_file cwd).
Proof.
  intros w. unfold run_ansible_command. cbv zeta. rewrite bind_unfold.
  unfold launch at 1.
  destruct (ansible H (calls w) _ cwd) as [rc|e].
  - destruct (rc =? 0)%Z.
    + unfold ret. eexists; eexists. split; [reflexivity|]. eauto.
    + rewrite bind_said. unfold ret. eexists; eexists. split; [reflexivity|]. eauto.
  - unfold raise. eexists; eexists. split; [reflexivity|]. eauto.
Qed.

Lemma tame_run_each inventory_file dir commands :
  forall success, tame (run_each H commands inventory_file dir success).
Proof.
  induction commands as [|[d c] commands IH]; intros success; cbn [run_each].
  - apply tame_ret.
  - apply tame_bind; [apply tame_say|intros _].
    apply tame_bind; [apply tame_run_ansible_command|intros ok]. apply IH.
Qed.

Lemma tame_probe_each inventory_file dir endpoints :
  forall success, tame (probe_each H endpoints inventory_file dir success).
Proof.
  induction endpoints as [|[d c] endpoints IH]; intros success; cbn [probe_each].
  - apply tame_ret.
  - apply tame_bind; [apply tame_say|intros _].
    apply tame_bind; [apply tame_run_ansible_command|intros ok].
    apply tame_bind; [|intros _; apply IH].
    destruct ok; cbn [negb]; [apply tame_ret|apply tame_say].
Qed.

Lemma tame_with_inventory heading environment dir k :
  (forall inventory_file, tame (k inventory_file)) ->
  tame (with_inventory H heading environment dir k).
Proof.
  intros Tk. unfold with_inventory. cbv zeta.
  apply tame_bind; [apply tame_say|intros _].
  apply tame_bind; [apply tame_exists|intros present].
  destruct present; cbn [negb]; [apply Tk|].
  apply tame_bind; [apply tame_say|intros _; apply tame_ret].
Qed.

Lemma tame_checks check_name check_function environment dir :
  In (check_name, check_function) (the_checks H) ->
  tame (check_function environment dir).
Proof.
  intros I. repeat (destruct I as [[= <- <-]|I]); [..|destruct I].
  all: apply tame_with_inventory; intros inventory_file.
  all: first [ apply tame_run_ansible_command
             | apply tame_run_each
             | apply tame_probe_each ].
Qed.

(** A check that raises is put on the list: [run_checks] returns. *)
Lemma run_checks_returns environment dir l :
  (forall n c, In (n, c) l -> In (n, c) (the_checks H)) ->
  forall failed w, exists failed' w',
    run_checks l environment dir failed w = (Ok failed', w').
Proof.
  induction l as [|[check_name check_function] l IH]; intros Sub failed w.
  - cbn. unfold ret. eauto.
  - rewrite run_checks_cons, bind_unfold, try_except_unfold.
    rewrite bind_said, bind_unfold.
    destruct (tame_checks check_name check_function environment dir
                (Sub _ _ (or_introl eq_refl))
                (log (Said BLUE (RunningCheck check_name)) w))
      as (r & w1 & -> & [[ok ->]|[e ->]]).
    + unfold ret at 1. apply IH. intros n c I. apply Sub. right. exact I.
    + rewrite bind_said. unfold ret at 1. apply IH.
      intros n c I. apply Sub. right. exact I.
Qed.

End Tame.

(** Once the arguments are parsed, and as long as the calls of
    [exists()] answer, no exception leaves [main]: it ends in
    [sys.exit(0)] or in [sys.exit(1)], a check that raises counting as
    failed; and when [ansible_dir.exists()] answers [False] it exits
    with 1 before any launch. *)
Theorem main_exits_with_0_or_1 H a w :
  exists code w',
    main H a w = (Err (SystemExit code), w')
    /\ (code = 0 \/ code = 1)%Z
    /\ (path_exists H (joinpath (project_root H) "ansible") = false ->
        code = 1%Z /\ calls w' = calls w).
Proof.
  unfold main. cbv zeta. rewrite bind_said, bind_unfold. unfold exists_ at 1.
  destruct (path_exists H (joinpath (project_root H) "ansible")); cbn [negb].
  - rewrite bind_unfold.
    match goal with
    | |- context [run_checks ?l ?e ?d ?f ?x] =>
        destruct (run_checks_returns H e d l) with (failed := f) (w := x)
          as (failed & w1 & ->)
    end.
    { intros n c I. unfold the_checks.
      apply in_app_or in I. destruct I as [I|I].
      - repeat (destruct I as [I|I]; [rewrite <- I; cbn; tauto|]). destruct I.
      - destruct (skip_endpoints a); [destruct I|].
        destruct I as [<-|[]]. cbn. tauto. }
    rewrite bind_said. destruct failed as [|c l].
    + rewrite bind_said. exists 0%Z. eexists. split; [reflexivity|].
      split; [auto|discriminate].
    + rewrite bind_said, bind_unfold.
      destruct (say_each_returns (c :: l)
                  (log (Said RED (FailedCount (length (c :: l))))
                     (log (Said BLUE Summary) w1))) as (w2 & ->).
      rewrite !bind_said. exists 1%Z. eexists. split; [reflexivity|].
      split; [auto|discriminate].
  - rewrite bind_said. exists 1%Z. eexists. split; [reflexivity|].
    split; [auto|]. intros _. split; reflexivity.
Qed.

Section Green.

Variable H : host.
Hypothesis green : forall i c d, ansible H i c d = Exit 0.
Hypothesis present : forall p, path_exists H p = true.

Lemma green_launches_exit : launches_exit H.
Proof. intros i c d e. rewrite green. discriminate. Qed.

Lemma green_probes_exit : probes_exit H.
Proof. intros i d c inv cwd e _. rewrite green. discriminate. Qed.

Lemma green_check check_name check_function environment dir w :
  In (check_name, check_function) (the_checks H) ->
  exists w', check_function environment dir w = (Ok true, w').
Proof.
  intros I. repeat (destruct I as [[= <- <-]|I]); [..|destruct I].
  - unfold check_connectivity. rewrite with_inventory_present by apply present.
    match goal with
    | |- exists w', run_ansible_command H ?c ?i ?d ?x = _ =>
        destruct (run_ansible_command_exit H c i d x 0 (green _ _ _)) as (w' & -> & _)
    end. eauto.
  - unfold check_system_resources. rewrite with_inventory_present by apply present.
    match goal with
    | |- exists w', run_each H ?l ?i ?d true ?x = _ =>
        destruct (run_each_to_the_end H i d green_launches_exit l true x)
          as (b & w' & -> & _ & B)
    end.
    assert (b = true) as -> by (apply B; auto). eauto.
  - unfold check_services. rewrite with_inventory_present by apply present.
    match goal with
    | |- exists w', run_each H ?l ?i ?d true ?x = _ =>
        destruct (run_each_to_the_end H i d green_launches_exit l true x)
          as (b & w' & -> & _ & B)
    end.
    assert (b = true) as -> by (apply B; auto). eauto.
  - unfold check_docker_containers. rewrite with_inventory_present by apply present.
    match goal with
    | |- exists w', run_each H ?l ?i ?d true ?x = _ =>
        destruct (run_each_to_the_end H i d green_launches_exit l true x)
          as (b & w' & -> & _ & B)
    end.
    assert (b = true) as -> by (apply B; auto). eauto.
  - destruct (endpoint_check_reports_inventory H green_probes_exit environment dir w)
      as (w' & new & -> & _). rewrite present. eauto.
Qed.

Lemma green_checks environment dir l :
  (forall n c, In (n, c) l -> In (n, c) (the_checks H)) ->
  forall failed w, exists w',
    run_checks l environment dir failed w = (Ok failed, w').
Proof.
  induction l as [|[check_name check_function] l IH]; intros Sub failed w.
  - cbn. unfold ret. eauto.
  - rewrite run_checks_cons, bind_unfold, try_except_unfold.
    rewrite bind_said, bind_unfold.
    destruct (green_check check_name check_function environment dir
                (log (Said BLUE (RunningCheck check_name)) w)
                (Sub _ _ (or_introl eq_refl))) as (w1 & ->).
    unfold ret at 1. apply IH. intros n c I. apply Sub. right. exact I.
Qed.

End Green.

Lemma chosen_checks H a n c :
  In (n, c)
    ([ ("connectivity", check_connectivity H);
       ("system resources", check_system_resources H);
       ("services", check_services H);
       ("docker containers", check_docker_containers H) ]
     ++ (if skip_endpoints a then []
         else [("monitoring endpoints", check_monitoring_endpoints H)])) ->
  In (n, c) (the_checks H).
Proof.
  intros I. unfold the_checks. apply in_app_or in I. destruct I as [I|I].
  - repeat (destruct I as [I|I]; [rewrite <- I; cbn; tauto|]). destruct I.
  - destruct (skip_endpoints a); [destruct I|].
    destruct I as [<-|[]]. cbn. tauto.
Qed.

(** When every path is there and every ansible command exits with code
    0, [main] exits with status 0, with or without the endpoint
    checks. *)
Theorem all_green_exits_0 H a w :
  (forall i c d, ansible H i c d = Exit 0) ->
  (forall p, path_exists H p = true) ->
  exists w', main H a w = (Err (SystemExit 0), w').
Proof.
  intros G P. unfold main. cbv zeta. rewrite bind_said, bind_unfold.
  unfold exists_ at 1. rewrite P. cbn [negb]. rewrite bind_unfold.
  match goal with
  | |- context [run_checks ?l ?e ?d ?f ?x] =>
      destruct (green_checks H G P e d l (chosen_checks H a) f x) as (w1 & ->)
  end.
  rewrite !bind_said. eexists. reflexivity.
Qed.

Lemma all_green_exits_0_witness :
  exists w',
    main Scenario.healthy {| environment := "dev"; skip_endpoints := false |} boot
    = (Err (SystemExit 0), w').
Proof.
  apply (all_green_exits_0 Scenario.healthy
           {| environment := "dev"; skip_endpoints := false |} boot).
  - reflexivity.
  - reflexivity.
Defined.

(** When the ping of the connectivity check exits with a code other
    than 0, [main] exits with status 1, whatever the later checks
    find. *)
Theorem failed_ping_exits_1 H a w rc :
  let dir := joinpath (project_root H) "ansible" in
  let inventory := joinpath dir ("inventories/" ++ environment a ++ ".yml") in
  path_exists H dir = true ->
  path_exists H inventory = true ->
  ansible H (calls w) (full_command "all -m ping" inventory) (Some dir) = Exit rc ->
  rc <> 0%Z ->
  exists w', main H a w = (Err (SystemExit 1), w').
Proof.
  intros dir inventory D I A N. unfold main. cbv zeta. rewrite bind_said, bind_unfold.
  unfold exists_ at 1. fold dir. rewrite D. cbn [negb app]. rewrite bind_unfold.
  rewrite run_checks_cons, bind_unfold, try_except_unfold.
  rewrite bind_said, bind_unfold.
  unfold check_connectivity. rewrite with_inventory_present by exact I.
  fold inventory.
  match goal with
  | |- context [run_ansible_command H ?c ?i ?d ?x] =>
      destruct (run_ansible_command_exit H c i d x rc A) as (w1 & -> & _)
  end.
  destruct (Z.eqb_spec rc 0) as [Z|_]; [destruct (N Z)|].
  unfold ret at 1.
  match goal with
  | |- context [run_checks ?l ?e ?d ?f ?x] =>
      destruct (run_checks_returns H e d l) with (failed := f) (w := x)
        as (failed & w2 & R)
  end.
  { intros n c In. apply (chosen_checks H a). right. exact In. }
  rewrite R. destruct (run_checks_grows _ _ _ _ _ _ _ R) as (more & ->).
  cbn [app]. rewrite bind_said. rewrite bind_said, bind_unfold.
  match goal with
  | |- context [say_each ?l ?x] =>
      destruct (say_each_returns l x) as (w3 & ->)
  end.
  rewrite !bind_said. eexists. reflexivity.
Qed.

Lemma failed_ping_exits_1_witness :
  exists w',
    main Scenario.unreachable {| environment := "dev"; skip_endpoints := true |} boot
    = (Err (SystemExit 1), w').
Proof.
  apply (failed_ping_exits_1 Scenario.unreachable
           {| environment := "dev"; skip_endpoints := true |} boot 4).
  - reflexivity.
  - reflexivity.
  - reflexivity.
  - discriminate.
Defined.

End HealthMore.

(* ================================================================== *)
(** ** More on scripts/validate.py *)

Module ValidateMore.

Import Eff EffFacts Pathlib Validate ValidateFacts.

(** [run_test] never raises and counts each test once: it adds one to
    [tests_passed] and returns [True] when the command exits with code
    0, and adds one to [tests_failed] and returns [False] when it exits
    with another code, is cut off or cannot be run. *)
Theorem run_test_counts_once H test_name command cwd timeout w :
  exists b w',
    run_test H test_name command cwd timeout w = (Ok b, w')
    /\ (b = true <-> shell H (calls w) command cwd timeout = Exit 0)
    /\ tests_passed w' = ((if b then 1 else 0) + tests_passed w)%nat
    /\ tests_failed w' = ((if b then 0 else 1) + tests_failed w)%nat
    /\ calls w' = S (calls w).
Proof.
  unfold run_test. rewrite bind_print, bind_unfold. unfold launch at 1.
  cbn [calls log].
  destruct (shell H (calls w) command cwd timeout) as [rc| |e].
  - destruct (Z.eqb_spec rc 0) as [->|N].
    + exists true. eexists. split; [reflexivity|]. cbn. tauto.
    + exists false. eexists. split; [reflexivity|]. cbn.
      repeat split; try discriminate. intros [= ->]. destruct (N eq_refl).
  - exists false. eexists. split; [reflexivity|]. cbn.
    repeat split; discriminate.
  - exists false. eexists. split; [reflexivity|]. cbn.
    repeat split; discriminate.
Qed.

Section Host.

Variable H : host.

Lemma counting_ret {A} (a : A) : counting (ret a).
Proof. intros w. exists a, w. auto. Qed.

Lemma counting_bind {A B} (m : M A) (k : A -> M B) :
  counting m -> (forall a, counting (k a)) -> counting (bind m k).
Proof.
  intros Hm Hk w. rewrite bind_unfold.
  destruct (Hm w) as (a & w1 & -> & F1 & S1).
  destruct (Hk a w1) as (b & w2 & -> & F2 & S2).
  exists b, w2. repeat split; [lia|congruence].
Qed.

Lemma counting_say c m : counting (say c m).
Proof. intros w. exists tt, (log (Said c m) w). auto. Qed.

Lemma counting_pass : counting (act pass).
Proof. intros w. exists tt, (pass w). auto. Qed.

Lemma counting_fail : counting (act fail).
Proof. intros w. exists tt, (fail w). cbn. auto. Qed.

Lemma counting_exists p : counting (exists_ H p).
Proof. intros w. exists (path_exists H p), (log (Stat p) w). auto. Qed.

Lemma counting_run_test test_name command cwd timeout :
  counting (run_test H test_name command cwd timeout).
Proof.
  intros w. unfold run_test. rewrite bind_print, bind_unfold. unfold launch at 1.
  destruct (shell H _ command cwd timeout) as [rc| |e]; [destruct (rc =? 0)%Z| |].
  all: eexists; eexists; (split; [reflexivity|]); cbn; split; [lia|reflexivity].
Qed.

(** The files of a list are counted one by one. *)
Lemma check_files_count root l : forall w,
  exists w',
    check_files H root l w = (Ok tt, w')
    /\ tests_passed w' =
       (length (filter (fun f => path_exists H (joinpath root f)) l)
        + tests_passed w)%nat
    /\ tests_failed w' =
       (length (filter (fun f => negb (path_exists H (joinpath root f))) l)
        + tests_failed w)%nat
    /\ skip_docker_pull w' = skip_docker_pull w
    /\ calls w' = calls w.
Proof.
  induction l as [|f l IH]; intros w; cbn [check_files].
  - exists w. auto.
  - cbv zeta. rewrite bind_unfold. unfold exists_ at 1.
    cbn [filter]. destruct (path_exists H (joinpath root f)); cbn [negb].
    + rewrite bind_unfold, bind_print. unfold act at 1.
      match goal with
      | |- context [check_files H root l ?x] =>
          destruct (IH x) as (w' & -> & P & F & S & C)
      end.
      exists w'. split; [reflexivity|]. cbn [length]. cbn in P, F, S, C.
      repeat split; try lia; auto.
    + rewrite bind_unfold, bind_print. unfold act at 1.
      match goal with
      | |- context [check_files H root l ?x] =>
          destruct (IH x) as (w' & -> & P & F & S & C)
      end.
      exists w'. split; [reflexivity|]. cbn [length]. cbn in P, F, S, C.
      repeat split; try lia; auto.
Qed.

Lemma counting_check_files root l : counting (check_files H root l).
Proof.
  intros w. destruct (check_files_count root l w) as (w' & E & _ & F & S & _).
  exists tt, w'. split; [exact E|]. split; [lia|exact S].
Qed.

Lemma counting_pull_each l : counting (pull_each H l).
Proof.
  induction l as [|image l IH]; cbn [pull_each].
  - apply counting_ret.
  - apply counting_bind; [apply counting_run_test|intros _; exact IH].
Qed.

Lemma counting_check_docker_images : counting (check_docker_images H).
Proof.
  intros w. unfold check_docker_images.
  assert (P : counting
                (say BLUE (Heading "Checking Docker image availability...") ;;
                 say YELLOW (Heading "Tip: Set SKIP_DOCKER_PULL=true to skip image pulling") ;;
                 pull_each H images)).
  { apply counting_bind; [apply counting_say|intros _].
    apply counting_bind; [apply counting_say|intros _].
    apply counting_pull_each. }
  destruct (skip_docker_pull w) eqn:S.
  - eexists; eexists. split; [reflexivity|]. cbn. auto.
  - destruct (P w) as (a & w' & E & F & S'). exists a, w'.
    rewrite E. repeat split; [lia|congruence].
Qed.

Lemma counting_validate_config_file template_dir filename test_name :
  counting (validate_config_file H template_dir filename test_name).
Proof.
  intros w. unfold validate_config_file. cbv zeta.
  rewrite bind_unfold. unfold exists_ at 1.
  destruct (path_exists H (joinpath template_dir filename)).
  - unfold try_except, load_yaml. rewrite bind_unfold. unfold bind at 1, act at 1.
    destruct (read_text H _) as [content|].
    + destruct (yaml_loads H content).
      * unfold ret at 1. rewrite bind_print. unfold act.
        eexists; eexists. split; [reflexivity|]. cbn. auto.
      * unfold raise at 1. eexists; eexists. split; [reflexivity|]. cbn. auto.
    + unfold raise at 1. eexists; eexists. split; [reflexivity|]. cbn. auto.
  - rewrite bind_print. unfold act.
    eexists; eexists. split; [reflexivity|]. cbn. auto.
Qed.

Lemma counting_validate_each template_dir l :
  counting (validate_each H template_dir l).
Proof.
  induction l as [|[filename test_name] l IH]; cbn [validate_each].
  - apply counting_ret.
  - apply counting_bind; [apply counting_validate_config_file|intros _; exact IH].
Qed.

Ltac count_on :=
  repeat first
    [ apply counting_say
    | apply counting_ret
    | apply counting_run_test
    | apply counting_exists
    | apply counting_check_docker_images
    | apply counting_check_files
    | apply counting_validate_each
    | match goal with
      | |- counting (if ?b then _ else _) => destruct b
      | |- counting (check_prerequisites _) => unfold check_prerequisites
      | |- counting (check_file_structure _ _) => unfold check_file_structure
      | |- counting (validate_ansible_syntax _ _) =>
          unfold validate_ansible_syntax; cbv zeta
      | |- counting (test_template_rendering _ _) =>
          unfold test_template_rendering; cbv zeta
      | |- counting (validate_config_files _ _) =>
          unfold validate_config_files; cbv zeta
      | |- counting (bind _ _) => apply counting_bind; [|intro]
      end ].

(** What follows the check of the file structure, up to the summary. *)
Lemma counting_late_steps :
  counting
    (validate_ansible_syntax H (project_root H) ;;
     test_template_rendering H (project_root H) ;;
     check_docker_images H ;;
     validate_config_files H (project_root H)).
Proof. count_on. Qed.

Lemma counting_check_prerequisites : counting (check_prerequisites H).
Proof. count_on. Qed.

(** [main], stage by stage. *)
Lemma main_stages w :
  main H w =
  bind (say BLUE (Heading "Running pre-deployment validation...") ;;
        check_prerequisites H)
    (fun _ =>
       bind (check_file_structure H (project_root H))
         (fun _ =>
            bind (validate_ansible_syntax H (project_root H) ;;
                  test_template_rendering H (project_root H) ;;
                  check_docker_images H ;;
                  validate_config_files H (project_root H))
              (fun _ =>
                 success <- print_summary ;;
                 sys_exit (if success then 0 else 1)%Z))) w.
Proof.
  unfold main. cbv zeta. unfold bind.
  repeat match goal with
  | |- context [match ?m ?x with _ => _ end] =>
      lazymatch m with
      | print_summary => fail
      | _ => destruct (m x) as [[?|?|] ?]
      end
  end; reflexivity.
Qed.

(** The summary turns the counter into the exit status. *)
Lemma summary_exits w :
  exists w',
    (success <- print_summary ;;
     (sys_exit (if success then 0 else 1)%Z : M unit)) w
    = (Err (SystemExit (if (tests_failed w =? 0)%nat then 0 else 1)), w')
    /\ tests_failed w' = tests_failed w.
Proof.
  rewrite bind_unfold. unfold print_summary at 1. rewrite !bind_print.
  destruct (tests_failed w =? 0)%nat eqn:Z; rewrite bind_print; unfold ret;
    eexists; (split; [reflexivity|]); reflexivity.
Qed.

End Host.

(** [check_file_structure] counts each of the six required files once,
    the missing ones as failed, and launches nothing. *)
Theorem check_file_structure_counts H root w :
  exists w',
    check_file_structure H root w = (Ok tt, w')
    /\ tests_failed w' =
       (length (filter (fun f => negb (path_exists H (joinpath root f)))
                  required_files)
        + tests_failed w)%nat
    /\ (tests_passed w' + tests_failed w'
        = 6 + (tests_passed w + tests_failed w))%nat
    /\ calls w' = calls w.
Proof.
  unfold check_file_structure. rewrite bind_print.
  destruct (check_files_count H root required_files
              (log (Said BLUE (Heading "Checking file structure...")) w))
    as (w' & E & P & F & _ & C).
  exists w'. split; [exact E|]. cbn [tests_passed tests_failed calls log] in *.
  split; [exact F|]. split; [|exact C].
  rewrite P, F.
  assert (L : forall l : list string,
             (length (filter (fun f => path_exists H (joinpath root f)) l)
              + length (filter (fun f => negb (path_exists H (joinpath root f))) l)
              = length l)%nat).
  { induction l as [|f l IH]; [reflexivity|]. cbn [filter].
    destruct (path_exists H (joinpath root f)); cbn [negb length]; lia. }
  specialize (L required_files). cbn [length required_files] in L. lia.
Qed.

(** [SKIP_DOCKER_PULL] is read without regard to case, and when it says
    true no image is pulled: [check_docker_images] prints one line,
    launches nothing and counts nothing. *)
Theorem skip_docker_pull_skips H value w :
  getenv H "SKIP_DOCKER_PULL" = Some value ->
  Py.lower value = "true" ->
  skip_docker_pull (init H) = true
  /\ (skip_docker_pull w = true ->
      check_docker_images H w =
      (Ok tt,
       log (Said BLUE (Heading "Skipping Docker image pulls (SKIP_DOCKER_PULL=true)")) w)).
Proof.
  intros G L. split.
  - unfold init. cbn [skip_docker_pull]. rewrite G, L. reflexivity.
  - intros S. unfold check_docker_images. rewrite S. reflexivity.
Qed.

Lemma skip_docker_pull_skips_witness :
  skip_docker_pull (init Scenario.offline) = true
  /\ (skip_docker_pull (init Scenario.offline) = true ->
      check_docker_images Scenario.offline (init Scenario.offline) =
      (Ok tt,
       log (Said BLUE (Heading "Skipping Docker image pulls (SKIP_DOCKER_PULL=true)"))
         (init Scenario.offline))).
Proof.
  apply (skip_docker_pull_skips Scenario.offline "True" (init Scenario.offline)).
  - reflexivity.
  - reflexivity.
Defined.

(** As long as the calls of [exists()] answer, no exception leaves
    [main]: it ends in [sys.exit], with status 0 when [tests_failed] is
    0 at the summary and with status 1 otherwise. *)
Theorem main_exits_by_the_counter H :
  exists code w',
    main H (init H) = (Err (SystemExit code), w')
    /\ code = (if (tests_failed w' =? 0)%nat then 0 else 1)%Z.
Proof.
  rewrite main_stages, bind_unfold.
  destruct (counting_bind _ _ (counting_say BLUE (Heading "Running pre-deployment validation..."))
              (fun _ => counting_check_prerequisites H) (init H))
    as (a1 & w1 & -> & _).
  rewrite bind_unfold.
  destruct (counting_check_files H (project_root H) required_files
              (log (Said BLUE (Heading "Checking file structure...")) w1))
    as (a2 & w2 & E2 & _).
  unfold check_file_structure. rewrite bind_print, E2, bind_unfold.
  destruct (counting_late_steps H w2) as (a3 & w3 & -> & _).
  destruct (summary_exits w3) as (w4 & -> & F).
  eexists; eexists. split; [reflexivity|]. rewrite F. reflexivity.
Qed.

(** One required file missing is enough for [main] to exit with status
    1, whatever else passes. *)
Theorem missing_file_exits_1 H f :
  In f required_files ->
  path_exists H (joinpath (project_root H) f) = false ->
  exists w', main H (init H) = (Err (SystemExit 1), w').
Proof.
  intros I E.
  rewrite main_stages, bind_unfold.
  destruct (counting_bind _ _ (counting_say BLUE (Heading "Running pre-deployment validation..."))
              (fun _ => counting_check_prerequisites H) (init H))
    as (a1 & w1 & -> & _).
  rewrite bind_unfold.
  unfold check_file_structure. rewrite bind_print.
  destruct (check_files_count H (project_root H) required_files
              (log (Said BLUE (Heading "Checking file structure...")) w1))
    as (w2 & -> & _ & F2 & _).
  cbn [tests_failed log] in F2.
  rewrite bind_unfold.
  destruct (counting_late_steps H w2) as (a3 & w3 & -> & F3 & _).
  destruct (summary_exits w3) as (w4 & -> & _).
  assert (P : (0 < length (filter (fun f => negb (path_exists H (joinpath (project_root H) f)))
                             required_files))%nat).
  { assert (In f (filter (fun f => negb (path_exists H (joinpath (project_root H) f)))
                    required_files)) as J.
    { apply filter_In. split; [exact I|]. rewrite E. reflexivity. }
    destruct (filter _ required_files); [destruct J|cbn; lia]. }
  destruct (tests_failed w3 =? 0)%nat eqn:Z.
  - apply Nat.eqb_eq in Z. lia.
  - eauto.
Qed.

Lemma missing_file_exits_1_witness :
  exists w',
    main Scenario.incomplete (init Scenario.incomplete) = (Err (SystemExit 1), w').
Proof.
  apply (missing_file_exits_1 Scenario.incomplete "ansible/playbooks/site.yml").
  - left. reflexivity.
  - reflexivity.
Defined.

End ValidateMore.

(* ================================================================== *)
(** ** More on the two waits of scripts/test_local.py *)

Module WaitFacts.

Import Eff EffFacts TestLocal.
Import ContainerWait Steps SshWait.

Open Scope N_scope.

(** A container found stopped, with a log that can be fetched, ends
    the wait on host [Scenario.stopped]. *)
Lemma exited_fails_fast_witness :
  fst (wait_for_container_healthy Scenario.stopped "test-vps" 5 boot) = Ok false
  /\ existsb says_ready
       (trace (snd (wait_for_container_healthy Scenario.stopped "test-vps" 5 boot)))
     = false
  /\ existsb is_sleep
       (since_exited
          (trace (snd (wait_for_container_healthy Scenario.stopped "test-vps" 5 boot))))
     = false
  /\ filter is_launch
       (since_exited
          (trace (snd (wait_for_container_healthy Scenario.stopped "test-vps" 5 boot))))
     = filter is_log_fetch
         (trace (snd (wait_for_container_healthy Scenario.stopped "test-vps" 5 boot)))
  /\ length
       (filter is_log_fetch
          (trace (snd (wait_for_container_healthy Scenario.stopped "test-vps" 5 boot))))
     = 1%nat.
Proof.
  apply (exited_fails_fast Scenario.stopped "test-vps" 5 boot
           (fst (wait_for_container_healthy Scenario.stopped "test-vps" 5 boot))
           (snd (wait_for_container_healthy Scenario.stopped "test-vps" 5 boot))
           (trace (snd (wait_for_container_healthy Scenario.stopped "test-vps" 5 boot)))).
  - vm_compute. reflexivity.
  - vm_compute. reflexivity.
  - vm_compute. reflexivity.
  - vm_compute. reflexivity.
Defined.

(** A listing that cannot be run, on host [Scenario.dockerless]. *)
Lemma raising_listing_is_not_a_verdict_witness :
  exists w', container_poll Scenario.dockerless "web" boot = (Ok Next, w').
Proof.
  apply (raising_listing_is_not_a_verdict Scenario.dockerless "web" boot "OSError").
  vm_compute. reflexivity.
Defined.

(** [run_command] passes on what [subprocess.run] raises. *)
Lemma run_command_raises H command cwd check timeout verbose w e :
  answer (proc H (calls w) command) timeout = Raised e ->
  exists w',
    run_command H command cwd check timeout verbose w = (Err (Exception e), w')
    /\ calls w' = S (calls w).
Proof.
  intros A. open_poll. destruct verbose; cbv beta iota; cbn [calls log];
    rewrite A; eexists; split; reflexivity.
Qed.

Section Unready.

Variable H : host.
Variable name : string.
Variables start timeout : N.

Hypothesis unready : forall i, active_and_listening H name i = false.

(** While SSH is not ready the loop goes on to the final diagnostics. *)
Lemma unready_loop_gives_up fuel : forall w,
  start <= clock w ->
  (N.to_nat ((start + secs timeout - clock w + 2999) / 3000) + 1 <= fuel)%nat ->
  exists w1,
    ssh_loop H fuel name start timeout w = ssh_give_up H name timeout w1
    /\ (calls w <= calls w1)%nat.
Proof.
  induction fuel as [|fuel IH]; intros w Hs Hf; [lia|].
  cbn [ssh_loop]. rewrite bind_unfold. unfold now at 1.
  destruct (N.ltb_spec (clock w - start) (secs timeout)) as [G|G].
  - destruct (ssh_poll_cases H name w) as (w1 & E & C & N).
    rewrite bind_unfold, E, unready, bind_unfold. unfold sleep at 1, act at 1.
    destruct (IH (log (Slept (secs 3)) (tick (secs 3) w1))) as (w2 & -> & L).
    { cbn [clock log tick]. unfold secs. lia. }
    { cbn [clock log tick]. unfold secs in *. lia. }
    exists w2. split; [reflexivity|]. cbn [calls log tick] in L. lia.
  - exists w. split; [reflexivity|]. lia.
Qed.

End Unready.

(** The [try] of [wait_for_ssh_service] ends with the loop: when SSH
    never gets ready and the first of the final diagnostics cannot be
    run, the wait raises instead of returning [False]. *)
Theorem final_diagnostics_are_unguarded H name timeout w e :
  (forall i, active_and_listening H name i = false) ->
  (forall i,
     answer
       (proc H i ("docker exec " ++ name ++ " systemctl status ssh --no-pager -l")) 10
     = Raised e) ->
  exists w', wait_for_ssh_service H name timeout w = (Err (Exception e), w').
Proof.
  intros U R.
  unfold wait_for_ssh_service. rewrite bind_unfold. unfold say at 1, act at 1.
  rewrite bind_unfold. unfold now at 1. cbn [clock log].
  destruct (unready_loop_gives_up H name (clock w) timeout U (polls 3 timeout)
              (log (Said YELLOW WaitingForSsh) w)) as (w1 & -> & _).
  { cbn [clock log]. lia. }
  { unfold polls, secs. cbn [clock log]. lia. }
  unfold ssh_give_up. rewrite bind_unfold. unfold say at 1, act at 1.
  rewrite bind_unfold.
  destruct (run_command_raises H _ None false 10 true
              (log (Said YELLOW FinalSshDiagnostics) w1) e (R _)) as (w2 & -> & _).
  eauto.
Qed.

Lemma final_diagnostics_are_unguarded_witness :
  exists w',
    wait_for_ssh_service Scenario.undiagnosable "test-vps" 6 boot
    = (Err (Exception "OSError"), w').
Proof.
  apply (final_diagnostics_are_unguarded Scenario.undiagnosable "test-vps" 6 boot
           "OSError").
  - intros i. reflexivity.
  - intros i. reflexivity.
Defined.

End WaitFacts.

(* ================================================================== *)
(** ** scripts/deployment/deploy.py *)

Module DeployFacts.

Import Eff EffFacts Pathlib Deploy.

Ltac open_run :=
  cbv beta iota zeta delta
    [main check_prerequisites check_tools tools ansible_syntax_check ansible_check
     ansible_deploy ansible_cleanup require_inventory run_command subprocess_run
     launch exists_ bind say act ret raise sys_exit andb negb result_returncode
     e_returncode e_stderr e_cmd truthy text_of ansible_dir inventory_file];
  change ("command -v " ++ "ansible-playbook") with "command -v ansible-playbook" in *;
  cbn [calls trace log] in *.

Ltac new_events l t :=
  lazymatch l with
  | t => constr:(@nil event)
  | ?e :: ?l' => let r := new_events l' t in constr:(e :: r)
  end.

(** Name the result, the final world and the events a run added to
    the trace, once the run has been evaluated to a pair. *)
Ltac give_run w :=
  lazymatch goal with
  | |- exists r w' new, (?r0, ?w0) = _ /\ _ =>
      let l := eval cbn [trace log] in (trace w0) in
      let n := new_events l (trace w) in
      exists r0, w0, n; split; [reflexivity|]; split; [reflexivity|]
  end.

Ltac give_world w :=
  lazymatch goal with
  | |- exists w' new, (_, ?w0) = _ /\ _ =>
      let l := eval cbn [trace log] in (trace w0) in
      let n := new_events l (trace w) in
      exists w0, n; split; [reflexivity|]; split; [reflexivity|]
  end.

Ltac step := cbv beta iota; cbn [calls trace log returncode stderr Z.eqb].

Ltac split_run := split_case; cbn [calls trace log returncode stderr] in *.

(** The line of [check_prerequisites] for a missing tool is never
    printed: [run_command] runs the query with [check=True], so that a
    return code other than 0 ends the script inside [run_command],
    after its own "Command failed" line, and a return code of 0 passes
    the test of line 52. *)
Theorem missing_tool_line_is_never_printed H w :
  exists r w' new,
    check_prerequisites H w = (r, w')
    /\ trace w' = (new ++ trace w)%list
    /\ existsb says_not_installed new = false
    /\ calls w' = S (calls w)
    /\ match shell H (calls w) "command -v ansible-playbook" None with
       | Exit p =>
           if (returncode p =? 0)%Z then r = Ok tt
           else r = Err (SystemExit 1) /\ existsb says_command_failed new = true
       | Crash e => r = Err (Exception e)
       end.
Proof.
  open_run.
  destruct (shell H (calls w) "command -v ansible-playbook" None) as [p|e] eqn:Q;
    cbv beta iota; cbn [calls trace log returncode stderr].
  - destruct (returncode p =? 0)%Z eqn:Z; cbv beta iota.
    + rewrite Z. cbv beta iota.
      give_run w. split; [reflexivity|]. split; reflexivity.
    + destruct (Py.truthy (stderr p)); cbv beta iota.
      all: give_run w.
      all: split; [reflexivity|]; split; [reflexivity|]; split; reflexivity.
  - give_run w. split; [reflexivity|]. split; reflexivity.
Qed.

(** [main] launches two commands at most: the query for the tool, and
    then the playbook of the chosen action, from the ansible directory
    and with the inventory file that was found there. *)
Theorem playbooks_run_from_the_ansible_directory H a w :
  exists r w' new,
    main H a w = (r, w')
    /\ trace w' = (new ++ trace w)%list
    /\ Forall (launch_of H a) new
    /\ (calls w' <= 2 + calls w)%nat.
Proof.
  open_run.
  repeat split_run.
  all: give_run w.
  all: split; [|cbn [calls trace log]; lia].
  all: repeat (apply Forall_cons; [|]); try apply Forall_nil.
  all: try exact I.
  all: cbn [launch_of].
  all: try match goal with E : action _ = _ |- _ => rewrite E end.
  all: cbn [playbook_command].
  all: first [ left; split; reflexivity
             | right; split; [reflexivity|]; split; [reflexivity|];
               unfold inventory_file, ansible_dir; assumption ].
Qed.

(** The exit status of the script is 0 or 1; without the ansible
    directory it is 1 and nothing is launched; without the inventory
    file of the environment it is 1 and no playbook is run. *)
Theorem exit_status_of_main H a w :
  exists r w',
    main H a w = (r, w')
    /\ (exit_status r = Some 0%Z \/ exit_status r = Some 1%Z)
    /\ (path_exists H (ansible_dir H) = false ->
        r = Err (SystemExit 1) /\ calls w' = calls w)
    /\ (path_exists H (inventory_file H a) = false ->
        exit_status r = Some 1%Z /\ (calls w' <= S (calls w))%nat).
Proof.
  open_run.
  repeat split_run.
  all: eexists; eexists; (split; [reflexivity|]).
  all: cbn [exit_status calls].
  all: split; [auto|].
  all: split; intros F; try congruence; auto.
Qed.

(** For [check], [plan] and [apply], once the directory, the inventory
    and the tool are there, the return code of the playbook decides:
    with 0 [main] returns after its closing line, with any other code
    the script exits with status 1 and the closing line is not
    printed. *)
Theorem playbook_decides_the_exit H a w p0 p :
  action a <> DoCleanup ->
  path_exists H (ansible_dir H) = true ->
  path_exists H (inventory_file H a) = true ->
  shell H (calls w) "command -v ansible-playbook" None = Exit p0 ->
  returncode p0 = 0%Z ->
  shell H (S (calls w)) (playbook_command (action a) (environment a))
    (Some (ansible_dir H)) = Exit p ->
  exists w',
    main H a w = ((if (returncode p =? 0)%Z then Ok tt else Err (SystemExit 1)), w')
    /\ calls w' = S (S (calls w))
    /\ hd_error (trace w') =
       (if (returncode p =? 0)%Z then Some (Said GREEN OperationCompleted)
        else if Py.truthy (stderr p) then Some (Said RED (ErrorText (stderr p)))
        else Some (Said RED (CommandFailed (playbook_command (action a) (environment a))))).
Proof.
  intros A D I Q Z R. unfold inventory_file, ansible_dir in *.
  open_run. rewrite D. step. rewrite Q. step. repeat (rewrite Z; step).
  destruct (action a); try (destruct (A eq_refl)); cbn [playbook_command] in *.
  all: step; rewrite I; step; rewrite R; step.
  all: destruct (returncode p =? 0)%Z; step.
  all: try destruct (Py.truthy (stderr p)); step.
  all: eexists; split; [reflexivity|]; split; reflexivity.
Qed.

Lemma playbook_decides_the_exit_witness :
  exists w',
    main Scenario.failing_playbooks {| environment := "production"; action := DoApply |}
      boot
    = (Err (SystemExit 1), w')
    /\ calls w' = S (S (calls boot))
    /\ hd_error (trace w') =
       Some (Said RED (ErrorText "ERROR! the playbook could not be run")).
Proof.
  apply (playbook_decides_the_exit Scenario.failing_playbooks
           {| environment := "production"; action := DoApply |} boot
           {| returncode := 0; stdout := ""; stderr := "" |}
           {| returncode := 2; stdout := "";
              stderr := "ERROR! the playbook could not be run" |}).
  - discriminate.
  - reflexivity.
  - reflexivity.
  - reflexivity.
  - reflexivity.
  - reflexivity.
Defined.

(** [cleanup] cannot fail on its playbook: the playbook is run with
    [check=False], so that whatever its return code [main] says nothing
    about a failure and returns after its closing line; and a missing
    cleanup playbook is skipped with one line. *)
Theorem cleanup_cannot_fail H a w p0 :
  action a = DoCleanup ->
  path_exists H (ansible_dir H) = true ->
  path_exists H (inventory_file H a) = true ->
  shell H (calls w) "command -v ansible-playbook" None = Exit p0 ->
  returncode p0 = 0%Z ->
  (forall command cwd e, shell H (S (calls w)) command cwd <> Crash e) ->
  exists w' new,
    main H a w = (Ok tt, w')
    /\ trace w' = (new ++ trace w)%list
    /\ existsb says_command_failed new = false
    /\ hd_error new = Some (Said GREEN OperationCompleted)
    /\ (if path_exists H (joinpath (ansible_dir H) "playbooks/cleanup.yml")
        then calls w' = S (S (calls w))
        else calls w' = S (calls w) /\ In (Said YELLOW NoCleanupPlaybook) new).
Proof.
  intros A D I Q Z C. unfold inventory_file, ansible_dir in *.
  open_run. rewrite D. step. rewrite Q. step. repeat (rewrite Z; step). rewrite A. step.
  rewrite I. step.
  destruct (path_exists H
              (joinpath (joinpath (project_root H) "ansible") "playbooks/cleanup.yml"));
    step.
  - match goal with
    | |- context [shell H (S (calls w)) ?c ?d] =>
        destruct (shell H (S (calls w)) c d) as [p|e] eqn:R;
          [|destruct (C _ _ _ R)]
    end.
    step. give_world w. split; [reflexivity|]. split; reflexivity.
  - give_world w. split; [reflexivity|]. split; [reflexivity|].
    split; [reflexivity|]. cbn. tauto.
Qed.

Lemma cleanup_cannot_fail_witness :
  exists w' new,
    main Scenario.failing_playbooks {| environment := "production"; action := DoCleanup |}
      boot = (Ok tt, w')
    /\ trace w' = (new ++ trace boot)%list
    /\ existsb says_command_failed new = false
    /\ hd_error new = Some (Said GREEN OperationCompleted)
    /\ (if path_exists Scenario.failing_playbooks
             (joinpath (ansible_dir Scenario.failing_playbooks) "playbooks/cleanup.yml")
        then calls w' = S (S (calls boot))
        else calls w' = S (calls boot) /\ In (Said YELLOW NoCleanupPlaybook) new).
Proof.
  apply (cleanup_cannot_fail Scenario.failing_playbooks
           {| environment := "production"; action := DoCleanup |} boot
           {| returncode := 0; stdout := ""; stderr := "" |}).
  - reflexivity.
  - reflexivity.
  - reflexivity.
  - reflexivity.
  - reflexivity.
  - intros command cwd e. cbn [Scenario.failing_playbooks shell].
    destruct (Py.startswith _ _); discriminate.
Defined.

End DeployFacts.
